(** * SYNRAX request-admission and caching control plane

    A shallow embedding of the parts of the service that the specification
    calls THE CORE:

    - [src/security.py]: [SessionManager] (session registry) and
      [SecurityMiddleware.dispatch] (admission filter);
    - [src/config.py]: the resolved configuration values these consume;
    - [src/cache.py]: [CacheManager], the degrade-gracefully cache store;
    - [web_new.py]: the [/report] handler and [generate_report_background],
      the single-flight job coordinator, run on a model of the asyncio
      event loop.

    Modelling conventions.  Python objects mutated in place become explicit
    state passing: a method [m(self, args)] is a function from the arguments
    and the object to a result and the new object.  Clock readings
    ([time.time()], the Redis server clock) are exact rationals passed in by
    the caller.  Python exceptions are values of [exn] carried by [outcome].
    Dictionaries used as maps are [gmap]s; JSON-like values are [pyval]. *)

From Stdlib Require Import QArith Lqa ZArith String Ascii List DecimalString.
From stdpp Require Import gmap strings list fin_maps.

Set Warnings "-register-all".

Local Open Scope string_scope.
Local Open Scope Z_scope.

(** ** Python values, truthiness and exceptions *)

(** The JSON-shaped fragment of Python values that flows through the cache
    and the report endpoint.  [PDict] keeps insertion order, as Python
    dictionaries do. *)
Inductive pyval : Type :=
  | PNone
  | PBool (b : bool)
  | PInt (n : Z)
  | PStr (s : string)
  | PList (l : list pyval)
  | PDict (d : list (string * pyval)).

(** [bool(v)]: what [if v:] tests. *)
Definition truthy (v : pyval) : bool :=
  match v with
  | PNone => false
  | PBool b => b
  | PInt n => negb (n =? 0)%Z
  | PStr s => negb (String.eqb s EmptyString)
  | PList l => match l with [] => false | _ => true end
  | PDict d => match d with [] => false | _ => true end
  end.

(** [bool(b)] for a byte string returned by the Redis client. *)
Definition truthy_bytes (s : string) : bool := negb (String.eqb s EmptyString).

(** Exceptions, with the message [str(e)] renders. *)
Inductive exn : Type :=
  | ConnectionError (msg : string)
  | ResponseError (msg : string)
  | TypeError (msg : string)
  | ValueError (msg : string)
  | JSONDecodeError (msg : string)
  | HTTPException (status_code : Z) (detail : string).

Definition is_HTTPException (e : exn) : bool :=
  match e with HTTPException _ _ => true | _ => false end.

Definition dec_of_Z (n : Z) : string := NilZero.string_of_int (Z.to_int n).

(** [str(e)] *)
Definition exn_str (e : exn) : string :=
  match e with
  | ConnectionError m | ResponseError m | TypeError m | ValueError m
  | JSONDecodeError m => m
  | HTTPException c d => dec_of_Z c ++ ": " ++ d
  end.

(** The result of running a Python call: a value, or a raised exception. *)
Inductive outcome (A : Type) : Type :=
  | Returned (a : A)
  | Raised (e : exn).
Arguments Returned {A} a.
Arguments Raised {A} e.

(** [try: body / except Exception as e: handler(e)] *)
Definition try_except {A : Type} (body : outcome A) (handler : exn -> outcome A)
  : outcome A :=
  match body with
  | Returned a => Returned a
  | Raised e => handler e
  end.

(** The same around a body that threads a state. *)
Definition try_except_st {A S : Type} (body : outcome A * S)
    (handler : exn -> S -> outcome A * S) : outcome A * S :=
  match body with
  | (Returned a, s) => (Returned a, s)
  | (Raised e, s) => handler e s
  end.

(** [x > y] on clock readings. *)
Definition Qgtb (x y : Q) : bool := negb (Qle_bool x y).

(** ** Session registry ([src/security.py], class [SessionManager]) *)

Module Security.

(** The per-session dictionary
    [{'client_id': .., 'created_at': .., 'last_accessed': ..}]. *)
Record Session : Type := mkSession {
  client_id : string;
  created_at : Q;
  last_accessed : Q
}.

Record SessionManager : Type := mkSessionManager {
  secret_key : string;
  lifetime : Z;
  sessions : gmap string Session
}.

(** [SessionManager.__init__] *)
Definition init (secret : string) (life : Z) : SessionManager :=
  mkSessionManager secret life ∅.

Definition with_sessions (sm : SessionManager) (m : gmap string Session)
  : SessionManager :=
  mkSessionManager (secret_key sm) (lifetime sm) m.

(** [create_session].  [token] is the value drawn by
    [secrets.token_urlsafe(32)]; [t_created] and [t_accessed] are the two
    successive readings of [time.time()] that fill the dictionary. *)
Definition create_session (token : string) (t_created t_accessed : Q)
    (client : string) (sm : SessionManager) : string * SessionManager :=
  let session_id := token in
  (session_id,
   with_sessions sm
     (<[session_id := mkSession client t_created t_accessed]> (sessions sm))).

(** [validate_session].  The session dictionary is aliased by the
    registry, so the assignment to [session['last_accessed']] is an update
    of the registry entry. *)
Definition validate_session (session_id : string) (current_time : Q)
    (sm : SessionManager) : bool * SessionManager :=
  match sessions sm !! session_id with
  | None => (false, sm)
  | Some session =>
      if Qgtb (current_time - created_at session) (inject_Z (lifetime sm))
      then (false, with_sessions sm (delete session_id (sessions sm)))
      else (true,
            with_sessions sm
              (<[session_id := mkSession (client_id session)
                                 (created_at session) current_time]>
                 (sessions sm)))
  end.

(** [end_session] *)
Definition end_session (session_id : string) (sm : SessionManager)
  : SessionManager :=
  match sessions sm !! session_id with
  | Some _ => with_sessions sm (delete session_id (sessions sm))
  | None => sm
  end.

(** Calls made on one registry over time. *)
Inductive call : Type :=
  | Create (token : string) (t_created t_accessed : Q) (client : string)
  | Validate (session_id : string) (current_time : Q)
  | End (session_id : string).

Definition run_call (c : call) (sm : SessionManager) : SessionManager :=
  match c with
  | Create token t1 t2 client => snd (create_session token t1 t2 client sm)
  | Validate sid now => snd (validate_session sid now sm)
  | End sid => end_session sid sm
  end.

Definition run_calls (cs : list call) (sm : SessionManager) : SessionManager :=
  fold_left (fun s c => run_call c s) cs sm.

(** No [create_session] in the call draws the token [sid] again. *)
Definition fresh_for (sid : string) (c : call) : Prop :=
  match c with
  | Create token _ _ _ => token <> sid
  | _ => True
  end.

(** Whatever is called on the registry, short of drawing the same token
    again, the session under [sid] is either gone or still carries its
    creation time, and the lifetime never changes. *)
Definition same_birth (sid : string) (born : Q) (life : Z)
    (sm : SessionManager) : Prop :=
  lifetime sm = life /\
  match sessions sm !! sid with
  | Some s' => created_at s' = born
  | None => True
  end.

End Security.

(** ** Python string and dictionary helpers *)

Module Py.

(** Code points below 256 for which [str.isspace] holds; [int(s)] and
    [s.strip()] drop them at both ends. *)
Definition is_space (c : ascii) : bool :=
  let n := nat_of_ascii c in
  ((9 <=? n) && (n <=? 13) || (28 <=? n) && (n <=? 32)
   || (n =? 133) || (n =? 160))%nat.

Definition is_digit (c : ascii) : bool :=
  let n := nat_of_ascii c in ((48 <=? n) && (n <=? 57))%nat.

Definition digit_val (c : ascii) : Z := Z.of_nat (nat_of_ascii c) - 48.

Fixpoint lstrip (l : list ascii) : list ascii :=
  match l with
  | c :: l' => if is_space c then lstrip l' else l
  | [] => []
  end.

(** [s.strip()] *)
Definition strip (l : list ascii) : list ascii :=
  rev (lstrip (rev (lstrip l))).

(** Decimal digits with single underscores between them, as [int]
    accepts; [prev] tells whether the previous character was a digit. *)
Fixpoint digits (acc : Z) (prev : bool) (l : list ascii) : option Z :=
  match l with
  | [] => if prev then Some acc else None
  | c :: l' =>
      if is_digit c then digits (10 * acc + digit_val c) true l'
      else if Ascii.eqb c "_"%char
           then (if prev then digits acc false l' else None)
           else None
  end.

(** [int(s)] for a string [s]: [ValueError] unless [s] is an optionally
    signed decimal literal, possibly surrounded by white space. *)
Definition int_of_str (s : string) : outcome Z :=
  let body := strip (list_ascii_of_string s) in
  let parsed :=
    match body with
    | c :: rest =>
        if Ascii.eqb c "-"%char then option_map Z.opp (digits 0 false rest)
        else if Ascii.eqb c "+"%char then digits 0 false rest
        else digits 0 false body
    | [] => None
    end in
  match parsed with
  | Some n => Returned n
  | None => Raised (ValueError "invalid literal for int() with base 10")
  end.

(** [s.split(sep)[0]] for a one-character separator: the text before
    the first [sep], the whole of [s] when there is none. *)
Fixpoint split_head (sep : ascii) (s : string) : string :=
  match s with
  | EmptyString => EmptyString
  | String c s' =>
      if Ascii.eqb c sep then EmptyString else String c (split_head sep s')
  end.

(** [c.lower()] on ASCII letters. *)
Definition lower_ascii (c : ascii) : ascii :=
  let n := nat_of_ascii c in
  if ((65 <=? n) && (n <=? 90))%nat then ascii_of_nat (n + 32) else c.

Fixpoint lower (s : string) : string :=
  match s with
  | EmptyString => EmptyString
  | String c s' => String (lower_ascii c) (lower s')
  end.

(** Insertion-ordered dictionaries with string keys. *)
Definition dict (V : Type) : Type := list (string * V).

(** [d.get(k)] *)
Fixpoint dict_get {V : Type} (k : string) (d : dict V) : option V :=
  match d with
  | [] => None
  | (k', v) :: d' => if String.eqb k' k then Some v else dict_get k d'
  end.

(** [d[k] = v]: an existing key keeps its position, a new one is
    appended. *)
Fixpoint dict_set {V : Type} (k : string) (v : V) (d : dict V) : dict V :=
  match d with
  | [] => [(k, v)]
  | (k', v') :: d' =>
      if String.eqb k' k then (k, v) :: d' else (k', v') :: dict_set k v d'
  end.

End Py.

(** ** Configuration ([src/config.py]) *)

Module Config.

Record SecurityConfig : Type := mkSecurityConfig {
  ALLOWED_HOSTS : list string;
  MAX_REQUEST_SIZE : Z;
  RATE_LIMIT : Z;
  SESSION_LIFETIME : Z;
  CSP_POLICY : Py.dict (list string)
}.

(** The class attributes of [SecurityConfig]. *)
Definition security_defaults : SecurityConfig :=
  {| ALLOWED_HOSTS := ["localhost"; "127.0.0.1"; "testserver"];
     MAX_REQUEST_SIZE := 1024 * 1024;
     RATE_LIMIT := 60;
     SESSION_LIFETIME := 3600;
     CSP_POLICY :=
       [("default-src", ["'self'"]);
        ("script-src", ["'self'"]);
        ("style-src", ["'self'"]);
        ("font-src", ["'self'"]);
        ("img-src", ["'self'"; "data:"; "blob:"; "https://www.gstatic.com"]);
        ("connect-src", ["'self'"; "ws:"; "wss:"; "http://localhost:11434"]);
        ("frame-src", ["'self'"; "https://www.google.com";
                       "https://translate.google.com"])] |}.

(** The resolved values that the core reads from a [Config] object. *)
Record t : Type := mkConfig {
  secret_key : string;
  redis_url : string;
  cache_enabled : bool;
  cache_ttl : Z;
  security : SecurityConfig;
  max_request_size : Z;
  session_lifetime : Z
}.

(** What [Config.__init__] resolves when only [SECRET_KEY] is set in
    the environment. *)
Definition defaults (secret : string) : t :=
  {| secret_key := secret;
     redis_url := "redis://localhost:6379";
     cache_enabled := true;
     cache_ttl := 3600;
     security := security_defaults;
     max_request_size := MAX_REQUEST_SIZE security_defaults;
     session_lifetime := SESSION_LIFETIME security_defaults |}.

(** [is_allowed_host]: [host in self.security.ALLOWED_HOSTS]. *)
Definition is_allowed_host (host : string) (c : t) : bool :=
  existsb (String.eqb host) (ALLOWED_HOSTS (security c)).

(** [_build_csp_header] *)
Definition _build_csp_header (debug : bool) (c : t) : string :=
  let policy := CSP_POLICY (security c) in
  let policy :=
    if debug then
      let policy :=
        Py.dict_set "script-src"
          (default [] (Py.dict_get "script-src" policy)
             ++ ["'unsafe-inline'"])%list
          policy in
      Py.dict_set "style-src"
        (default [] (Py.dict_get "style-src" policy)
           ++ ["'unsafe-inline'"])%list
        policy
    else policy in
  String.concat "; "
    (map (fun kv => fst kv ++ " " ++ String.concat " " (snd kv)) policy).

(** [get_security_headers] *)
Definition get_security_headers (debug : bool) (c : t) : Py.dict string :=
  [("X-Content-Type-Options", "nosniff");
   ("X-Frame-Options", "DENY");
   ("X-XSS-Protection", "1; mode=block");
   ("Strict-Transport-Security", "max-age=31536000; includeSubDomains");
   ("Content-Security-Policy", _build_csp_header debug c);
   ("Referrer-Policy", "strict-origin-when-cross-origin");
   ("Permissions-Policy", "geolocation=(), microphone=(), camera=()")].

End Config.

(** ** Admission filter ([src/security.py], [SecurityMiddleware.dispatch]) *)

Module Admission.

(** An inbound request: its header list, names in lower case as the
    framework exposes them, and whatever else the routes read. *)
Record Request : Type := mkRequest {
  headers : list (string * string);
  cookies : Py.dict string;
  body : string
}.

Record Response : Type := mkResponse {
  status_code : Z;
  response_headers : list (string * string);
  content : pyval
}.

(** [request.headers.get(name)]: the first header of that name. *)
Definition header (name : string) (r : Request) : option string :=
  Py.dict_get name (headers r).

(** [response.headers.update(d)]: each name of [d], in lower case,
    replaces the header of that name or is appended. *)
Definition update_headers (d : Py.dict string) (r : Response) : Response :=
  mkResponse (status_code r)
    (fold_left (fun hs kv => Py.dict_set (Py.lower (fst kv)) (snd kv) hs)
       d (response_headers r))
    (content r).

(** The host the filter checks: the [host] header up to its first colon,
    the empty string when the header is missing. *)
Definition checked_host (request : Request) : string :=
  Py.split_head ":" (default EmptyString (header "host" request)).

Section Dispatch.

(** The state of everything behind the middleware (routes, session
    registry, cache), which only [call_next] can touch. *)
Context {App : Type}.

Definition handler : Type := Request -> App -> outcome Response * App.

(** [int(request.headers.get("content-length", 0))] *)
Definition declared_length (request : Request) : outcome Z :=
  match header "content-length" request with
  | Some s => Py.int_of_str s
  | None => Returned 0
  end.

(** The [try] block of [dispatch]. *)
Definition dispatch_body (config : Config.t) (debug : bool)
    (request : Request) (call_next : handler) (app : App)
  : outcome Response * App :=
  let host :=
    Py.split_head ":" (default EmptyString (header "host" request)) in
  if negb (Config.is_allowed_host host config)
  then (Raised (HTTPException 400 "Invalid host header"), app)
  else
    match declared_length request with
    | Raised e => (Raised e, app)
    | Returned content_length =>
        if content_length >? Config.max_request_size config
        then (Raised (HTTPException 413 "Request too large"), app)
        else
          match call_next request app with
          | (Returned response, app') =>
              (Returned
                 (update_headers
                    (Config.get_security_headers debug config) response),
               app')
          | (Raised e, app') => (Raised e, app')
          end
    end.

(** [dispatch]: an [HTTPException] is raised again as it is, any other
    exception becomes [HTTPException(500)]. *)
Definition dispatch (config : Config.t) (debug : bool)
    (request : Request) (call_next : handler) (app : App)
  : outcome Response * App :=
  try_except_st (dispatch_body config debug request call_next app)
    (fun e app' =>
       if is_HTTPException e then (Raised e, app')
       else (Raised (HTTPException 500 "Internal server error"), app')).

End Dispatch.

End Admission.

(** ** Cache store ([src/cache.py]) *)

Module Cache.

(** The library calls the cache store relies on: [json.dumps] and
    [json.loads] ([None] when the call raises) and the glob matcher of
    the Redis [KEYS] command. *)
Class Externals : Type := mkExternals {
  json_dumps : pyval -> option string;
  json_loads : string -> option pyval;
  glob_match : string -> string -> bool
}.

(** *** The Redis server seen through its client *)

Record entry : Type := mkEntry {
  payload : string;
  deadline : Q
}.

(** [reachable] tells whether the server answers; a call on an
    unreachable server raises [ConnectionError]. *)
Record Redis : Type := mkRedis {
  db : gmap string entry;
  reachable : bool
}.

Definition unreachable_error : exn :=
  ConnectionError "Error connecting to the cache server".

(** An entry is visible strictly before its deadline. *)
Definition live (now : Q) (e : entry) : bool := Qgtb (deadline e) now.

Definition lookup_live (key : string) (now : Q) (r : Redis) : option string :=
  match db r !! key with
  | Some e => if live now e then Some (payload e) else None
  | None => None
  end.

(** [GET key] *)
Definition redis_get (key : string) (now : Q) (r : Redis)
  : outcome (option string) :=
  if reachable r then Returned (lookup_live key now r)
  else Raised unreachable_error.

(** [SETEX key ttl value]: the server refuses a ttl that is not
    positive. *)
Definition redis_setex (key : string) (ttl : Z) (value : string) (now : Q)
    (r : Redis) : outcome bool * Redis :=
  if reachable r then
    if ttl <=? 0
    then (Raised (ResponseError "invalid expire time in 'setex' command"), r)
    else (Returned true,
          mkRedis (<[key := mkEntry value (now + inject_Z ttl)]> (db r))
            (reachable r))
  else (Raised unreachable_error, r).

Definition delete_one (now : Q) (acc : Z * gmap string entry) (key : string)
  : Z * gmap string entry :=
  let '(n, m) := acc in
  match m !! key with
  | Some e => ((if live now e then n + 1 else n), delete key m)
  | None => (n, m)
  end.

(** [DEL key ...]: the number of keys removed. *)
Definition redis_delete (keys : list string) (now : Q) (r : Redis)
  : outcome Z * Redis :=
  if reachable r then
    let '(n, m) := fold_left (delete_one now) keys (0, db r) in
    (Returned n, mkRedis m (reachable r))
  else (Raised unreachable_error, r).

(** [EXISTS key] *)
Definition redis_exists (key : string) (now : Q) (r : Redis) : outcome Z :=
  if reachable r then
    Returned (match lookup_live key now r with Some _ => 1 | None => 0 end)
  else Raised unreachable_error.

(** [KEYS pattern] *)
Definition redis_keys `{Externals} (pattern : string) (now : Q) (r : Redis)
  : outcome (list string) :=
  if reachable r then
    Returned
      (map fst
         (List.filter
            (fun kv => live now (snd kv) && glob_match pattern (fst kv))
            (map_to_list (db r))))
  else Raised unreachable_error.

(** *** [CacheManager] *)

Record CacheManager : Type := mkCacheManager {
  config : Config.t;
  redis_client : option Redis
}.

Definition with_client (cm : CacheManager) (r : Redis) : CacheManager :=
  mkCacheManager (config cm) (Some r).

(** [__init__]: [server] is what [redis.from_url] connects to; a failed
    [ping] leaves the manager without a client. *)
Definition init (cfg : Config.t) (server : Redis) : CacheManager :=
  mkCacheManager cfg
    (if Config.cache_enabled cfg
     then (if reachable server then Some server else None)
     else None).

(** [ttl or self.config.cache_ttl] *)
Definition ttl_or_default (ttl : option Z) (cfg : Config.t) : Z :=
  match ttl with
  | Some t => if t =? 0 then Config.cache_ttl cfg else t
  | None => Config.cache_ttl cfg
  end.

Section Methods.

Context `{Externals}.

(** [get]: a miss is Python's [None]. *)
Definition get (key : string) (now : Q) (cm : CacheManager)
  : outcome pyval :=
  match redis_client cm with
  | None => Returned PNone
  | Some r =>
      try_except
        (match redis_get key now r with
         | Raised e => Raised e
         | Returned (Some value) =>
             if truthy_bytes value then
               match json_loads value with
               | Some v => Returned v
               | None => Raised (JSONDecodeError "Expecting value")
               end
             else Returned PNone
         | Returned None => Returned PNone
         end)
        (fun _ => Returned PNone)
  end.

(** [set] *)
Definition set (key : string) (value : pyval) (ttl : option Z) (now : Q)
    (cm : CacheManager) : outcome bool * CacheManager :=
  match redis_client cm with
  | None => (Returned false, cm)
  | Some r =>
      let '(res, r') :=
        try_except_st
          (let ttl := ttl_or_default ttl (config cm) in
           match json_dumps value with
           | None =>
               (Raised (TypeError "Object is not JSON serializable"), r)
           | Some serialized_value =>
               redis_setex key ttl serialized_value now r
           end)
          (fun _ r' => (Returned false, r')) in
      (res, with_client cm r')
  end.

(** [delete] *)
Definition delete (key : string) (now : Q) (cm : CacheManager)
  : outcome bool * CacheManager :=
  match redis_client cm with
  | None => (Returned false, cm)
  | Some r =>
      let '(res, r') :=
        try_except_st
          (match redis_delete [key] now r with
           | (Returned n, r') => (Returned (negb (n =? 0)), r')
           | (Raised e, r') => (Raised e, r')
           end)
          (fun _ r' => (Returned false, r')) in
      (res, with_client cm r')
  end.

(** [exists] *)
Definition exists_ (key : string) (now : Q) (cm : CacheManager)
  : outcome bool :=
  match redis_client cm with
  | None => Returned false
  | Some r =>
      try_except
        (match redis_exists key now r with
         | Returned n => Returned (negb (n =? 0))
         | Raised e => Raised e
         end)
        (fun _ => Returned false)
  end.

(** [clear_pattern] *)
Definition clear_pattern (pattern : string) (now : Q) (cm : CacheManager)
  : outcome Z * CacheManager :=
  match redis_client cm with
  | None => (Returned 0, cm)
  | Some r =>
      let '(res, r') :=
        try_except_st
          (match redis_keys pattern now r with
           | Raised e => (Raised e, r)
           | Returned keys =>
               match keys with
               | [] => (Returned 0, r)
               | _ => redis_delete keys now r
               end
           end)
          (fun _ r' => (Returned 0, r')) in
      (res, with_client cm r')
  end.

End Methods.

(** Cache key generators. *)
Definition get_session_cache_key (session_id : string) : string :=
  "session:" ++ session_id.

Definition get_report_cache_key : string := "security_report".

End Cache.

(** ** Single-flight report coordinator ([web_new.py]) *)

Module Web.

Import Cache.

Definition REPORT_SCHEMA_VERSION : Z := 2.

(** [JSONResponse(status_code=.., content=..)] *)
Record JSONResponse : Type := mkJSONResponse {
  status_code : Z;
  content : pyval
}.

(** *** [asyncio.Lock] *)

(** [waiters] holds, in arrival order, the tasks suspended in [acquire]
    with the flag that their future has been resolved. *)
Record Lock : Type := mkLock {
  locked : bool;
  waiters : list (nat * bool)
}.

(** [_wake_up_first]: resolve the future of the first waiter, unless it
    is done already; the task to resume, if any. *)
Definition wake_up_first (ws : list (nat * bool))
  : list (nat * bool) * option nat :=
  match ws with
  | (tid, false) :: rest => ((tid, true) :: rest, Some tid)
  | _ => (ws, None)
  end.

Definition remove_waiter (tid : nat) (ws : list (nat * bool))
  : list (nat * bool) :=
  List.filter (fun w => negb (Nat.eqb (fst w) tid)) ws.

(** *** The event loop *)

(** What the loop has been asked to run ([call_soon]). *)
Inductive callback : Type :=
  | HandleReport (rid : nat)
      (** the [report] handler of request [rid], its dependencies
          resolved *)
  | TaskStart (tid : nat)
      (** first step of a [generate_report_background] task *)
  | TaskLocked (tid : nat)
      (** a task resumed inside [lock.acquire] *)
  | TaskDone (tid : nat) (result : pyval + string).
      (** a task resumed from [run_in_executor]: the report, or [str(e)]
          of the exception the computation raised *)

(** One call of [CacheManager.set] made by the coordinator. *)
Record cache_write : Type := mkWrite {
  write_key : string;
  write_value : pyval;
  write_ttl : option Z;
  write_result : outcome bool
}.

Record App : Type := mkApp {
  cache_manager : CacheManager;
  report_lock : Lock;
  ready : list callback;
  executor : list nat;      (** tasks whose computation runs in the pool *)
  next_task : nat;
  responses : list (nat * outcome JSONResponse);
  computations : nat;       (** calls of [agent.generate_security_report] *)
  writes : list cache_write
}.

(** The module-level [config] is the object held by [cache_manager]. *)
Definition config (a : App) : Config.t := Cache.config (cache_manager a).

Definition set_cache (cm : CacheManager) (a : App) : App :=
  mkApp cm (report_lock a) (ready a) (executor a) (next_task a)
    (responses a) (computations a) (writes a).

Definition set_lock (l : Lock) (a : App) : App :=
  mkApp (cache_manager a) l (ready a) (executor a) (next_task a)
    (responses a) (computations a) (writes a).

Definition set_ready (q : list callback) (a : App) : App :=
  mkApp (cache_manager a) (report_lock a) q (executor a) (next_task a)
    (responses a) (computations a) (writes a).

Definition call_soon (cb : callback) (a : App) : App :=
  set_ready (ready a ++ [cb])%list a.

Definition set_executor (e : list nat) (a : App) : App :=
  mkApp (cache_manager a) (report_lock a) (ready a) e (next_task a)
    (responses a) (computations a) (writes a).

Definition respond (rid : nat) (r : outcome JSONResponse) (a : App) : App :=
  mkApp (cache_manager a) (report_lock a) (ready a) (executor a)
    (next_task a) (responses a ++ [(rid, r)])%list (computations a)
    (writes a).

Definition log_write (w : cache_write) (a : App) : App :=
  mkApp (cache_manager a) (report_lock a) (ready a) (executor a)
    (next_task a) (responses a) (computations a) (writes a ++ [w])%list.

(** [asyncio.create_task(generate_report_background())]: the first step
    of the new task is queued, not run. *)
Definition create_task (a : App) : App :=
  mkApp (cache_manager a) (report_lock a)
    (ready a ++ [TaskStart (next_task a)])%list (executor a)
    (S (next_task a)) (responses a) (computations a) (writes a).

(** [await loop.run_in_executor(None, agent.generate_security_report)]:
    the computation starts in the pool and the task suspends. *)
Definition run_in_executor (tid : nat) (a : App) : App :=
  mkApp (cache_manager a) (report_lock a) (ready a)
    (executor a ++ [tid])%list (next_task a) (responses a)
    (S (computations a)) (writes a).

Definition initial (cm : CacheManager) : App :=
  mkApp cm (mkLock false []) [] [] 0%nat [] 0%nat [].

Section Handlers.

Context `{Externals}.

Definition ready_body (cached_report : pyval) : pyval :=
  PDict [("status", PStr "ready"); ("report", cached_report)].
Definition generating_body : pyval := PDict [("status", PStr "generating")].
Definition started_body : pyval := PDict [("status", PStr "started")].

(** The [/report] handler.  Nothing in it awaits, so it runs as one
    step of the loop. *)
Definition report (now : Q) (a : App) : outcome JSONResponse * App :=
  try_except_st
    (let cache_key := get_report_cache_key in
     match Cache.get cache_key now (cache_manager a) with
     | Raised e => (Raised e, a)
     | Returned cached_report =>
         if truthy cached_report
         then (Returned (mkJSONResponse 200 (ready_body cached_report)), a)
         else if locked (report_lock a)
         then (Returned (mkJSONResponse 202 generating_body), a)
         else (Returned (mkJSONResponse 202 started_body), create_task a)
     end)
    (fun _ a' =>
       (Raised (HTTPException 500 "Internal server error"), a')).

(** [async with report_lock], entry: [Lock.acquire] takes a free lock
    that nobody waits for at once, and queues the task otherwise. *)
Definition task_start (tid : nat) (a : App) : App :=
  let l := report_lock a in
  if negb (locked l) && forallb (fun _ => false) (waiters l)
  then run_in_executor tid (set_lock (mkLock true (waiters l)) a)
  else set_lock (mkLock (locked l) (waiters l ++ [(tid, false)])%list) a.

(** The rest of [Lock.acquire] once the waiter is resumed. *)
Definition task_locked (tid : nat) (a : App) : App :=
  let l := report_lock a in
  run_in_executor tid
    (set_lock (mkLock true (remove_waiter tid (waiters l))) a).

Definition success_record (report : pyval) : pyval :=
  PDict [("status", PStr "success");
         ("version", PInt REPORT_SCHEMA_VERSION);
         ("data", report)].

Definition error_record (message : string) : pyval :=
  PDict [("status", PStr "error"); ("message", PStr message)].

(** [cache_manager.set(cache_key, value, ttl=ttl)], recorded. *)
Definition cache_set (value : pyval) (ttl : Z) (now : Q) (a : App)
  : outcome bool * App :=
  let '(res, cm) :=
    Cache.set get_report_cache_key value (Some ttl) now (cache_manager a) in
  (res, log_write (mkWrite get_report_cache_key value (Some ttl) res)
          (set_cache cm a)).

(** [Lock.release] on leaving [async with]. *)
Definition release (a : App) : App :=
  let l := report_lock a in
  let '(ws, woken) := wake_up_first (waiters l) in
  let a := set_lock (mkLock false ws) a in
  match woken with
  | Some tid => call_soon (TaskLocked tid) a
  | None => a
  end.

(** The body of [generate_report_background] after the computation
    has returned or raised, up to the release of the lock. *)
Definition task_done (tid : nat) (result : pyval + string) (now : Q)
    (a : App) : App :=
  let except (message : string) (a : App) : App :=
    snd (cache_set (error_record message) 300 now a) in
  let a :=
    match result with
    | inl report =>
        match cache_set (success_record report)
                (Config.cache_ttl (config a)) now a with
        | (Returned _, a') => a'
        | (Raised e, a') => except (exn_str e) a'
        end
    | inr message => except message a
    end in
  release a.

(** Where a [generate_report_background] coroutine is resumed. *)
Inductive resumption : Type :=
  | FirstStep
  | LockGranted
  | ExecutorResult (result : pyval + string).

(** [generate_report_background], one segment for each resumption: up to
    the first suspension, from [acquire] to [run_in_executor], and from the
    result of the computation to the end. *)
Definition generate_report_background (tid : nat) (from : resumption)
    (now : Q) (a : App) : App :=
  match from with
  | FirstStep => task_start tid a
  | LockGranted => task_locked tid a
  | ExecutorResult result => task_done tid result now a
  end.

Definition run_callback (cb : callback) (now : Q) (a : App) : App :=
  match cb with
  | HandleReport rid =>
      let '(r, a') := report now a in respond rid r a'
  | TaskStart tid => generate_report_background tid FirstStep now a
  | TaskLocked tid => generate_report_background tid LockGranted now a
  | TaskDone tid result =>
      generate_report_background tid (ExecutorResult result) now a
  end.

(** What happens to the process. *)
Inductive event : Type :=
  | Arrive (rid : nat)
      (** the handler of a [/report] request becomes runnable *)
  | Turn (now : Q)
      (** the loop runs the callback at the head of its queue *)
  | Finish (tid : nat) (result : pyval + string).
      (** the pool finishes the computation of task [tid] *)

Definition step (e : event) (a : App) : option App :=
  match e with
  | Arrive rid => Some (call_soon (HandleReport rid) a)
  | Turn now =>
      match ready a with
      | cb :: rest => Some (run_callback cb now (set_ready rest a))
      | [] => None
      end
  | Finish tid result =>
      if existsb (Nat.eqb tid) (executor a)
      then Some (call_soon (TaskDone tid result)
                   (set_executor
                      (List.filter (fun t => negb (Nat.eqb t tid))
                         (executor a)) a))
      else None
  end.

Fixpoint run (es : list event) (a : App) : option App :=
  match es with
  | [] => Some a
  | e :: es' =>
      match step e a with
      | Some a' => run es' a'
      | None => None
      end
  end.

End Handlers.

End Web.

(** ** A reference instance of the library calls

    An executable JSON codec and glob matcher on which the models above
    can be run.  The codec prints as [json.dumps] does with its default
    separators and covers integers, booleans, [None], lists, dictionaries
    and strings of printable ASCII without quotes or backslashes; anything
    else is refused.  The matcher knows [*] and [?]. *)

Module Reference.

Definition dquote : ascii := ascii_of_nat 34.

Definition plain_char (c : ascii) : bool :=
  let n := nat_of_ascii c in
  ((32 <=? n) && (n <=? 126) && negb (n =? 34) && negb (n =? 92))%nat.

Fixpoint plain (s : string) : bool :=
  match s with
  | EmptyString => true
  | String c s' => plain_char c && plain s'
  end.

Definition quoted (s : string) : option string :=
  if plain s then Some (String dquote (s ++ String dquote EmptyString))
  else None.

Fixpoint dumps (v : pyval) : option string :=
  match v with
  | PNone => Some "null"
  | PBool true => Some "true"
  | PBool false => Some "false"
  | PInt n => Some (dec_of_Z n)
  | PStr s => quoted s
  | PList l =>
      let items :=
        (fix items (l : list pyval) : option (list string) :=
           match l with
           | [] => Some []
           | x :: l' =>
               match dumps x, items l' with
               | Some a, Some b => Some (a :: b)
               | _, _ => None
               end
           end) l in
      match items with
      | Some parts => Some ("[" ++ String.concat ", " parts ++ "]")
      | None => None
      end
  | PDict d =>
      let members :=
        (fix members (d : list (string * pyval)) : option (list string) :=
           match d with
           | [] => Some []
           | (k, x) :: d' =>
               match quoted k, dumps x, members d' with
               | Some qk, Some a, Some b => Some ((qk ++ ": " ++ a) :: b)
               | _, _, _ => None
               end
           end) d in
      match members with
      | Some parts => Some ("{" ++ String.concat ", " parts ++ "}")
      | None => None
      end
  end.

Definition is_ws (c : ascii) : bool :=
  let n := nat_of_ascii c in ((n =? 32) || (n =? 9) || (n =? 10) || (n =? 13))%nat.

Fixpoint skip_ws (l : list ascii) : list ascii :=
  match l with
  | c :: l' => if is_ws c then skip_ws l' else l
  | [] => []
  end.

(** [l] without its prefix [p]. *)
Fixpoint expect (p l : list ascii) : option (list ascii) :=
  match p, l with
  | [], _ => Some l
  | a :: p', b :: l' => if Ascii.eqb a b then expect p' l' else None
  | _ :: _, [] => None
  end.

(** The characters up to the closing quote. *)
Fixpoint take_string (l : list ascii) : option (string * list ascii) :=
  match l with
  | [] => None
  | c :: l' =>
      if Ascii.eqb c dquote then Some (EmptyString, l')
      else if plain_char c then
        match take_string l' with
        | Some (s, r) => Some (String c s, r)
        | None => None
        end
      else None
  end.

Fixpoint take_digits (l : list ascii) : list ascii * list ascii :=
  match l with
  | c :: l' =>
      if Py.is_digit c
      then let '(ds, r) := take_digits l' in (c :: ds, r)
      else ([], l)
  | [] => ([], [])
  end.

Definition digits_value (ds : list ascii) : Z :=
  fold_left (fun acc c => 10 * acc + Py.digit_val c) ds 0.

Definition parse_unsigned (l : list ascii) : option (Z * list ascii) :=
  match take_digits l with
  | ([], _) => None
  | ([d], r) => Some (Py.digit_val d, r)
  | (d :: ds, r) =>
      if Ascii.eqb d "0"%char then None else Some (digits_value (d :: ds), r)
  end.

Definition parse_number (l : list ascii) : option (Z * list ascii) :=
  match l with
  | c :: r =>
      if Ascii.eqb c "-"%char
      then match parse_unsigned r with
           | Some (n, r') => Some (- n, r')
           | None => None
           end
      else parse_unsigned l
  | [] => None
  end.

Fixpoint parse_value (fuel : nat) (l : list ascii) {struct fuel}
  : option (pyval * list ascii) :=
  match fuel with
  | O => None
  | S fuel' =>
      match skip_ws l with
      | [] => None
      | c :: r =>
          if Ascii.eqb c "n"%char then
            option_map (pair PNone) (expect (list_ascii_of_string "ull") r)
          else if Ascii.eqb c "t"%char then
            option_map (pair (PBool true))
              (expect (list_ascii_of_string "rue") r)
          else if Ascii.eqb c "f"%char then
            option_map (pair (PBool false))
              (expect (list_ascii_of_string "alse") r)
          else if Ascii.eqb c dquote then
            match take_string r with
            | Some (s, r') => Some (PStr s, r')
            | None => None
            end
          else if Ascii.eqb c "["%char then
            match skip_ws r with
            | c' :: r' =>
                if Ascii.eqb c' "]"%char then Some (PList [], r')
                else match parse_items fuel' r with
                     | Some (xs, r'') => Some (PList xs, r'')
                     | None => None
                     end
            | [] => None
            end
          else if Ascii.eqb c "{"%char then
            match skip_ws r with
            | c' :: r' =>
                if Ascii.eqb c' "}"%char then Some (PDict [], r')
                else match parse_members fuel' r with
                     | Some (kvs, r'') => Some (PDict kvs, r'')
                     | None => None
                     end
            | [] => None
            end
          else
            match parse_number (c :: r) with
            | Some (n, r') => Some (PInt n, r')
            | None => None
            end
      end
  end
with parse_items (fuel : nat) (l : list ascii) {struct fuel}
  : option (list pyval * list ascii) :=
  match fuel with
  | O => None
  | S fuel' =>
      match parse_value fuel' l with
      | Some (v, r) =>
          match skip_ws r with
          | c :: r' =>
              if Ascii.eqb c ","%char then
                match parse_items fuel' r' with
                | Some (vs, r'') => Some (v :: vs, r'')
                | None => None
                end
              else if Ascii.eqb c "]"%char then Some ([v], r')
              else None
          | [] => None
          end
      | None => None
      end
  end
with parse_members (fuel : nat) (l : list ascii) {struct fuel}
  : option (list (string * pyval) * list ascii) :=
  match fuel with
  | O => None
  | S fuel' =>
      match skip_ws l with
      | q :: r0 =>
          if Ascii.eqb q dquote then
            match take_string r0 with
            | Some (k, r1) =>
                match skip_ws r1 with
                | colon :: r2 =>
                    if Ascii.eqb colon ":"%char then
                      match parse_value fuel' r2 with
                      | Some (v, r3) =>
                          match skip_ws r3 with
                          | c :: r4 =>
                              if Ascii.eqb c ","%char then
                                match parse_members fuel' r4 with
                                | Some (kvs, r5) => Some ((k, v) :: kvs, r5)
                                | None => None
                                end
                              else if Ascii.eqb c "}"%char
                              then Some ([(k, v)], r4)
                              else None
                          | [] => None
                          end
                      | None => None
                      end
                    else None
                | [] => None
                end
            | None => None
            end
          else None
      | [] => None
      end
  end.

Definition loads (s : string) : option pyval :=
  let l := list_ascii_of_string s in
  match parse_value (2 * S (List.length l)) l with
  | Some (v, r) => match skip_ws r with [] => Some v | _ => None end
  | None => None
  end.

Fixpoint glob (p k : list ascii) {struct p} : bool :=
  match p with
  | [] => match k with [] => true | _ => false end
  | c :: p' =>
      if Ascii.eqb c "*"%char then
        (fix star (k : list ascii) : bool :=
           glob p' k || match k with [] => false | _ :: k' => star k' end) k
      else
        match k with
        | [] => false
        | c' :: k' =>
            (Ascii.eqb c "?"%char || Ascii.eqb c c') && glob p' k'
        end
  end.

#[global] Instance externals : Cache.Externals :=
  {| Cache.json_dumps := dumps;
     Cache.json_loads := loads;
     Cache.glob_match :=
       fun p k => glob (list_ascii_of_string p) (list_ascii_of_string k) |}.

End Reference.

(** ** Scenarios used as worked examples *)

(** The scenario of the specification: allow-list [localhost], ceiling
    1024 bytes. *)
Definition scenario_config : Config.t :=
  {| Config.secret_key := "k";
     Config.redis_url := "redis://localhost:6379";
     Config.cache_enabled := true;
     Config.cache_ttl := 3600;
     Config.security :=
       {| Config.ALLOWED_HOSTS := ["localhost"];
          Config.MAX_REQUEST_SIZE := 1024;
          Config.RATE_LIMIT := 60;
          Config.SESSION_LIFETIME := 3600;
          Config.CSP_POLICY :=
            Config.CSP_POLICY Config.security_defaults |};
     Config.max_request_size := 1024;
     Config.session_lifetime := 3600 |}.

(** A downstream application that counts the requests it is handed. *)
Definition counting_app : @Admission.handler nat :=
  fun _ n => (Returned (Admission.mkResponse 200 [] PNone), S n).

(** A reachable, empty cache server, and one that does not answer. *)
Definition empty_server : Cache.Redis := Cache.mkRedis ∅ true.
Definition dead_server : Cache.Redis := Cache.mkRedis ∅ false.

Definition scenario_cache : Cache.CacheManager :=
  Cache.init scenario_config empty_server.

Definition scenario_report : pyval :=
  PDict [("framework", PStr "FastAPI"); ("file_count", PInt 18)].

(** Two [/report] requests whose handlers are runnable in the same turn
    of the loop, on a cold cache: handlers first, then the tasks they
    created, then the two computations one after the other. *)
Definition burst : list Web.event :=
  [Web.Arrive 1; Web.Arrive 2;
   Web.Turn 0; Web.Turn 0;          (* the two handlers *)
   Web.Turn 0; Web.Turn 0;          (* first steps of tasks 0 and 1 *)
   Web.Finish 0 (inl scenario_report); Web.Turn 10;
   Web.Turn 10;                     (* task 1 gets the lock *)
   Web.Finish 1 (inl scenario_report); Web.Turn 20].

(** One request whose computation fails with [str(e) = "boom"] at time 5. *)
Definition failed_run : list Web.event :=
  [Web.Arrive 1; Web.Turn 0; Web.Turn 0;
   Web.Finish 0 (inr "boom"); Web.Turn 5].

(** A configuration whose [CACHE_TTL] is one minute. *)
Definition short_ttl_config : Config.t :=
  {| Config.secret_key := "k";
     Config.redis_url := "redis://localhost:6379";
     Config.cache_enabled := true;
     Config.cache_ttl := 60;
     Config.security := Config.security_defaults;
     Config.max_request_size := 1048576;
     Config.session_lifetime := 3600 |}.

(** The statuses of the responses sent so far, in order. *)
Definition statuses (a : Web.App) : list (nat * option pyval) :=
  map (fun rr =>
         (fst rr,
          match snd rr with
          | Returned r =>
              match Web.content r with
              | PDict d => Py.dict_get "status" d
              | _ => None
              end
          | Raised _ => None
          end))
    (Web.responses a).

(** A response body of the shape [{"status": "error", "message": m}]. *)
Definition error_shaped (r : Web.JSONResponse) : Prop :=
  exists message, Web.content r = Web.error_record message.

(** ** Who holds the report lock

    A task holds the lock from the step in which [acquire] returns to the
    step in which it releases: while its computation is in the pool, and
    while its resumption is queued.  A task woken inside [acquire] is about
    to hold it. *)

Definition is_done (cb : Web.callback) : bool :=
  match cb with Web.TaskDone _ _ => true | _ => false end.

Definition is_woken (cb : Web.callback) : bool :=
  match cb with Web.TaskLocked _ => true | _ => false end.

Definition count (p : Web.callback -> bool) (q : list Web.callback) : nat :=
  List.length (List.filter p q).

Definition holders (a : Web.App) : nat :=
  (List.length (Web.executor a) + count is_done (Web.ready a))%nat.

Definition exclusive (a : Web.App) : Prop :=
  (holders a + count is_woken (Web.ready a) <= 1)%nat
  /\ ((1 <= holders a)%nat -> Web.locked (Web.report_lock a) = true)
  /\ ((1 <= count is_woken (Web.ready a))%nat ->
      Web.waiters (Web.report_lock a) <> []).

(** The call names the session [sid]. *)
Definition names_session (sid : string) (c : Security.call) : Prop :=
  match c with
  | Security.Create token _ _ _ => token = sid
  | Security.Validate session_id _ => session_id = sid
  | Security.End session_id => session_id = sid
  end.

(** The header names a dictionary sets, as [headers.update] writes them. *)
Definition lower_names (d : Py.dict string) : list string :=
  map (fun kv => Py.lower (fst kv)) d.

(** An application that answers with a frame policy of its own, and one
    that fails with an exception that is not an [HTTPException]. *)
Definition framing_app : @Admission.handler nat :=
  fun _ n =>
    (Returned
       (Admission.mkResponse 200
          [("content-type", "text/html"); ("x-frame-options", "SAMEORIGIN")]
          (PStr "index")),
     S n).

Definition failing_app : @Admission.handler nat :=
  fun _ n => (Raised (ValueError "boom"), S n).

Definition local_request (length : string) : Admission.Request :=
  Admission.mkRequest [("host", "localhost:8000"); ("content-length", length)]
    [] EmptyString.

(** ** Polling, and what the coordinator's log counts *)

(** Requests handled one at a time on an otherwise idle loop: request
    [rid] arrives and its handler runs at time [t]. *)
Definition polls (ps : list (nat * Q)) : list Web.event :=
  flat_map (fun p => [Web.Arrive (fst p); Web.Turn (snd p)]) ps.

Definition is_start (cb : Web.callback) : bool :=
  match cb with Web.TaskStart _ => true | _ => false end.

(** The response tells its request that a computation was started. *)
Definition is_started (r : outcome Web.JSONResponse) : bool :=
  match r with
  | Returned resp =>
      match Web.content resp with
      | PDict [(k, PStr s)] => String.eqb k "status" && String.eqb s "started"
      | _ => false
      end
  | Raised _ => false
  end.

Definition started_count (a : Web.App) : nat :=
  List.length (List.filter (fun rr => is_started (snd rr)) (Web.responses a)).

(** Tasks suspended in [acquire] whose future is not resolved yet. *)
Definition unwoken (l : Web.Lock) : nat :=
  List.length (List.filter (fun w => negb (snd w)) (Web.waiters l)).

(** A record the coordinator may write: a success record with the
    standard ttl, or an error record with its 300 seconds. *)
Definition report_write (cfg : Config.t) (w : Web.cache_write) : Prop :=
  Web.write_key w = Cache.get_report_cache_key
  /\ ((exists report,
         Web.write_value w = Web.success_record report
         /\ Web.write_ttl w = Some (Config.cache_ttl cfg))
      \/ (exists message,
            Web.write_value w = Web.error_record message
            /\ Web.write_ttl w = Some 300)).

(** A response that hands out no report. *)
Definition not_ready (r : outcome Web.JSONResponse) : Prop :=
  r = Returned (Web.mkJSONResponse 202 Web.generating_body)
  \/ r = Returned (Web.mkJSONResponse 202 Web.started_body).

(** The process once the first request has been answered and its task has
    taken the lock: the computation is in the pool, nothing is queued. *)
Definition running_app : Web.App :=
  default (Web.initial scenario_cache)
    (Web.run [Web.Arrive 1; Web.Turn 0; Web.Turn 0]
       (Web.initial scenario_cache)).

(** Ten polls, one a minute. *)
Definition ten_polls : list (nat * Q) :=
  map (fun i => (i, inject_Z (60 * Z.of_nat i))) (seq 1 10).

(** A cold start without cache: the computation of the first request
    finishes, and a second request follows. *)
Definition uncached_run : list Web.event :=
  [Web.Arrive 1; Web.Turn 0; Web.Turn 0;
   Web.Finish 0 (inl scenario_report); Web.Turn 5;
   Web.Arrive 2; Web.Turn 6].

(** ** Query cache keys ([src/cache.py], [get_query_cache_key]) *)

Module CacheKeys.

(** [hashlib.md5(s.encode()).hexdigest()] *)
Class Digest : Type := md5_hexdigest : string -> string.

(** [question[:100]] *)
Definition first_100 (question : string) : string := substring 0 100 question.

(** [get_query_cache_key] *)
Definition get_query_cache_key `{Digest} (question : string) (user_id : Z)
  : string :=
  let key_content := dec_of_Z user_id ++ ":" ++ first_100 question in
  "query:" ++ md5_hexdigest key_content.

End CacheKeys.

(** ** Input validation ([src/security.py], class [InputValidator])

    Text is a sequence of code points below 256, on which [str.isspace]
    is [Py.is_space] and the only letters that differ by case alone are
    the ASCII ones. *)

Module InputValidator.

(** [sanitize_text]: [text.strip()]. *)
Definition sanitize_text (text : string) : string :=
  string_of_list_ascii (Py.strip (list_ascii_of_string text)).

(** A character matches the lower-case pattern character [p] under
    [re.IGNORECASE]. *)
Definition matches_ci (p c : ascii) : bool := Ascii.eqb (Py.lower_ascii c) p.

Definition script : list ascii := list_ascii_of_string "script".

(** The text starts with [p], case ignored. *)
Fixpoint prefix_ci (p l : list ascii) : bool :=
  match p, l with
  | [], _ => true
  | a :: p', c :: l' => matches_ci a c && prefix_ci p' l'
  | _ :: _, [] => false
  end.

(** [\s*script] matches at the start of the text. *)
Fixpoint after_spaces (l : list ascii) : bool :=
  prefix_ci script l
  || match l with
     | c :: l' => Py.is_space c && after_spaces l'
     | [] => false
     end.

(** [re.search(r"<\s*script", text, re.IGNORECASE)] finds a match. *)
Fixpoint search_script (l : list ascii) : bool :=
  match l with
  | [] => false
  | c :: l' => matches_ci "<" c && after_spaces l' || search_script l'
  end.

(** [validate_query] *)
Definition validate_query (query : string) : bool :=
  if String.eqb query EmptyString
     || (List.length (Py.strip (list_ascii_of_string query)) =? 0)%nat
  then false
  else if (2000 <? String.length query)%nat then false
  else if search_script (list_ascii_of_string query) then false
  else true.

(** The text contains [<], then white space or none, then the letters of
    [script] in any case. *)
Definition has_script_tag (l : list ascii) : Prop :=
  exists pre spaces tag post,
    l = (pre ++ "<"%char :: spaces ++ tag ++ post)%list
    /\ Forall (fun c => Py.is_space c = true) spaces
    /\ map Py.lower_ascii tag = script.

End InputValidator.

(** ** The [/query] route ([web_new.py], [query])

    The handler as it uses the session registry and the validator.  What
    lies between validation and the session cookie (the conversation row,
    [agent.query], the stored messages) is the parameter [backend]; the
    rate limiter and the authentication dependency run before the handler
    and are not part of it. *)

Module QueryRoute.

Import Security.

(** What the handler reads from the backend's work: the answer, the
    [page_content] of each source document that has one, and the id of the
    conversation. *)
Record Reply : Type := mkReply {
  answer : string;
  source_documents : list string;
  conversation_id : pyval
}.

(** The [JSONResponse] with its [session_id] cookie. *)
Record QueryResponse : Type := mkQueryResponse {
  status_code : Z;
  content : pyval;
  session_cookie : string;
  cookie_max_age : Z
}.

(** What [validate_query(question)] and the log line of the refusal make
    of the [question] found in the body. *)
Inductive question_check : Type :=
  | Accepted (question : string)
  | Refused
      (** [validate_query] is [False] and the request is answered 400 *)
  | Crashed.
      (** an exception that is not an [HTTPException] is raised *)

(** A string goes through [validate_query].  Any other value either is
    truthy, and then [query.strip()] raises in [validate_query], or is
    falsy, and then [validate_query] is [False] and [question[:100]] in
    the log line raises unless the value is a list. *)
Definition check_question (question : pyval) : question_check :=
  match question with
  | PStr s => if InputValidator.validate_query s then Accepted s else Refused
  | PList [] => Refused
  | _ => Crashed
  end.

(** [except HTTPException: raise / except Exception: raise
    HTTPException(500)] *)
Definition to_http (e : exn) : exn :=
  if is_HTTPException e then e
  else HTTPException 500 "Internal server error".

(** [doc.page_content[:60] + ("..." if len(doc.page_content) > 60 else "")],
    sanitized. *)
Definition source_preview (page_content : string) : string :=
  InputValidator.sanitize_text
    (substring 0 60 page_content
     ++ (if (60 <? String.length page_content)%nat then "..." else EmptyString)).

(** [bool(session_id)] for the cookie read with [cookies.get]. *)
Definition has_session (session_id : option string) : bool :=
  match session_id with
  | Some s => negb (String.eqb s EmptyString)
  | None => false
  end.

Section Handler.

(** The state of the database and of the agent. *)
Context {D : Type}.

Definition backend_t : Type :=
  pyval -> string -> string -> D -> outcome Reply * D.

(** [query] up to [await request.json()]: the session check.  A cookie
    that does not validate is answered 401 there and then. *)
Definition query_begin (cookies : Py.dict string) (now : Q)
    (sm : SessionManager) : outcome unit * SessionManager :=
  let session_id := Py.dict_get "session_id" cookies in
  let '(valid, sm1) :=
    if has_session session_id
    then validate_session (default EmptyString session_id) now sm
    else (true, sm) in
  if negb valid
  then (Raised (HTTPException 401 "Invalid or expired session"), sm1)
  else (Returned tt, sm1).

(** [query] from the point where [await request.json()] resumes it.  [sm]
    is the registry as the handler finds it then: other requests may have
    been handled while it was suspended.  [client_host] is
    [request.client.host] when there is a client, [body] the outcome of
    [request.json()], [token], [t_created] and [t_accessed] what
    [create_session] draws and reads. *)
Definition query_resume (cookies : Py.dict string)
    (client_host : option string) (body : outcome pyval) (token : string)
    (t_created t_accessed : Q) (backend : backend_t)
    (sm : SessionManager) (d : D)
  : outcome QueryResponse * (SessionManager * D) :=
  let client_id := default "unknown" client_host in
  let session_id := Py.dict_get "session_id" cookies in
  match body with
  | Raised e => (Raised (to_http e), (sm, d))
  | Returned (PDict data) =>
      let question := default (PStr EmptyString) (Py.dict_get "question" data) in
      let conversation := default PNone (Py.dict_get "conversation_id" data) in
      match check_question question with
      | Refused => (Raised (HTTPException 400 "Invalid query"), (sm, d))
      | Crashed =>
          (Raised (HTTPException 500 "Internal server error"), (sm, d))
      | Accepted question =>
          let sanitized_question := InputValidator.sanitize_text question in
          match backend conversation question sanitized_question d with
          | (Raised e, d') => (Raised (to_http e), (sm, d'))
          | (Returned reply, d') =>
              let sources := map source_preview (source_documents reply) in
              let '(session_id, sm2) :=
                if has_session session_id
                then (default EmptyString session_id, sm)
                else create_session token t_created t_accessed client_id sm
              in
              (Returned
                 (mkQueryResponse 200
                    (PDict
                       [("answer",
                         PStr (InputValidator.sanitize_text (answer reply)));
                        ("sources", PList (map PStr sources));
                        ("conversation_id", conversation_id reply)])
                    session_id (lifetime sm2)),
               (sm2, d'))
          end
      end
  | Returned _ =>
      (Raised (HTTPException 500 "Internal server error"), (sm, d))
  end.

(** [query] when no other request is handled while it awaits its body:
    the second part finds the registry as the first part left it.  [now]
    is the clock read by [validate_session]. *)
Definition query (cookies : Py.dict string) (client_host : option string)
    (body : outcome pyval) (now : Q) (token : string)
    (t_created t_accessed : Q) (backend : backend_t)
    (sm : SessionManager) (d : D)
  : outcome QueryResponse * (SessionManager * D) :=
  match query_begin cookies now sm with
  | (Raised e, sm1) => (Raised e, (sm1, d))
  | (Returned _, sm1) =>
      query_resume cookies client_host body token t_created t_accessed
        backend sm1 d
  end.

End Handler.

End QueryRoute.

(** A backend that answers by repeating the sanitized question and counts
    its calls, a registry holding one session created at time 0, and the
    body of a plain question. *)
Definition echo_backend : @QueryRoute.backend_t nat :=
  fun _ _ sanitized n =>
    (Returned (QueryRoute.mkReply ("You asked: " ++ sanitized) [] (PInt 1)),
     S n).

Definition one_session : Security.SessionManager :=
  snd (Security.create_session "tok" 0 0 "10.0.0.7" (Security.init "k" 3600)).

Definition hello_body : pyval := PDict [("question", PStr " hello ")].

(** ** Allowed origins ([src/config.py], [_parse_cors_origins], and the
    CORS set-up of [web_new.py]) *)

Module Cors.

(** [s.split(sep)] for a one-character separator. *)
Fixpoint split_on (sep : ascii) (l : list ascii) : list (list ascii) :=
  match l with
  | [] => [[]]
  | c :: l' =>
      if Ascii.eqb c sep then [] :: split_on sep l'
      else match split_on sep l' with
           | piece :: pieces => (c :: piece) :: pieces
           | [] => [[c]]
           end
  end.

(** [_parse_cors_origins], given [os.getenv('CORS_ORIGINS')]. *)
Definition _parse_cors_origins (env : option string) : list string :=
  let origins := default "*" env in
  if String.eqb origins "*" then ["*"]
  else
    map (fun origin => string_of_list_ascii (Py.strip origin))
      (List.filter
         (fun origin => match Py.strip origin with [] => false | _ => true end)
         (split_on "," (list_ascii_of_string origins))).

(** [allow_credentials] as [web_new.py] passes it to the CORS
    middleware: off when the origins are exactly the wildcard. *)
Definition allow_credentials (cors_origins : list string) : bool :=
  match cors_origins with
  | [o] => negb (String.eqb o "*")
  | _ => true
  end.

End Cors.

(** ** The [/upload] route ([web_new.py], [upload_file]) *)

Module Upload.

Definition allowed_types : list string := ["text/plain"; "text/markdown"].

Definition max_size : Z := 1 * 1024 * 1024.

Section Handler.

(** The state of the agent and its vector store. *)
Context {A : Type}.

(** [upload_file].  [content] is what [await file.read()] returns,
    [decode] is [bytes.decode('utf-8')] ([None] for
    [UnicodeDecodeError]), [ingest] is [agent.ingest_documents].  The
    single [except Exception] clause also catches the [HTTPException]s
    raised in the body. *)
Definition upload_file (content_type : option string) (filename : string)
    (content : string) (decode : string -> option string)
    (ingest : list string -> A -> outcome unit * A) (a : A)
  : outcome pyval * A :=
  try_except_st
    (if negb (match content_type with
              | Some t => existsb (String.eqb t) allowed_types
              | None => false
              end)
     then (Raised (HTTPException 400 "Unsupported file type"), a)
     else if Z.of_nat (String.length content) >? max_size
     then (Raised (HTTPException 413 "File too large"), a)
     else
       match decode content with
       | None =>
           (Raised (HTTPException 400 "Invalid text encoding; use UTF-8"), a)
       | Some text_content =>
           match ingest [text_content] a with
           | (Raised e, a') => (Raised e, a')
           | (Returned _, a') =>
               (Returned
                  (PDict [("message",
                           PStr ("File " ++ filename
                                 ++ " ingested successfully"))]),
                a')
           end
       end)
    (fun _ a' => (Raised (HTTPException 500 "Failed to upload file"), a')).

End Handler.

End Upload.

(** An ingestion that counts the documents it is given. *)
Definition counting_ingest (docs : list string) (n : nat)
  : outcome unit * nat :=
  (Returned tt, (n + List.length docs)%nat).

(** ** From the filter to the client ([web_new.py], lines 230-278)

    [app.add_middleware] puts [SlowAPIMiddleware], [SecurityMiddleware]
    and [CORSMiddleware] among the user middlewares of the application,
    the one added last outermost.  The framework builds its stack as
    [ServerErrorMiddleware], the user middlewares, [ExceptionMiddleware],
    the router: the layer that turns an [HTTPException] into a response of
    its status code lies inside the filter, so what the filter itself
    raises passes the CORS layer and meets [ServerErrorMiddleware]
    only. *)

Module Stack.

Import Admission.

(** The two things the CORS layer does: it answers a preflight request by
    itself, and it adds its headers to the response of the inner layers to
    any other request. *)
Record CORS : Type := mkCORS {
  preflight_response : Request -> option Response;
  simple_response : Request -> Response -> Response
}.

Section Layers.

Context {App : Type}.

Definition layer : Type := Request -> App -> outcome Response * App.

(** [SecurityMiddleware]: [dispatch] around the inner layers (rate
    limiter, exception handlers, routes). *)
Definition SecurityMiddleware (config : Config.t) (debug : bool)
    (call_next : layer) : layer :=
  fun request app => dispatch config debug request call_next app.

(** [CORSMiddleware.__call__]: an exception of the inner layers is not
    caught. *)
Definition CORSMiddleware (cors : CORS) (inner : layer) : layer :=
  fun request app =>
    match preflight_response cors request with
    | Some response => (Returned response, app)
    | None =>
        match inner request app with
        | (Returned response, app') =>
            (Returned (simple_response cors request response), app')
        | (Raised exc, app') => (Raised exc, app')
        end
    end.

(** [ServerErrorMiddleware.__call__]: an exception that reaches the
    outermost layer is answered with status 500; [error_page] gives the
    headers and the body of the page ([debug_response], as the application
    is built with [debug=True]). *)
Definition ServerErrorMiddleware
    (error_page : Request -> exn -> list (string * string) * pyval)
    (inner : layer) (request : Request) (app : App) : Response * App :=
  match inner request app with
  | (Returned response, app') => (response, app')
  | (Raised exc, app') =>
      (mkResponse 500 (fst (error_page request exc))
         (snd (error_page request exc)),
       app')
  end.

(** What the client is sent: the stack around everything that lies
    inside the filter. *)
Definition build_middleware_stack (config : Config.t) (debug : bool)
    (cors : CORS)
    (error_page : Request -> exn -> list (string * string) * pyval)
    (call_next : layer) : Request -> App -> Response * App :=
  ServerErrorMiddleware error_page
    (CORSMiddleware cors (SecurityMiddleware config debug call_next)).

End Layers.

End Stack.

(** A CORS layer that adds nothing, and the plain-text error page. *)
Definition no_cors : Stack.CORS :=
  Stack.mkCORS (fun _ => None) (fun _ response => response).

Definition plain_error_page (request : Admission.Request) (exc : exn)
  : list (string * string) * pyval :=
  ([("content-type", "text/plain; charset=utf-8")], PStr (exn_str exc)).

(** ** Values handed to the cache that JSON does not carry unchanged

    [CacheManager.set] takes any object that [json.dumps] serializes.
    Beside the JSON-shaped values these include tuples, which the encoder
    writes as arrays. *)

Module CacheValues.

Inductive pyobj : Type :=
  | ONone
  | OBool (b : bool)
  | OInt (n : Z)
  | OStr (s : string)
  | OList (l : list pyobj)
  | OTuple (l : list pyobj)
  | ODict (d : list (string * pyobj)).

(** The JSON-shaped value whose text [json.dumps(o)] is: a tuple is
    written as the list of its items. *)
Fixpoint json_image (o : pyobj) : pyval :=
  match o with
  | ONone => PNone
  | OBool b => PBool b
  | OInt n => PInt n
  | OStr s => PStr s
  | OList l => PList (map json_image l)
  | OTuple l => PList (map json_image l)
  | ODict d => PDict (map (fun kv => (fst kv, json_image (snd kv))) d)
  end.

(** A JSON-shaped value as a Python object; what [json.loads] returns is
    always of this kind. *)
Fixpoint of_json (v : pyval) : pyobj :=
  match v with
  | PNone => ONone
  | PBool b => OBool b
  | PInt n => OInt n
  | PStr s => OStr s
  | PList l => OList (map of_json l)
  | PDict d => ODict (map (fun kv => (fst kv, of_json (snd kv))) d)
  end.

(** [set] called with such an object: [value] is used in
    [json.dumps(value)] and nowhere else. *)
Definition set_object `{Cache.Externals} (key : string) (value : pyobj)
    (ttl : option Z) (now : Q) (cm : Cache.CacheManager)
  : outcome bool * Cache.CacheManager :=
  Cache.set key (json_image value) ttl now cm.

End CacheValues.

(** ** Runs in which requests are all that is handled *)

Definition is_request (cb : Web.callback) : bool :=
  match cb with Web.HandleReport _ => true | _ => false end.

Definition is_turn (e : Web.event) : bool :=
  match e with Web.Turn _ => true | _ => false end.

(** The number of callbacks the loop runs in [es]. *)
Definition turns (es : list Web.event) : nat :=
  List.length (List.filter is_turn es).

(** Every callback of [es] is run before [deadline]. *)
Definition turns_before (deadline : Q) (es : list Web.event) : Prop :=
  Forall (fun e =>
            match e with Web.Turn now => (now < deadline)%Q | _ => True end)
    es.

(** * Properties *)

(** ** Clock comparisons *)

Lemma Qgtb_true (x y : Q) : Qgtb x y = true <-> (y < x)%Q.
Proof.
  unfold Qgtb. rewrite negb_true_iff. split.
  - intros Hb. apply Qnot_le_lt. intros Hle.
    apply Qle_bool_iff in Hle. congruence.
  - intros Hlt. destruct (Qle_bool x y) eqn:E; [|reflexivity].
    apply Qle_bool_iff in E. exfalso. exact (Qlt_not_le _ _ Hlt E).
Qed.

Lemma Qgtb_false (x y : Q) : Qgtb x y = false <-> (x <= y)%Q.
Proof. unfold Qgtb. rewrite negb_false_iff. apply Qle_bool_iff. Qed.

(** ** Session registry *)

Section SessionFacts.

Import Security.

Lemma validate_unknown sid now sm :
  sessions sm !! sid = None -> validate_session sid now sm = (false, sm).
Proof. intros Hnone. unfold validate_session. rewrite Hnone. reflexivity. Qed.

Lemma validate_expired sid now sm s :
  sessions sm !! sid = Some s ->
  (inject_Z (lifetime sm) < now - created_at s)%Q ->
  validate_session sid now sm
  = (false, with_sessions sm (delete sid (sessions sm))).
Proof.
  intros Hs Hlate. unfold validate_session. rewrite Hs.
  apply Qgtb_true in Hlate. rewrite Hlate. reflexivity.
Qed.

Lemma validate_alive sid now sm s :
  sessions sm !! sid = Some s ->
  (now - created_at s <= inject_Z (lifetime sm))%Q ->
  validate_session sid now sm
  = (true,
     with_sessions sm
       (<[sid := mkSession (client_id s) (created_at s) now]> (sessions sm))).
Proof.
  intros Hs Hin. unfold validate_session. rewrite Hs.
  apply Qgtb_false in Hin. rewrite Hin. reflexivity.
Qed.

Lemma run_call_same_birth sid born life c sm :
  fresh_for sid c -> same_birth sid born life sm ->
  same_birth sid born life (run_call c sm).
Proof.
  intros Hfresh [Hlife Hs]. unfold same_birth.
  destruct c as [token t1 t2 client|sid' now|sid']; simpl in *.
  - split; [exact Hlife|].
    rewrite lookup_insert_ne by exact Hfresh. exact Hs.
  - unfold validate_session.
    destruct (sessions sm !! sid') as [s'|] eqn:E; simpl.
    + destruct (Qgtb _ _); simpl; (split; [exact Hlife|]).
      * destruct (decide (sid' = sid)) as [->|Hne].
        -- rewrite lookup_delete_eq. exact I.
        -- rewrite lookup_delete_ne by exact Hne. exact Hs.
      * destruct (decide (sid' = sid)) as [->|Hne].
        -- rewrite lookup_insert_eq. simpl. rewrite E in Hs. exact Hs.
        -- rewrite lookup_insert_ne by exact Hne. exact Hs.
    + split; assumption.
  - unfold end_session.
    destruct (sessions sm !! sid') as [s'|] eqn:E; simpl.
    + split; [exact Hlife|].
      destruct (decide (sid' = sid)) as [->|Hne].
      * rewrite lookup_delete_eq. exact I.
      * rewrite lookup_delete_ne by exact Hne. exact Hs.
    + split; assumption.
Qed.

Lemma run_calls_same_birth sid born life cs :
  forall sm, Forall (fresh_for sid) cs -> same_birth sid born life sm ->
  same_birth sid born life (run_calls cs sm).
Proof.
  induction cs as [|c cs IH]; intros sm Hall Hsm; [exact Hsm|].
  inversion Hall as [|? ? Hc Hcs]; subst.
  simpl. apply IH; [exact Hcs|]. apply run_call_same_birth; assumption.
Qed.

(** C4. Session lifecycle: a session validated right after its creation
    (more generally, no more than [lifetime] seconds after it) is accepted;
    validated more than [lifetime] seconds after its creation it is
    rejected and removed from the registry, so that every later validation
    of the same id is rejected as well. *)
Theorem session_lifecycle (sm : SessionManager) (token client : string)
    (t_created t_accessed : Q) :
  let sid := fst (create_session token t_created t_accessed client sm) in
  let sm1 := snd (create_session token t_created t_accessed client sm) in
  (forall now, (now - t_created <= inject_Z (lifetime sm))%Q ->
     fst (validate_session sid now sm1) = true)
  /\ (forall now, (inject_Z (lifetime sm) < now - t_created)%Q ->
        let sm2 := snd (validate_session sid now sm1) in
        fst (validate_session sid now sm1) = false
        /\ sessions sm2 !! sid = None
        /\ forall now', validate_session sid now' sm2 = (false, sm2)).
Proof.
  simpl. split.
  - intros now Hin.
    rewrite (validate_alive token now _ (mkSession client t_created t_accessed));
      [reflexivity| |exact Hin].
    simpl. apply lookup_insert_eq.
  - intros now Hlate.
    rewrite (validate_expired token now _
               (mkSession client t_created t_accessed));
      [| |exact Hlate]; [|simpl; apply lookup_insert_eq].
    simpl. split; [reflexivity|].
    split; [apply lookup_delete_eq|].
    intros now'. apply validate_unknown. simpl. apply lookup_delete_eq.
Qed.

Lemma session_lifecycle_witness :
  let sm1 := snd (create_session "tok" 100 100 "10.0.0.7" (init "k" 3600)) in
  fst (validate_session "tok" 100 sm1) = true
  /\ fst (validate_session "tok" 3701 sm1) = false
  /\ fst (validate_session "tok" 3702
            (snd (validate_session "tok" 3701 sm1))) = false.
Proof.
  destruct (session_lifecycle (init "k" 3600) "tok" "10.0.0.7" 100 100)
    as [Hfresh Hlate].
  split; [apply Hfresh; vm_compute; discriminate|].
  destruct (Hlate 3701%Q) as [Hfalse [_ Hagain]]; [vm_compute; reflexivity|].
  split; [exact Hfalse|]. simpl in Hagain. simpl. rewrite Hagain. reflexivity.
Defined.

(** C7. Hard ceiling: the verdict of [validate_session] does not depend
    on [last_accessed], and once more than [lifetime] seconds have passed
    since the creation of a session every validation of it is rejected,
    whatever calls, successful validations included, were made on the
    registry in between. *)
Theorem hard_ceiling_expiry (sm : SessionManager) (sid : string) (s : Session) :
  sessions sm !! sid = Some s ->
  (forall touched now,
     fst (validate_session sid now
            (with_sessions sm
               (<[sid := mkSession (client_id s) (created_at s) touched]>
                  (sessions sm))))
     = fst (validate_session sid now sm))
  /\ (forall calls now,
        Forall (fresh_for sid) calls ->
        (inject_Z (lifetime sm) < now - created_at s)%Q ->
        fst (validate_session sid now (run_calls calls sm)) = false).
Proof.
  intros Hs. split.
  - intros touched now. unfold validate_session. simpl.
    rewrite lookup_insert_eq, Hs. simpl.
    destruct (Qgtb _ _); reflexivity.
  - intros calls now Hfresh Hlate.
    assert (Hinv : same_birth sid (created_at s) (lifetime sm)
                     (run_calls calls sm)).
    { apply run_calls_same_birth; [exact Hfresh|].
      split; [reflexivity|]. rewrite Hs. reflexivity. }
    destruct Hinv as [Hlife Hborn].
    destruct (sessions (run_calls calls sm) !! sid) as [s'|] eqn:E.
    + erewrite validate_expired; [reflexivity|exact E|].
      rewrite Hlife, Hborn. exact Hlate.
    + rewrite validate_unknown by exact E. reflexivity.
Qed.

Lemma hard_ceiling_expiry_witness :
  let sm := snd (create_session "tok" 0 0 "10.0.0.7" (init "k" 3600)) in
  fst (validate_session "tok" 3601
         (run_calls [Validate "tok" 1800; Validate "tok" 3600;
                     Create "other" 10 10 "10.0.0.8"; Validate "tok" 3600]
            sm)) = false.
Proof.
  intros sm.
  refine (proj2 (hard_ceiling_expiry sm "tok" (mkSession "10.0.0.7" 0 0) _)
            _ 3601%Q _ _).
  - reflexivity.
  - repeat constructor. simpl. discriminate.
  - vm_compute. reflexivity.
Defined.

(** C10. Frame of validation: a validation that succeeds changes nothing
    but the [last_accessed] field of the named session, and a validation
    of an unknown id changes nothing at all. *)
Theorem validate_frame (sm : SessionManager) (sid : string) (now : Q) :
  (forall sm', validate_session sid now sm = (true, sm') ->
     exists s,
       sessions sm !! sid = Some s
       /\ sessions sm' !! sid
          = Some (mkSession (client_id s) (created_at s) now)
       /\ (forall other, other <> sid ->
             sessions sm' !! other = sessions sm !! other)
       /\ lifetime sm' = lifetime sm
       /\ secret_key sm' = secret_key sm)
  /\ (sessions sm !! sid = None -> validate_session sid now sm = (false, sm)).
Proof.
  split; [|apply validate_unknown].
  intros sm' Hv. unfold validate_session in Hv.
  destruct (sessions sm !! sid) as [s|] eqn:E; [|discriminate].
  destruct (Qgtb _ _); [discriminate|].
  injection Hv as <-. exists s. simpl.
  split; [reflexivity|]. split; [apply lookup_insert_eq|].
  split; [|split; reflexivity].
  intros other Hne. apply lookup_insert_ne. congruence.
Qed.

Lemma validate_frame_witness :
  let sm := snd (create_session "b" 5 5 "10.0.0.8"
                   (snd (create_session "a" 0 0 "10.0.0.7" (init "k" 3600)))) in
  let sm' := snd (validate_session "a" 60 sm) in
  sessions sm' !! "a" = Some (mkSession "10.0.0.7" 0 60)
  /\ sessions sm' !! "b" = sessions sm !! "b"
  /\ validate_session "zzz" 60 sm = (false, sm).
Proof.
  intros sm sm'.
  destruct (validate_frame sm "a" 60%Q) as [Hok _].
  destruct (Hok sm') as [s [Hs [Hnew [Hframe _]]]]; [reflexivity|].
  assert (s = mkSession "10.0.0.7" 0 0) as -> by (vm_compute in Hs; congruence).
  split; [exact Hnew|]. split; [apply Hframe; discriminate|].
  apply (proj2 (validate_frame sm "zzz" 60%Q)). reflexivity.
Defined.

End SessionFacts.

(** ** Admission filter *)

Section AdmissionFacts.

Import Admission.

Context {App : Type}.

Lemma is_allowed_host_In host config :
  Config.is_allowed_host host config = true
  <-> In host (Config.ALLOWED_HOSTS (Config.security config)).
Proof.
  unfold Config.is_allowed_host. rewrite existsb_exists. split.
  - intros [x [Hin Heq]]. apply String.eqb_eq in Heq. subst. exact Hin.
  - intros Hin. exists host. split; [exact Hin|apply String.eqb_refl].
Qed.

(** What [dispatch] itself does with a request it refuses: a host that,
    port stripped, is not in the allow-list raises [HTTPException(400)],
    and a declared content-length above the ceiling, from an allowed host,
    raises [HTTPException(413)]; in both cases whatever the request
    carries (cookies included) and without the downstream application
    being run: its state comes back untouched for every [call_next]. *)
Lemma admission_rejects (config : Config.t) (debug : bool)
    (request : Request) (call_next : @handler App) (app : App) :
  (~ In (checked_host request) (Config.ALLOWED_HOSTS (Config.security config)) ->
   dispatch config debug request call_next app
   = (Raised (HTTPException 400 "Invalid host header"), app))
  /\ (forall n,
        In (checked_host request)
          (Config.ALLOWED_HOSTS (Config.security config)) ->
        declared_length request = Returned n ->
        Config.max_request_size config < n ->
        dispatch config debug request call_next app
        = (Raised (HTTPException 413 "Request too large"), app)).
Proof.
  unfold dispatch, dispatch_body, checked_host. split.
  - intros Hout.
    destruct (Config.is_allowed_host _ config) eqn:E.
    + apply is_allowed_host_In in E. contradiction.
    + reflexivity.
  - intros n Hin Hlen Hbig.
    apply is_allowed_host_In in Hin. rewrite Hin, Hlen. simpl.
    assert ((n >? Config.max_request_size config) = true) as ->
      by (apply Z.gtb_lt; exact Hbig).
    reflexivity.
Qed.

End AdmissionFacts.

(** C6, where the code departs from it. The filter refuses such a
    request before the application behind it is run, whatever cookie the
    request carries, but the client is not answered 400 or 413: the
    [HTTPException] that [dispatch] raises is not caught by any layer
    between the filter and [ServerErrorMiddleware], which answers 500.
    This holds for every request that reaches the filter, that is, every
    request but a CORS preflight. *)
Theorem rejection_answered_500 {App : Type} (config : Config.t)
    (debug : bool) (cors : Stack.CORS)
    (error_page : Admission.Request -> exn -> list (string * string) * pyval)
    (call_next : @Stack.layer App) (request : Admission.Request)
    (app : App) :
  Stack.preflight_response cors request = None ->
  let sent :=
    Stack.build_middleware_stack config debug cors error_page call_next
      request app in
  let page e :=
    Admission.mkResponse 500 (fst (error_page request e))
      (snd (error_page request e)) in
  (~ In (Admission.checked_host request)
        (Config.ALLOWED_HOSTS (Config.security config)) ->
   sent = (page (HTTPException 400 "Invalid host header"), app)
   /\ Admission.status_code (fst sent) = 500)
  /\ (forall n,
        In (Admission.checked_host request)
          (Config.ALLOWED_HOSTS (Config.security config)) ->
        Admission.declared_length request = Returned n ->
        Config.max_request_size config < n ->
        sent = (page (HTTPException 413 "Request too large"), app)
        /\ Admission.status_code (fst sent) = 500).
Proof.
  intros Hpre sent page.
  assert (Hraise : forall e,
            Admission.dispatch config debug request call_next app
            = (Raised e, app) ->
            sent = (page e, app)).
  { intros e He. unfold sent, Stack.build_middleware_stack,
      Stack.ServerErrorMiddleware, Stack.CORSMiddleware,
      Stack.SecurityMiddleware.
    rewrite Hpre, He. reflexivity. }
  destruct (admission_rejects config debug request call_next app)
    as [Hhost Hsize].
  split.
  - intros Hout. rewrite (Hraise _ (Hhost Hout)). split; reflexivity.
  - intros n Hin Hlen Hbig.
    rewrite (Hraise _ (Hsize n Hin Hlen Hbig)). split; reflexivity.
Qed.

Lemma rejection_answered_500_witness :
  let evil :=
    Admission.mkRequest [("host", "evil.com"); ("content-length", "10")]
      [("session_id", "a-valid-session")] EmptyString in
  let large :=
    Admission.mkRequest
      [("host", "localhost:8000"); ("content-length", "2048")]
      [("session_id", "a-valid-session")] EmptyString in
  let sent request :=
    Stack.build_middleware_stack scenario_config false no_cors
      plain_error_page counting_app request 0%nat in
  Admission.dispatch scenario_config false evil counting_app 0%nat
  = (Raised (HTTPException 400 "Invalid host header"), 0%nat)
  /\ sent evil
     = (Admission.mkResponse 500
          [("content-type", "text/plain; charset=utf-8")]
          (PStr "400: Invalid host header"),
        0%nat)
  /\ Admission.dispatch scenario_config false large counting_app 0%nat
     = (Raised (HTTPException 413 "Request too large"), 0%nat)
  /\ sent large
     = (Admission.mkResponse 500
          [("content-type", "text/plain; charset=utf-8")]
          (PStr "413: Request too large"),
        0%nat).
Proof.
  intros evil large sent.
  destruct (rejection_answered_500 scenario_config false no_cors
              plain_error_page counting_app evil 0%nat eq_refl)
    as [Hhost _].
  destruct (rejection_answered_500 scenario_config false no_cors
              plain_error_page counting_app large 0%nat eq_refl)
    as [_ Hsize].
  split; [vm_compute; reflexivity|]. split.
  - apply Hhost. simpl. intros [Heq|[]]. discriminate Heq.
  - split; [vm_compute; reflexivity|].
    apply (Hsize 2048).
    + simpl. left. reflexivity.
    + reflexivity.
    + reflexivity.
Defined.

(** ** Cache store *)

Section CacheFacts.

Import Cache.

Context `{Externals}.

Lemma ttl_or_default_positive ttl cfg :
  0 < ttl -> ttl_or_default (Some ttl) cfg = ttl.
Proof.
  intros Hpos. unfold ttl_or_default.
  destruct (ttl =? 0) eqn:E; [apply Z.eqb_eq in E; lia|reflexivity].
Qed.

Lemma ttl_or_default_falsy cfg :
  ttl_or_default (Some 0) cfg = Config.cache_ttl cfg
  /\ ttl_or_default None cfg = Config.cache_ttl cfg.
Proof. split; reflexivity. Qed.

Lemma ttl_or_default_idem cfg :
  ttl_or_default (Some (Config.cache_ttl cfg)) cfg = Config.cache_ttl cfg.
Proof.
  unfold ttl_or_default.
  destruct (Config.cache_ttl cfg =? 0) eqn:E; reflexivity.
Qed.

(** [set] depends on its [ttl] argument only through [ttl or default]. *)
Lemma set_ttl_or_default key value ttl1 ttl2 now cm :
  ttl_or_default ttl1 (config cm) = ttl_or_default ttl2 (config cm) ->
  set key value ttl1 now cm = set key value ttl2 now cm.
Proof.
  intros Heq. unfold set. destruct (redis_client cm); [|reflexivity].
  rewrite Heq. reflexivity.
Qed.

(** A store on a reachable server with a positive effective ttl. *)
Lemma set_stores key value ttl now cm r serialized :
  redis_client cm = Some r -> reachable r = true ->
  json_dumps value = Some serialized ->
  0 < ttl_or_default ttl (config cm) ->
  set key value ttl now cm
  = (Returned true,
     with_client cm
       (mkRedis
          (<[key := mkEntry serialized
                      (now + inject_Z (ttl_or_default ttl (config cm)))]>
             (db r))
          true)).
Proof.
  intros Hr Hup Hser Hpos. unfold set. rewrite Hr, Hser.
  unfold redis_setex. rewrite Hup.
  destruct (ttl_or_default ttl (config cm) <=? 0) eqn:E;
    [apply Z.leb_le in E; lia|].
  reflexivity.
Qed.

(** No method of the cache manager lets an exception out. *)
Lemma get_returns key now cm : exists v, get key now cm = Returned v.
Proof.
  unfold get. destruct (redis_client cm) as [r|]; [|eauto].
  destruct (redis_get key now r) as [[value|]|e]; simpl; eauto.
  destruct (truthy_bytes value); simpl; eauto.
  destruct (json_loads value); simpl; eauto.
Qed.

Lemma set_returns key value ttl now cm :
  exists b, fst (set key value ttl now cm) = Returned b.
Proof.
  unfold set. destruct (redis_client cm) as [r|]; [|simpl; eauto].
  destruct (json_dumps value) as [s|]; simpl; eauto.
  destruct (redis_setex key _ s now r) as [[b|e] r']; simpl; eauto.
Qed.

Lemma init_without_client cfg server :
  Config.cache_enabled cfg = false \/ reachable server = false ->
  redis_client (init cfg server) = None.
Proof.
  intros [Hoff|Hdown]; unfold init; simpl.
  - rewrite Hoff. reflexivity.
  - rewrite Hdown. destruct (Config.cache_enabled cfg); reflexivity.
Qed.

(** C3. Graceful degradation: without a client (cache disabled, or the
    server unreachable at start-up) [get] misses, [set], [delete] and
    [exists] answer [False], [clear_pattern] answers 0; each of them
    returns, none raises, and the manager is left as it was. *)
Theorem cache_disabled_degrades (cm : CacheManager) (key pattern : string)
    (value : pyval) (ttl : option Z) (now : Q) :
  redis_client cm = None ->
  get key now cm = Returned PNone
  /\ set key value ttl now cm = (Returned false, cm)
  /\ delete key now cm = (Returned false, cm)
  /\ exists_ key now cm = Returned false
  /\ clear_pattern pattern now cm = (Returned 0, cm).
Proof.
  intros Hnone. unfold get, set, delete, exists_, clear_pattern.
  rewrite Hnone. repeat split; reflexivity.
Qed.

(** An entry stored with a positive [ttl] is read back until its
    deadline and is a miss from then on. *)
Lemma stored_entry_visibility cm r key value ttl now serialized :
  redis_client cm = Some r -> reachable r = true ->
  0 < ttl ->
  json_dumps value = Some serialized ->
  serialized <> EmptyString ->
  json_loads serialized = Some value ->
  fst (set key value (Some ttl) now cm) = Returned true
  /\ (forall later, (later < now + inject_Z ttl)%Q ->
        get key later (snd (set key value (Some ttl) now cm)) = Returned value)
  /\ (forall later, (now + inject_Z ttl <= later)%Q ->
        get key later (snd (set key value (Some ttl) now cm)) = Returned PNone).
Proof.
  intros Hr Hup Hpos Hser Hne Hload.
  rewrite (set_stores key value (Some ttl) now cm r serialized Hr Hup Hser)
    by (rewrite ttl_or_default_positive; lia).
  rewrite ttl_or_default_positive by exact Hpos. simpl.
  split; [reflexivity|]. split.
  - intros later Hbefore. unfold get, redis_get, lookup_live, live. simpl.
    rewrite lookup_insert_eq. simpl.
    apply Qgtb_true in Hbefore. rewrite Hbefore.
    assert (truthy_bytes serialized = true) as ->.
    { unfold truthy_bytes. apply negb_true_iff.
      apply String.eqb_neq. exact Hne. }
    rewrite Hload. reflexivity.
  - intros later Hafter. unfold get, redis_get, lookup_live, live. simpl.
    rewrite lookup_insert_eq. simpl.
    apply Qgtb_false in Hafter. rewrite Hafter. reflexivity.
Qed.

(** C5, as the code has it. On a reachable store, what [get] returns for
    a value stored with a positive [ttl], at once and until [ttl] seconds
    have passed, is what [json.loads] reads from the text [json.dumps]
    wrote of it; from then on it is a miss.  So a JSON-shaped value that
    [json.loads] reads back unchanged is returned as it was stored, and a
    tuple never is. *)
Theorem cache_round_trip (cm : CacheManager) (r : Redis) (key : string)
    (value : CacheValues.pyobj) (ttl : Z) (now : Q) (serialized : string) :
  redis_client cm = Some r -> reachable r = true ->
  0 < ttl ->
  json_dumps (CacheValues.json_image value) = Some serialized ->
  serialized <> EmptyString ->
  let stored := CacheValues.set_object key value (Some ttl) now cm in
  let decoded := default PNone (json_loads serialized) in
  fst stored = Returned true
  /\ get key now (snd stored) = Returned decoded
  /\ (forall later, (later < now + inject_Z ttl)%Q ->
        get key later (snd stored) = Returned decoded)
  /\ (forall later, (now + inject_Z ttl <= later)%Q ->
        get key later (snd stored) = Returned PNone)
  /\ (forall v, value = CacheValues.of_json v ->
        json_loads serialized = Some v ->
        get key now (snd stored) = Returned v
        /\ CacheValues.of_json decoded = value)
  /\ (forall items, value = CacheValues.OTuple items ->
        CacheValues.of_json decoded <> value).
Proof.
  intros Hr Hup Hpos Hser Hne stored decoded.
  assert (Hstored : stored
            = (Returned true,
               with_client cm
                 (mkRedis
                    (<[key := mkEntry serialized (now + inject_Z ttl)]>
                       (db r))
                    true))).
  { unfold stored, CacheValues.set_object.
    rewrite (set_stores key _ (Some ttl) now cm r serialized Hr Hup Hser)
      by (rewrite ttl_or_default_positive; lia).
    rewrite ttl_or_default_positive by exact Hpos. reflexivity. }
  assert (Hhit : forall later, (later < now + inject_Z ttl)%Q ->
            get key later (snd stored) = Returned decoded).
  { intros later Hbefore. rewrite Hstored.
    unfold get, redis_get, lookup_live, live. simpl.
    rewrite lookup_insert_eq. simpl.
    apply Qgtb_true in Hbefore. rewrite Hbefore.
    assert (truthy_bytes serialized = true) as ->.
    { unfold truthy_bytes. apply negb_true_iff.
      apply String.eqb_neq. exact Hne. }
    unfold decoded. destruct (json_loads serialized); reflexivity. }
  assert (Hnow : get key now (snd stored) = Returned decoded).
  { apply Hhit. rewrite <- (Qplus_0_r now) at 1.
    apply Qplus_lt_r. unfold Qlt. simpl. lia. }
  split; [rewrite Hstored; reflexivity|]. split; [exact Hnow|].
  split; [exact Hhit|]. split; [|split].
  - intros later Hafter. rewrite Hstored.
    unfold get, redis_get, lookup_live, live. simpl.
    rewrite lookup_insert_eq. simpl.
    apply Qgtb_false in Hafter. rewrite Hafter. reflexivity.
  - intros v -> Hload. rewrite Hnow. unfold decoded. rewrite Hload.
    split; reflexivity.
  - intros items -> Heq. destruct decoded; discriminate Heq.
Qed.

(** C9. A falsy [ttl] is a [ttl] not supplied: [set(key, value, ttl=0)]
    does what [set(key, value)] and [set(key, value, ttl=cache_ttl)] do,
    so on a reachable store the entry lives for the configured default
    and is there to be read at once. *)
Theorem zero_ttl_is_default (cm : CacheManager) (key : string)
    (value : pyval) (now : Q) :
  ttl_or_default (Some 0) (config cm) = Config.cache_ttl (config cm)
  /\ set key value (Some 0) now cm = set key value None now cm
  /\ set key value (Some 0) now cm
     = set key value (Some (Config.cache_ttl (config cm))) now cm
  /\ (forall r serialized,
        redis_client cm = Some r -> reachable r = true ->
        json_dumps value = Some serialized ->
        0 < Config.cache_ttl (config cm) ->
        set key value (Some 0) now cm
        = (Returned true,
           with_client cm
             (mkRedis
                (<[key := mkEntry serialized
                            (now + inject_Z (Config.cache_ttl (config cm)))]>
                   (db r))
                true))
        /\ lookup_live key now
             (mkRedis
                (<[key := mkEntry serialized
                            (now + inject_Z (Config.cache_ttl (config cm)))]>
                   (db r))
                true)
           = Some serialized).
Proof.
  split; [reflexivity|]. split; [apply set_ttl_or_default; reflexivity|].
  split.
  - apply set_ttl_or_default. rewrite ttl_or_default_idem. reflexivity.
  - intros r serialized Hr Hup Hser Hpos. split.
    + rewrite (set_stores key value (Some 0) now cm r serialized Hr Hup Hser)
        by exact Hpos.
      reflexivity.
    + unfold lookup_live, live. simpl. rewrite lookup_insert_eq. simpl.
      assert (Qgtb (now + inject_Z (Config.cache_ttl (config cm))) now = true)
        as ->; [|reflexivity].
      apply Qgtb_true. rewrite <- (Qplus_0_r now) at 1.
      apply Qplus_lt_r. unfold Qlt. simpl. lia.
Qed.

End CacheFacts.

Lemma cache_disabled_degrades_witness :
  let cm := Cache.init scenario_config dead_server in
  Cache.get "security_report" 0 cm = Returned PNone
  /\ Cache.set "security_report" scenario_report (Some 60) 0 cm
     = (Returned false, cm)
  /\ Cache.delete "security_report" 0 cm = (Returned false, cm)
  /\ Cache.exists_ "security_report" 0 cm = Returned false
  /\ Cache.clear_pattern "sec*" 0 cm = (Returned 0, cm).
Proof.
  intros cm. apply cache_disabled_degrades.
  apply init_without_client. right. reflexivity.
Defined.

Lemma cache_round_trip_witness :
  let stored value :=
    snd (CacheValues.set_object "security_report" value (Some 60) 100
           scenario_cache) in
  let cm1 := stored (CacheValues.of_json scenario_report) in
  let pair := CacheValues.OTuple [CacheValues.OInt 1; CacheValues.OInt 2] in
  Cache.get "security_report" 100 cm1 = Returned scenario_report
  /\ Cache.get "security_report" 159 cm1 = Returned scenario_report
  /\ Cache.get "security_report" 160 cm1 = Returned PNone
  /\ Cache.get "security_report" 100 (stored pair)
     = Returned (PList [PInt 1; PInt 2]).
Proof.
  intros stored cm1 pair.
  edestruct (cache_round_trip scenario_cache empty_server "security_report"
               (CacheValues.of_json scenario_report) 60 100%Q)
    as [_ [Hnow [Hhit [Hmiss _]]]].
  - reflexivity.
  - reflexivity.
  - lia.
  - vm_compute. reflexivity.
  - discriminate.
  - edestruct (cache_round_trip scenario_cache empty_server
                 "security_report" pair 60 100%Q)
      as [_ [Hpair _]].
    + reflexivity.
    + reflexivity.
    + lia.
    + vm_compute. reflexivity.
    + discriminate.
    + split; [exact Hnow|]. split; [|split].
      * apply Hhit. vm_compute. reflexivity.
      * apply Hmiss. vm_compute. discriminate.
      * exact Hpair.
Defined.

(** C5 fails as stated: a tuple is serializable, and what [get] returns
    right after it has been stored is a list, which is not the tuple.  Nor
    does every [ttl] do: with a negative one nothing is stored and the
    [get] that follows is a miss. *)
Lemma tuple_round_trip_counterexample :
  let value := CacheValues.OTuple [CacheValues.OInt 1; CacheValues.OInt 2] in
  (exists cm1 returned,
     CacheValues.set_object "pair" value (Some 60) 100 scenario_cache
     = (Returned true, cm1)
     /\ Cache.get "pair" 100 cm1 = Returned returned
     /\ returned = PList [PInt 1; PInt 2]
     /\ CacheValues.of_json returned <> value)
  /\ (exists cm1,
        Cache.set "pair" (PList [PInt 1; PInt 2]) (Some (-1)) 100
          scenario_cache
        = (Returned false, cm1)
        /\ Cache.get "pair" 100 cm1 = Returned PNone).
Proof.
  split.
  - do 2 eexists. split; [vm_compute; reflexivity|].
    split; [vm_compute; reflexivity|]. split; [reflexivity|].
    discriminate.
  - eexists. split; vm_compute; reflexivity.
Qed.

Lemma zero_ttl_is_default_witness :
  Cache.lookup_live "security_report" 100
    (default dead_server
       (Cache.redis_client
          (snd (Cache.set "security_report" scenario_report (Some 0) 100
                  scenario_cache))))
  = Reference.dumps scenario_report
  /\ Cache.lookup_live "security_report" 3699
       (default dead_server
          (Cache.redis_client
             (snd (Cache.set "security_report" scenario_report (Some 0) 100
                     scenario_cache))))
     = Reference.dumps scenario_report.
Proof.
  destruct (zero_ttl_is_default scenario_cache "security_report"
              scenario_report 100%Q) as [_ [_ [_ Hstore]]].
  edestruct (Hstore empty_server) as [Hset Hlive].
  - reflexivity.
  - reflexivity.
  - vm_compute. reflexivity.
  - vm_compute. reflexivity.
  - rewrite Hset. simpl. split; [exact Hlive|]. vm_compute. reflexivity.
Defined.

(** ** Single-flight report coordinator *)

Section WebFacts.

Import Cache Web.

Context `{Externals}.

(** While the lock is held and the cache has nothing to serve, a request
    is told [generating] and starts nothing. *)
Lemma report_while_locked now a :
  locked (report_lock a) = true ->
  Cache.get get_report_cache_key now (cache_manager a) = Returned PNone ->
  report now a = (Returned (mkJSONResponse 202 generating_body), a).
Proof.
  intros Hlocked Hmiss. unfold report. rewrite Hmiss. simpl.
  rewrite Hlocked. reflexivity.
Qed.

(** With the lock free and nothing cached, a request is told [started]
    and queues a new task, whether or not one is queued already. *)
Lemma report_while_unlocked now a :
  locked (report_lock a) = false ->
  Cache.get get_report_cache_key now (cache_manager a) = Returned PNone ->
  report now a = (Returned (mkJSONResponse 202 started_body), create_task a).
Proof.
  intros Hfree Hmiss. unfold report. rewrite Hmiss. simpl.
  rewrite Hfree. reflexivity.
Qed.

(** A truthy cached record is served inside a [ready] body. *)
Lemma report_cached now a v :
  Cache.get get_report_cache_key now (cache_manager a) = Returned v ->
  truthy v = true ->
  report now a = (Returned (mkJSONResponse 200 (ready_body v)), a).
Proof.
  intros Hget Htrue. unfold report. rewrite Hget. simpl.
  rewrite Htrue. reflexivity.
Qed.

Lemma cache_set_spec value ttl now a :
  exists b,
    cache_set value ttl now a
    = (Returned b,
       log_write (mkWrite get_report_cache_key value (Some ttl) (Returned b))
         (set_cache
            (snd (Cache.set get_report_cache_key value (Some ttl) now
                    (cache_manager a))) a)).
Proof.
  unfold cache_set.
  destruct (set_returns get_report_cache_key value (Some ttl) now
              (cache_manager a)) as [b Hb].
  destruct (Cache.set _ _ _ _ _) as [res cm]. simpl in Hb. subst res.
  exists b. reflexivity.
Qed.

Lemma release_spec a :
  locked (report_lock (release a)) = false
  /\ cache_manager (release a) = cache_manager a
  /\ writes (release a) = writes a
  /\ computations (release a) = computations a
  /\ executor (release a) = executor a
  /\ next_task (release a) = next_task a.
Proof.
  unfold release. destruct (wake_up_first _) as [ws [tid|]];
    repeat split; reflexivity.
Qed.

(** What [generate_report_background] leaves behind once the computation
    is over. *)
Lemma task_done_success tid report now a :
  exists b,
    let ttl := Config.cache_ttl (config a) in
    cache_manager (task_done tid (inl report) now a)
    = snd (Cache.set get_report_cache_key (success_record report) (Some ttl)
             now (cache_manager a))
    /\ writes (task_done tid (inl report) now a)
       = (writes a
            ++ [mkWrite get_report_cache_key (success_record report)
                  (Some ttl) (Returned b)])%list.
Proof.
  unfold task_done.
  destruct (cache_set_spec (success_record report)
              (Config.cache_ttl (config a)) now a) as [b Hb].
  rewrite Hb. exists b. simpl.
  destruct (release_spec
              (log_write
                 (mkWrite get_report_cache_key (success_record report)
                    (Some (Config.cache_ttl (config a))) (Returned b))
                 (set_cache
                    (snd (Cache.set get_report_cache_key
                            (success_record report)
                            (Some (Config.cache_ttl (config a))) now
                            (cache_manager a))) a)))
    as [_ [Hcm [Hw _]]].
  rewrite Hcm, Hw. split; reflexivity.
Qed.

Lemma task_done_failure tid message now a :
  exists b,
    cache_manager (task_done tid (inr message) now a)
    = snd (Cache.set get_report_cache_key (error_record message) (Some 300)
             now (cache_manager a))
    /\ writes (task_done tid (inr message) now a)
       = (writes a
            ++ [mkWrite get_report_cache_key (error_record message)
                  (Some 300) (Returned b)])%list
    /\ locked (report_lock (task_done tid (inr message) now a)) = false.
Proof.
  unfold task_done.
  destruct (cache_set_spec (error_record message) 300 now a) as [b Hb].
  rewrite Hb. exists b. simpl.
  destruct (release_spec
              (log_write
                 (mkWrite get_report_cache_key (error_record message)
                    (Some 300) (Returned b))
                 (set_cache
                    (snd (Cache.set get_report_cache_key
                            (error_record message) (Some 300) now
                            (cache_manager a))) a)))
    as [Hl [Hcm [Hw _]]].
  rewrite Hcm, Hw, Hl. repeat split; reflexivity.
Qed.

End WebFacts.

Section CoordinatorClaims.

Import Cache Web.

Context `{Externals}.

(** While a truthy record is in the cache and no computation is queued or
    running, whatever the loop handles is requests, each answered [ready]
    with that record; the process is otherwise left as it was. *)
Lemma cached_record_served (v : pyval) (deadline : Q) (es : list event) :
  truthy v = true ->
  forall a a2,
    forallb is_request (ready a) = true ->
    executor a = [] ->
    (forall now, (now < deadline)%Q ->
       Cache.get get_report_cache_key now (cache_manager a) = Returned v) ->
    turns_before deadline es ->
    run es a = Some a2 ->
    cache_manager a2 = cache_manager a
    /\ report_lock a2 = report_lock a
    /\ executor a2 = []
    /\ computations a2 = computations a
    /\ next_task a2 = next_task a
    /\ writes a2 = writes a
    /\ exists rids,
         List.length rids = turns es
         /\ responses a2
            = (responses a
                 ++ map (fun rid =>
                           (rid, Returned (mkJSONResponse 200 (ready_body v))))
                      rids)%list.
Proof.
  intros Htrue. induction es as [|e es IH]; intros a a2 Hq Hpool Hget Hes Hrun.
  - injection Hrun as <-. repeat split; try reflexivity; try exact Hpool.
    exists []. split; [reflexivity|]. simpl. rewrite app_nil_r. reflexivity.
  - inversion Hes as [|? ? He Hes']; subst. cbn [run] in Hrun.
    destruct e as [rid|now|tid result].
    + cbn [step] in Hrun.
      destruct (IH (call_soon (HandleReport rid) a) a2) as [Hcm Hrest];
        [|exact Hpool|exact Hget|exact Hes'|exact Hrun|].
      * simpl. rewrite forallb_app, Hq. reflexivity.
      * split; [exact Hcm|]. exact Hrest.
    + cbn [step] in Hrun.
      destruct (ready a) as [|cb rest] eqn:Hready; [discriminate Hrun|].
      simpl in Hq. apply andb_true_iff in Hq. destruct Hq as [Hcb Hq].
      destruct cb as [rid| | |]; try discriminate Hcb.
      cbn [run_callback] in Hrun.
      rewrite (report_cached now (set_ready rest a) v) in Hrun;
        [|apply Hget; exact He|exact Htrue].
      destruct (IH (respond rid
                      (Returned (mkJSONResponse 200 (ready_body v)))
                      (set_ready rest a)) a2)
        as [Hcm [Hl [Hpool2 [Hc [Hn [Hw [rids [Hlen Hresp]]]]]]]];
        [exact Hq|exact Hpool|exact Hget|exact Hes'|exact Hrun|].
      split; [exact Hcm|]. split; [exact Hl|]. split; [exact Hpool2|].
      split; [exact Hc|]. split; [exact Hn|]. split; [exact Hw|].
      exists (rid :: rids). split; [simpl; unfold turns in *; simpl; lia|].
      rewrite Hresp. simpl. rewrite <- app_assoc. reflexivity.
    + cbn [step] in Hrun. rewrite Hpool in Hrun. discriminate Hrun.
Qed.

(** C2, as the code has it. After a failed computation has written its
    error record on a reachable store, a poll made before the 300 seconds
    of the error ttl are over is answered 200 with the stored record
    inside a [ready] body,
    [{"status": "ready", "report": {"status": "error", "message": m}}],
    and starts nothing.  When no other computation is queued or running,
    this is so along every run: whatever requests arrive and in whatever
    order they are handled before the ttl is over, each is answered in
    this way, and no task is created and no computation started.  A poll
    made once the ttl is over is answered [started] and queues a new task,
    which, when nothing else is queued or waiting, runs a fresh
    computation at its first step. *)
Theorem error_record_served_as_ready (a : App) (tid : nat) (message : string)
    (failed_at : Q) (r : Redis) (serialized : string) :
  redis_client (cache_manager a) = Some r -> reachable r = true ->
  json_dumps (error_record message) = Some serialized ->
  serialized <> EmptyString ->
  json_loads serialized = Some (error_record message) ->
  let a1 := task_done tid (inr message) failed_at a in
  (forall now, (now < failed_at + 300)%Q ->
     report now a1
     = (Returned (mkJSONResponse 200 (ready_body (error_record message))), a1))
  /\ (forall es a2,
        ready a1 = [] -> executor a1 = [] ->
        turns_before (failed_at + 300) es ->
        run es a1 = Some a2 ->
        computations a2 = computations a1
        /\ next_task a2 = next_task a1
        /\ writes a2 = writes a1
        /\ exists rids,
             List.length rids = turns es
             /\ responses a2
                = (responses a1
                     ++ map (fun rid =>
                               (rid,
                                Returned
                                  (mkJSONResponse 200
                                     (ready_body (error_record message)))))
                          rids)%list)
  /\ (forall now, (failed_at + 300 <= now)%Q ->
        report now a1
        = (Returned (mkJSONResponse 202 started_body), create_task a1))
  /\ (forall now later rid, (failed_at + 300 <= now)%Q ->
        ready a1 = [] -> waiters (report_lock a1) = [] ->
        exists a2,
          run [Arrive rid; Turn now; Turn later] a1 = Some a2
          /\ computations a2 = S (computations a1)
          /\ executor a2 = (executor a1 ++ [next_task a1])%list
          /\ locked (report_lock a2) = true).
Proof.
  intros Hr Hup Hser Hne Hload a1.
  destruct (task_done_failure tid message failed_at a) as [b [Hcm [_ Hfree]]].
  fold a1 in Hcm, Hfree.
  destruct (stored_entry_visibility (cache_manager a) r get_report_cache_key
              (error_record message) 300 failed_at serialized
              Hr Hup ltac:(lia) Hser Hne Hload) as [_ [Hhit Hmiss]].
  rewrite <- Hcm in Hhit, Hmiss.
  assert (Hstarted : forall now, (failed_at + 300 <= now)%Q ->
            report now a1
            = (Returned (mkJSONResponse 202 started_body), create_task a1)).
  { intros now Hafter. apply report_while_unlocked; [exact Hfree|].
    apply Hmiss. exact Hafter. }
  split; [|split; [|split]].
  - intros now Hbefore. apply report_cached; [|reflexivity].
    apply Hhit. exact Hbefore.
  - intros es a2 Hready Hpool Hes Hrun.
    destruct (cached_record_served (error_record message) (failed_at + 300)
                es eq_refl a1 a2)
      as [_ [_ [_ [Hc [Hn [Hw Hresp]]]]]];
      [rewrite Hready; reflexivity|exact Hpool|exact Hhit|exact Hes
      |exact Hrun|].
    split; [exact Hc|]. split; [exact Hn|]. split; [exact Hw|exact Hresp].
  - exact Hstarted.
  - intros now later rid Hafter Hready Hwaiters.
    assert (Hrep : report now
                     (set_ready [] (call_soon (HandleReport rid) a1))
                   = (Returned (mkJSONResponse 202 started_body),
                      create_task
                        (set_ready [] (call_soon (HandleReport rid) a1)))).
    { apply report_while_unlocked; [exact Hfree|].
      apply Hmiss. exact Hafter. }
    clearbody a1. cbn [run step].
    assert (Hq : ready (call_soon (HandleReport rid) a1) = [HandleReport rid])
      by (simpl; rewrite Hready; reflexivity).
    rewrite Hq. cbn [run_callback]. rewrite Hrep. simpl.
    unfold task_start. simpl. rewrite Hfree, Hwaiters. simpl.
    eexists. split; [reflexivity|]. simpl. repeat split; reflexivity.
Qed.

(** C8, as the code has it. A successful computation stores
    [{status: success, version: 2, data}] with the configured [cache_ttl];
    a failed one stores [{status: error, message}] with the constant ttl
    of 300 seconds.  On a reachable store the two records expire
    [cache_ttl] and 300 seconds after they are written, so the error
    record is the first to go whenever the configured [cache_ttl] exceeds
    300, as the default of 3600 does. *)
Theorem report_record_ttls (a : App) (tid : nat) (now : Q) :
  (forall report, exists b,
     writes (task_done tid (inl report) now a)
     = (writes a
          ++ [mkWrite get_report_cache_key (success_record report)
                (Some (Config.cache_ttl (config a))) (Returned b)])%list)
  /\ (forall message, exists b,
        writes (task_done tid (inr message) now a)
        = (writes a
             ++ [mkWrite get_report_cache_key (error_record message)
                   (Some 300) (Returned b)])%list)
  /\ (forall r report message ok_bytes error_bytes,
        redis_client (cache_manager a) = Some r -> reachable r = true ->
        json_dumps (success_record report) = Some ok_bytes ->
        json_dumps (error_record message) = Some error_bytes ->
        300 < Config.cache_ttl (config a) ->
        exists r_ok r_error,
          redis_client (cache_manager (task_done tid (inl report) now a))
          = Some r_ok
          /\ redis_client (cache_manager (task_done tid (inr message) now a))
             = Some r_error
          /\ db r_ok !! get_report_cache_key
             = Some (mkEntry ok_bytes
                       (now + inject_Z (Config.cache_ttl (config a))))
          /\ db r_error !! get_report_cache_key
             = Some (mkEntry error_bytes (now + 300))
          /\ (now + 300 < now + inject_Z (Config.cache_ttl (config a)))%Q).
Proof.
  split; [|split].
  - intros report.
    destruct (task_done_success tid report now a) as [b [_ Hw]].
    exists b. exact Hw.
  - intros message.
    destruct (task_done_failure tid message now a) as [b [_ [Hw _]]].
    exists b. exact Hw.
  - intros r report message ok_bytes error_bytes Hr Hup Hok Herr Hlong.
    destruct (task_done_success tid report now a) as [b1 [Hcm1 _]].
    destruct (task_done_failure tid message now a) as [b2 [Hcm2 _]].
    simpl in Hcm1. rewrite Hcm1, Hcm2.
    rewrite (set_stores _ _ _ now _ r ok_bytes Hr Hup Hok);
      [|unfold config in *; rewrite ttl_or_default_positive; lia].
    rewrite (set_stores _ _ _ now _ r error_bytes Hr Hup Herr);
      [|rewrite ttl_or_default_positive; lia].
    rewrite !ttl_or_default_positive by (unfold config in *; lia).
    simpl. do 2 eexists. split; [reflexivity|]. split; [reflexivity|].
    split; [apply lookup_insert_eq|]. split; [apply lookup_insert_eq|].
    apply Qplus_lt_r. unfold Qlt. cbn [Qnum Qden inject_Z].
    unfold config in *. lia.
Qed.

End CoordinatorClaims.

(** C1, where the code departs from it. Two requests handled in the same
    turn of the loop on a cold cache are both told [started]: the second
    handler runs before the task created by the first has taken the lock.
    Both tasks then run the computation, one after the other, and both
    write a success record. *)
Theorem burst_runs_two_computations :
  exists a,
    Web.run burst (Web.initial scenario_cache) = Some a
    /\ statuses a
       = [(1%nat, Some (PStr "started")); (2%nat, Some (PStr "started"))]
    /\ Web.computations a = 2%nat
    /\ map Web.write_value (Web.writes a)
       = [Web.success_record scenario_report;
          Web.success_record scenario_report]
    /\ map Web.write_result (Web.writes a) = [Returned true; Returned true].
Proof.
  eexists. split; [vm_compute; reflexivity|].
  vm_compute. repeat split; reflexivity.
Qed.

(** C2 fails as stated: the poll that follows a failed computation is
    answered with status [ready], the error record being the report, and
    not with a body of the shape [{"status": "error", "message": ..}]. *)
Lemma error_poll_counterexample :
  exists a,
    Web.run failed_run (Web.initial scenario_cache) = Some a
    /\ fst (Web.report 6 a)
       = Returned
           (Web.mkJSONResponse 200
              (PDict [("status", PStr "ready");
                      ("report", Web.error_record "boom")]))
    /\ ~ (exists r, fst (Web.report 6 a) = Returned r /\ error_shaped r).
Proof.
  eexists. split; [vm_compute; reflexivity|].
  split; [vm_compute; reflexivity|].
  intros [r [Hr [message Hshape]]].
  vm_compute in Hr. injection Hr as <-.
  simpl in Hshape. unfold Web.error_record in Hshape. discriminate Hshape.
Qed.

(** C8 fails as stated: with [CACHE_TTL=60] a failed computation still
    stores its error record for 300 seconds, longer than the standard
    ttl. *)
Lemma error_ttl_counterexample :
  exists a,
    Web.run failed_run
      (Web.initial (Cache.init short_ttl_config empty_server)) = Some a
    /\ map Web.write_ttl (Web.writes a) = [Some 300]
    /\ Config.cache_ttl (Web.config a) = 60
    /\ ~ (300 < Config.cache_ttl (Web.config a)).
Proof.
  eexists. split; [vm_compute; reflexivity|].
  split; [vm_compute; reflexivity|].
  split; [vm_compute; reflexivity|].
  vm_compute. discriminate.
Qed.

Lemma error_record_served_as_ready_witness :
  let a1 := Web.task_done 0 (inr "boom") 5 (Web.initial scenario_cache) in
  let es :=
    [Web.Arrive 7; Web.Arrive 8; Web.Turn 6; Web.Arrive 9; Web.Turn 100;
     Web.Turn 304] in
  Web.report 6 a1
  = (Returned
       (Web.mkJSONResponse 200 (Web.ready_body (Web.error_record "boom"))),
     a1)
  /\ (exists a2, Web.run es a1 = Some a2)
  /\ (forall a2, Web.run es a1 = Some a2 ->
        Web.computations a2 = Web.computations a1
        /\ exists rids,
             List.length rids = 3%nat
             /\ Web.responses a2
                = (Web.responses a1
                     ++ map (fun rid =>
                               (rid,
                                Returned
                                  (Web.mkJSONResponse 200
                                     (Web.ready_body
                                        (Web.error_record "boom")))))
                          rids)%list)
  /\ Web.report 305 a1
     = (Returned (Web.mkJSONResponse 202 Web.started_body),
        Web.create_task a1)
  /\ exists a2,
       Web.run [Web.Arrive 7; Web.Turn 305; Web.Turn 305] a1 = Some a2
       /\ Web.computations a2 = S (Web.computations a1).
Proof.
  intros a1 es.
  edestruct (error_record_served_as_ready (Web.initial scenario_cache) 0
               "boom" 5%Q empty_server) as [Hhit [Hrun [Hstarted Hfresh]]].
  - reflexivity.
  - reflexivity.
  - vm_compute. reflexivity.
  - discriminate.
  - vm_compute. reflexivity.
  - split; [apply Hhit; vm_compute; reflexivity|].
    split; [eexists; vm_compute; reflexivity|].
    split.
    + intros a2 Ha2.
      destruct (Hrun es a2) as [Hc [_ [_ Hresp]]].
      * reflexivity.
      * reflexivity.
      * unfold es, turns_before.
        repeat constructor; vm_compute; reflexivity.
      * exact Ha2.
      * split; [exact Hc|exact Hresp].
    + split; [apply Hstarted; vm_compute; discriminate|].
      destruct (Hfresh 305%Q 305%Q 7%nat) as [a2 [Hrun2 [Hcount _]]].
      * vm_compute. discriminate.
      * reflexivity.
      * reflexivity.
      * exists a2. split; [exact Hrun2|exact Hcount].
Defined.

Lemma report_record_ttls_witness :
  exists r_ok r_error ok_bytes error_bytes,
    Cache.redis_client
      (Web.cache_manager
         (Web.task_done 0 (inl scenario_report) 5
            (Web.initial scenario_cache))) = Some r_ok
    /\ Cache.redis_client
         (Web.cache_manager
            (Web.task_done 0 (inr "boom") 5 (Web.initial scenario_cache)))
       = Some r_error
    /\ Cache.db r_ok !! Cache.get_report_cache_key
       = Some (Cache.mkEntry ok_bytes (5 + inject_Z 3600))
    /\ Cache.db r_error !! Cache.get_report_cache_key
       = Some (Cache.mkEntry error_bytes (5 + 300)).
Proof.
  destruct (report_record_ttls (Web.initial scenario_cache) 0 5%Q)
    as [_ [_ Hstore]].
  edestruct (Hstore empty_server scenario_report "boom")
    as [r_ok [r_error [Hok [Herror [Hdb_ok [Hdb_error _]]]]]].
  - reflexivity.
  - reflexivity.
  - vm_compute. reflexivity.
  - vm_compute. reflexivity.
  - vm_compute. reflexivity.
  - exists r_ok, r_error. do 2 eexists.
    split; [exact Hok|]. split; [exact Herror|].
    split; [exact Hdb_ok|exact Hdb_error].
Defined.

(** ** Mutual exclusion of report computations *)

Section ExclusionFacts.

Import Cache Web.

Context `{Externals}.

Lemma count_app p q1 q2 : count p (q1 ++ q2) = (count p q1 + count p q2)%nat.
Proof. unfold count. rewrite List.filter_app, List.length_app. reflexivity. Qed.

Lemma count_one p cb : count p [cb] = if p cb then 1%nat else 0%nat.
Proof. unfold count. simpl. destruct (p cb); reflexivity. Qed.

Lemma report_keeps_lock now a :
  report_lock (snd (report now a)) = report_lock a
  /\ executor (snd (report now a)) = executor a
  /\ (forall p, p (TaskStart (next_task a)) = false ->
        count p (ready (snd (report now a))) = count p (ready a)).
Proof.
  unfold report.
  destruct (Cache.get get_report_cache_key now (cache_manager a)) as [v|e];
    simpl; [|repeat split; reflexivity].
  destruct (truthy v); simpl; [repeat split; reflexivity|].
  destruct (locked (report_lock a)); simpl; [repeat split; reflexivity|].
  split; [reflexivity|]. split; [reflexivity|].
  intros p Hp. rewrite count_app, count_one, Hp. lia.
Qed.

Lemma cache_set_keeps_lock value ttl now a :
  report_lock (snd (cache_set value ttl now a)) = report_lock a
  /\ executor (snd (cache_set value ttl now a)) = executor a
  /\ ready (snd (cache_set value ttl now a)) = ready a.
Proof.
  unfold cache_set. destruct (Cache.set _ _ _ _ _) as [res cm].
  repeat split; reflexivity.
Qed.

Lemma release_exclusive a :
  executor a = [] -> count is_done (ready a) = 0%nat ->
  count is_woken (ready a) = 0%nat ->
  exclusive (release a).
Proof.
  intros Hex Hdone Hwoken. unfold release.
  destruct (waiters (report_lock a)) as [|[tid [|]] rest] eqn:Hw; simpl.
  - unfold exclusive, holders. simpl. rewrite Hex, Hdone, Hwoken. simpl.
    split; [lia|]. split; intros; lia.
  - unfold exclusive, holders. simpl. rewrite Hex, Hdone, Hwoken. simpl.
    split; [lia|]. split; intros; lia.
  - unfold exclusive, holders. simpl.
    rewrite Hex, !count_app, !count_one, Hdone, Hwoken. simpl.
    split; [lia|]. split; [intros; lia|]. intros _. discriminate.
Qed.

Lemma task_done_exclusive tid result now a :
  executor a = [] -> count is_done (ready a) = 0%nat ->
  count is_woken (ready a) = 0%nat ->
  exclusive (task_done tid result now a).
Proof.
  intros Hex Hdone Hwoken. unfold task_done.
  assert (Hkeep : forall value ttl,
            executor (snd (cache_set value ttl now a)) = []
            /\ count is_done (ready (snd (cache_set value ttl now a))) = 0%nat
            /\ count is_woken (ready (snd (cache_set value ttl now a)))
               = 0%nat).
  { intros value ttl.
    destruct (cache_set_keeps_lock value ttl now a) as [_ [He Hr]].
    rewrite He, Hr. auto. }
  destruct result as [report|message].
  - destruct (cache_set_spec (success_record report)
                (Config.cache_ttl (config a)) now a) as [b Hb].
    destruct (Hkeep (success_record report) (Config.cache_ttl (config a)))
      as [He [Hd Hk]].
    rewrite Hb in *. simpl in He, Hd, Hk. apply release_exclusive; assumption.
  - destruct (Hkeep (error_record message) 300) as [He [Hd Hk]].
    apply release_exclusive; assumption.
Qed.

Lemma run_callback_exclusive cb rest now a :
  exclusive a -> ready a = cb :: rest ->
  exclusive (run_callback cb now (set_ready rest a)).
Proof.
  intros [Hone [Hheld Hwait]] Hq. unfold holders in *. rewrite Hq in *.
  change (cb :: rest) with ([cb] ++ rest)%list in Hone, Hheld, Hwait.
  rewrite !count_app, !count_one in *.
  destruct cb as [rid|tid|tid|tid result]; simpl in Hone, Hheld, Hwait.
  - pose proof (report_keeps_lock now (set_ready rest a)) as [Hl [He Hc]].
    cbn [run_callback generate_report_background].
    destruct (report now (set_ready rest a)) as [r a'].
    simpl in Hl, He, Hc.
    unfold exclusive, holders. simpl. rewrite Hl, He, !Hc by reflexivity.
    split; [lia|]. split; [exact Hheld|exact Hwait].
  - cbn [run_callback generate_report_background]. unfold task_start. simpl.
    destruct (locked (report_lock a)) eqn:Hlocked; simpl.
    + unfold exclusive, holders. simpl.
      split; [lia|]. split; [reflexivity|].
      intros _. destruct (waiters (report_lock a)); discriminate.
    + destruct (waiters (report_lock a)) as [|w ws] eqn:Hws; simpl.
      * assert (Hnone : (List.length (executor a) + count is_done rest)%nat
                        = 0%nat).
        { destruct (List.length (executor a) + count is_done rest)%nat;
            [reflexivity|].
          assert (false = true) by (apply Hheld; lia). discriminate. }
        assert (Hnowake : count is_woken rest = 0%nat).
        { destruct (count is_woken rest); [reflexivity|].
          exfalso. apply Hwait; [lia|reflexivity]. }
        unfold exclusive, holders. simpl. rewrite List.length_app. simpl.
        split; [lia|]. split; [reflexivity|]. intros Hw. lia.
      * unfold exclusive, holders. simpl.
        split; [lia|]. split; [exact Hheld|]. intros _. discriminate.
  - cbn [run_callback generate_report_background]. unfold task_locked, exclusive, holders. simpl.
    rewrite List.length_app. simpl.
    split; [lia|]. split; [reflexivity|]. intros Hw. lia.
  - cbn [run_callback generate_report_background]. apply task_done_exclusive; simpl.
    + destruct (executor a); [reflexivity|simpl in Hone; lia].
    + lia.
    + lia.
Qed.

Lemma step_exclusive e a a' :
  exclusive a -> step e a = Some a' -> exclusive a'.
Proof.
  intros Hex Hstep. destruct e as [rid|now|tid result]; simpl in Hstep.
  - injection Hstep as <-. destruct Hex as [Hone [Hheld Hwait]].
    unfold exclusive, holders in *. simpl.
    rewrite !count_app, !count_one. simpl. rewrite !Nat.add_0_r.
    split; [exact Hone|]. split; [exact Hheld|exact Hwait].
  - destruct (ready a) as [|cb rest] eqn:Hq; [discriminate|].
    injection Hstep as <-. apply run_callback_exclusive; assumption.
  - destruct (existsb (Nat.eqb tid) (executor a)) eqn:Hin; [|discriminate].
    injection Hstep as <-. destruct Hex as [Hone [Hheld Hwait]].
    unfold holders in *.
    destruct (executor a) as [|t [|t' ts]] eqn:Hexec; simpl in Hin, Hone.
    + discriminate.
    + rewrite orb_false_r in Hin.
      unfold exclusive, holders. simpl.
      rewrite Nat.eqb_sym, Hin. simpl.
      rewrite !count_app, !count_one. simpl.
      split; [lia|]. split; [|rewrite Nat.add_0_r; exact Hwait].
      intros _. apply Hheld. simpl. lia.
    + lia.
Qed.

(** X12. The cooperative lock does its part: along every run from a fresh
    process at most one computation is in the pool, and the lock is held
    while it is. *)
Lemma computations_never_overlap es cm a :
  run es (initial cm) = Some a ->
  (List.length (executor a) <= 1)%nat
  /\ (executor a <> [] -> locked (report_lock a) = true).
Proof.
  assert (Hgen : forall es a0 a1,
            exclusive a0 -> run es a0 = Some a1 -> exclusive a1).
  { clear. intros es. induction es as [|e es IH]; intros a0 a1 Hex Hrun.
    - injection Hrun as <-. exact Hex.
    - simpl in Hrun. destruct (step e a0) as [a'|] eqn:Hstep; [|discriminate].
      apply (IH a' a1); [|exact Hrun].
      apply (step_exclusive e a0 a'); assumption. }
  intros Hrun.
  assert (Hinit : exclusive (initial cm)).
  { unfold exclusive, holders. simpl. unfold count. simpl.
    split; [lia|]. split; intros; lia. }
  destruct (Hgen es _ _ Hinit Hrun) as [Hone [Hheld _]].
  unfold holders in *. split; [lia|].
  intros Hne. apply Hheld. destruct (executor a); [contradiction|simpl; lia].
Qed.

(** The gap between the handler's test and the task's [acquire]: two
    handlers that run one after the other, lock free and cache cold, are
    both answered [started] and leave two tasks queued. *)
Lemma two_handlers_both_started now a rid1 rid2 :
  ready a = [] ->
  locked (report_lock a) = false ->
  Cache.get get_report_cache_key now (cache_manager a) = Returned PNone ->
  exists a',
    run [Arrive rid1; Arrive rid2; Turn now; Turn now] a = Some a'
    /\ responses a'
       = (responses a
            ++ [(rid1, Returned (mkJSONResponse 202 started_body));
                (rid2, Returned (mkJSONResponse 202 started_body))])%list
    /\ ready a' = [TaskStart (next_task a); TaskStart (S (next_task a))].
Proof.
  intros Hq Hfree Hmiss.
  cbn -[report]. rewrite Hq. cbn -[report].
  erewrite report_while_unlocked; [|exact Hfree|exact Hmiss].
  cbn -[report].
  erewrite report_while_unlocked; [|exact Hfree|exact Hmiss].
  eexists. split; [reflexivity|]. simpl.
  rewrite <- app_assoc. split; reflexivity.
Qed.

End ExclusionFacts.

(** * Further properties of the code *)

(** ** Session registry: ending sessions, and sessions left alone *)

Section SessionExtras.

Import Security.

(** X1. [end_session] removes the named session and nothing else, is a
    no-op on an unknown id, is idempotent, and leaves a registry in which
    the id no longer validates. *)
Theorem end_session_removes (sm : SessionManager) (sid : string) :
  sessions (end_session sid sm) !! sid = None
  /\ (forall other, other <> sid ->
        sessions (end_session sid sm) !! other = sessions sm !! other)
  /\ lifetime (end_session sid sm) = lifetime sm
  /\ (sessions sm !! sid = None -> end_session sid sm = sm)
  /\ end_session sid (end_session sid sm) = end_session sid sm
  /\ (forall now,
        validate_session sid now (end_session sid sm)
        = (false, end_session sid sm)).
Proof.
  assert (Hgone : sessions (end_session sid sm) !! sid = None).
  { unfold end_session. destruct (sessions sm !! sid) eqn:E; simpl.
    - apply lookup_delete_eq.
    - exact E. }
  split; [exact Hgone|]. split; [|split; [|split; [|split]]].
  - intros other Hne. unfold end_session.
    destruct (sessions sm !! sid); simpl; [|reflexivity].
    apply lookup_delete_ne. congruence.
  - unfold end_session. destruct (sessions sm !! sid); reflexivity.
  - intros Hnone. unfold end_session. rewrite Hnone. reflexivity.
  - unfold end_session at 1. rewrite Hgone. reflexivity.
  - intros now. apply validate_unknown. exact Hgone.
Qed.

Lemma end_session_removes_witness :
  let sm := snd (create_session "b" 5 5 "10.0.0.8"
                   (snd (create_session "a" 0 0 "10.0.0.7" (init "k" 3600)))) in
  sessions (end_session "a" sm) !! "b" = Some (mkSession "10.0.0.8" 5 5)
  /\ end_session "zzz" sm = sm.
Proof.
  intros sm.
  destruct (end_session_removes sm "a") as [_ [Hframe _]].
  destruct (end_session_removes sm "zzz") as [_ [_ [_ [Hnoop _]]]].
  split.
  - rewrite Hframe by discriminate. reflexivity.
  - apply Hnoop. reflexivity.
Defined.

(** X2. A session is touched only by the calls that name it: whatever is
    created, validated or ended under other ids, and however long ago the
    session expired, its entry stays in the registry exactly as it was
    (nothing sweeps expired sessions). *)
Theorem unnamed_session_untouched (sm : SessionManager) (sid : string)
    (calls : list call) :
  Forall (fun c => ~ names_session sid c) calls ->
  sessions (run_calls calls sm) !! sid = sessions sm !! sid
  /\ lifetime (run_calls calls sm) = lifetime sm.
Proof.
  revert sm. induction calls as [|c calls IH]; intros sm Hall.
  - split; reflexivity.
  - inversion Hall as [|? ? Hc Hrest]; subst. simpl.
    destruct (IH (run_call c sm) Hrest) as [Hs Hl].
    rewrite Hs, Hl. clear IH Hs Hl Hall Hrest.
    destruct c as [token t1 t2 client|sid' now|sid']; simpl in *.
    + split; [|reflexivity]. apply lookup_insert_ne. exact Hc.
    + unfold validate_session.
      destruct (sessions sm !! sid') as [s'|]; [|split; reflexivity].
      destruct (Qgtb _ _); simpl; (split; [|reflexivity]).
      * apply lookup_delete_ne. exact Hc.
      * apply lookup_insert_ne. exact Hc.
    + unfold end_session.
      destruct (sessions sm !! sid') as [s'|]; simpl; [|split; reflexivity].
      split; [|reflexivity]. apply lookup_delete_ne. exact Hc.
Qed.

Lemma unnamed_session_untouched_witness :
  let sm := snd (create_session "old" 0 0 "10.0.0.7" (init "k" 3600)) in
  sessions
    (run_calls [Create "new" 9000 9000 "10.0.0.8"; Validate "new" 9001;
                Validate "gone" 9002; End "new"] sm) !! "old"
  = Some (mkSession "10.0.0.7" 0 0).
Proof.
  intros sm.
  refine (eq_trans (proj1 (unnamed_session_untouched sm "old" _ _)) _).
  - repeat constructor; simpl; discriminate.
  - reflexivity.
Defined.

End SessionExtras.

(** ** Cache store: failures, deletion and pattern clearing *)

Section CacheExtras.

Import Cache.

Context `{Externals}.

Lemma with_client_same cm r :
  redis_client cm = Some r -> with_client cm r = cm.
Proof. destruct cm as [cfg c]. simpl. intros ->. reflexivity. Qed.

(** X3. A server that stops answering after start-up degrades every
    operation the same way as a missing client: [get] misses, [set],
    [delete] and [exists] answer [False], [clear_pattern] answers 0, and
    the entries are left as they were. *)
Theorem cache_unreachable_degrades (cm : CacheManager) (r : Redis)
    (key pattern : string) (value : pyval) (ttl : option Z) (now : Q) :
  redis_client cm = Some r -> reachable r = false ->
  get key now cm = Returned PNone
  /\ set key value ttl now cm = (Returned false, cm)
  /\ delete key now cm = (Returned false, cm)
  /\ exists_ key now cm = Returned false
  /\ clear_pattern pattern now cm = (Returned 0, cm).
Proof.
  intros Hr Hdown.
  pose proof (with_client_same cm r Hr) as Hsame.
  unfold get, set, delete, exists_, clear_pattern.
  rewrite Hr. unfold redis_get, redis_setex, redis_delete, redis_exists,
    redis_keys. rewrite Hdown. simpl. rewrite Hsame.
  split; [reflexivity|].
  split; [destruct (json_dumps value); simpl; rewrite Hsame; reflexivity|].
  split; [reflexivity|]. split; reflexivity.
Qed.

(** X4. No operation of the cache manager lets an exception reach its
    caller, whatever the state of the server, the stored bytes, the value
    or the ttl. *)
Theorem cache_never_raises (cm : CacheManager) (key pattern : string)
    (value : pyval) (ttl : option Z) (now : Q) :
  (exists v, get key now cm = Returned v)
  /\ (exists b, fst (set key value ttl now cm) = Returned b)
  /\ (exists b, fst (delete key now cm) = Returned b)
  /\ (exists b, exists_ key now cm = Returned b)
  /\ (exists n, fst (clear_pattern pattern now cm) = Returned n).
Proof.
  split; [apply get_returns|]. split; [apply set_returns|].
  unfold delete, exists_, clear_pattern.
  destruct (redis_client cm) as [r|];
    [|split; [|split]; simpl; eexists; reflexivity].
  split; [|split].
  - destruct (redis_delete [key] now r) as [[n|e] r']; simpl; eauto.
  - destruct (redis_exists key now r) as [n|e]; simpl; eauto.
  - destruct (redis_keys pattern now r) as [[|k ks]|e]; simpl; eauto.
    destruct (redis_delete (k :: ks) now r) as [[n|e] r']; simpl; eauto.
Qed.

(** X5. A write that cannot go through is reported as [False] and changes
    no entry: this is so when the value is not JSON serializable, and when
    the ttl in force ([ttl], or the default when [ttl] is falsy) is not
    positive. *)
Theorem cache_failed_write_keeps_entries (cm : CacheManager) (r : Redis)
    (key : string) (value : pyval) (ttl : option Z) (now : Q) :
  redis_client cm = Some r ->
  json_dumps value = None \/ ttl_or_default ttl (config cm) <= 0 ->
  set key value ttl now cm = (Returned false, cm).
Proof.
  intros Hr Hbad. pose proof (with_client_same cm r Hr) as Hsame.
  unfold set. rewrite Hr.
  destruct (json_dumps value) as [s|] eqn:Hs; simpl.
  - destruct Hbad as [Hbad|Hbad]; [discriminate|].
    unfold redis_setex. destruct (reachable r); simpl.
    + apply Z.leb_le in Hbad. rewrite Hbad. simpl. rewrite Hsame.
      reflexivity.
    + rewrite Hsame. reflexivity.
  - rewrite Hsame. reflexivity.
Qed.

(** X6. [get] treats an entry it cannot decode as a miss: stored bytes
    that are empty or that [json.loads] rejects give [None], not an
    error. *)
Theorem cache_get_undecodable_is_miss (cm : CacheManager) (r : Redis)
    (key : string) (e : entry) (now : Q) :
  redis_client cm = Some r ->
  db r !! key = Some e ->
  payload e = EmptyString \/ json_loads (payload e) = None ->
  get key now cm = Returned PNone.
Proof.
  intros Hr He Hbad. unfold get, redis_get, lookup_live. rewrite Hr, He.
  destruct (reachable r); [|reflexivity].
  destruct (live now e); [|reflexivity]. simpl.
  destruct Hbad as [Hempty|Hload].
  - rewrite Hempty. reflexivity.
  - destruct (truthy_bytes (payload e)); [|reflexivity].
    rewrite Hload. reflexivity.
Qed.

(** X7. Deleting what was stored: after a successful [set], [exists]
    answers [True] and [delete] answers [True]; after the deletion
    [exists] answers [False], [get] misses and a second [delete] answers
    [False]. *)
Theorem cache_delete_after_set (cm : CacheManager) (r : Redis) (key : string)
    (value : pyval) (ttl : Z) (now : Q) (serialized : string) :
  redis_client cm = Some r -> reachable r = true ->
  0 < ttl ->
  json_dumps value = Some serialized ->
  let cm1 := snd (set key value (Some ttl) now cm) in
  let cm2 := snd (delete key now cm1) in
  exists_ key now cm1 = Returned true
  /\ fst (delete key now cm1) = Returned true
  /\ exists_ key now cm2 = Returned false
  /\ get key now cm2 = Returned PNone
  /\ fst (delete key now cm2) = Returned false.
Proof.
  intros Hr Hup Hpos Hser.
  rewrite (set_stores key value (Some ttl) now cm r serialized Hr Hup Hser)
    by (rewrite ttl_or_default_positive; lia).
  rewrite ttl_or_default_positive by exact Hpos. simpl.
  assert (Hlive : live now (mkEntry serialized (now + inject_Z ttl)) = true).
  { unfold live. simpl. apply Qgtb_true.
    rewrite <- (Qplus_0_r now) at 1. apply Qplus_lt_r.
    unfold Qlt. simpl. lia. }
  unfold exists_, delete, get, redis_exists, redis_delete, redis_get,
    lookup_live, delete_one. simpl.
  rewrite lookup_insert_eq, Hlive. simpl.
  rewrite !lookup_delete_eq. simpl.
  repeat split; reflexivity.
Qed.

End CacheExtras.

Lemma cache_unreachable_degrades_witness :
  let cm := Cache.mkCacheManager scenario_config (Some dead_server) in
  Cache.get "security_report" 0 cm = Returned PNone
  /\ Cache.set "security_report" scenario_report None 0 cm
     = (Returned false, cm).
Proof.
  intros cm.
  destruct (cache_unreachable_degrades cm dead_server "security_report"
              "sec*" scenario_report None 0%Q eq_refl eq_refl)
    as [Hget [Hset _]].
  split; [exact Hget|exact Hset].
Defined.

Lemma cache_failed_write_keeps_entries_witness :
  Cache.set "security_report" scenario_report (Some (-5)) 0 scenario_cache
  = (Returned false, scenario_cache).
Proof.
  apply (cache_failed_write_keeps_entries scenario_cache empty_server).
  - reflexivity.
  - right. vm_compute. discriminate.
Defined.

Lemma cache_get_undecodable_is_miss_witness :
  Cache.get "security_report" 0
    (Cache.mkCacheManager scenario_config
       (Some (Cache.mkRedis
                {["security_report" := Cache.mkEntry "{not json" 60]} true)))
  = Returned PNone.
Proof.
  eapply cache_get_undecodable_is_miss.
  - reflexivity.
  - apply lookup_singleton_eq.
  - right. vm_compute. reflexivity.
Defined.

Lemma cache_delete_after_set_witness :
  let cm1 :=
    snd (Cache.set "security_report" scenario_report (Some 60) 100
           scenario_cache) in
  Cache.exists_ "security_report" 100 cm1 = Returned true
  /\ Cache.get "security_report" 100
       (snd (Cache.delete "security_report" 100 cm1)) = Returned PNone.
Proof.
  intros cm1.
  edestruct (cache_delete_after_set scenario_cache empty_server
               "security_report" scenario_report 60 100%Q)
    as [Hex [_ [_ [Hget _]]]].
  - reflexivity.
  - reflexivity.
  - lia.
  - vm_compute. reflexivity.
  - split; [exact Hex|exact Hget].
Defined.

Section ClearPattern.

Import Cache.

Context `{Externals}.

Lemma NoDup_keys_filter (f : string * entry -> bool)
    (l : list (string * entry)) :
  List.NoDup (map fst l) -> List.NoDup (map fst (List.filter f l)).
Proof.
  induction l as [|kv l IH]; simpl; intros Hnd; [constructor|].
  inversion Hnd as [|? ? Hnin Hrest]; subst.
  destruct (f kv); simpl; [|apply IH; exact Hrest].
  constructor; [|apply IH; exact Hrest].
  intros Hin. apply Hnin. apply in_map_iff in Hin.
  destruct Hin as [kv' [Heq Hin']]. apply filter_In in Hin'.
  apply in_map_iff. exists kv'. tauto.
Qed.

(** [DEL] over distinct live keys removes each of them, counts each of
    them, and touches nothing else. *)
Lemma delete_live_keys now (ks : list string) :
  List.NoDup ks ->
  forall n (m : gmap string entry),
    (forall k, In k ks -> exists e, m !! k = Some e /\ live now e = true) ->
    exists m',
      fold_left (delete_one now) ks (n, m)
      = (n + Z.of_nat (List.length ks), m')
      /\ (forall k, In k ks -> m' !! k = None)
      /\ (forall k, ~ In k ks -> m' !! k = m !! k).
Proof.
  induction ks as [|k ks IH]; intros Hnd n m Hlive.
  - exists m. simpl. split; [f_equal; lia|]. split; [contradiction|reflexivity].
  - inversion Hnd as [|? ? Hnin Hrest]; subst.
    destruct (Hlive k (or_introl eq_refl)) as [e [He Hle]].
    simpl. rewrite He, Hle.
    destruct (IH Hrest (n + 1) (base.delete k m)) as [m' [Hfold [Hgone Hkeep]]].
    { intros k' Hin'. destruct (Hlive k' (or_intror Hin')) as [e' [He' Hle']].
      exists e'. split; [|exact Hle'].
      rewrite lookup_delete_ne; [exact He'|]. intros ->. contradiction. }
    exists m'. split; [rewrite Hfold; f_equal; lia|]. split.
    + intros k' [<-|Hin']; [|apply Hgone; exact Hin'].
      rewrite Hkeep by exact Hnin. apply lookup_delete_eq.
    + intros k' Hnot. rewrite Hkeep by tauto.
      apply lookup_delete_ne. intros ->. apply Hnot. left. reflexivity.
Qed.

(** X8. On a reachable server [clear_pattern] answers the number of live
    keys that match the pattern; afterwards no matching key is visible and
    every key that does not match is exactly as it was. *)
Theorem clear_pattern_removes_matches (cm : CacheManager) (r : Redis)
    (pattern : string) (now : Q) :
  redis_client cm = Some r -> reachable r = true ->
  exists r',
    clear_pattern pattern now cm
    = (Returned
         (Z.of_nat
            (List.length
               (List.filter
                  (fun kv => live now (snd kv) && glob_match pattern (fst kv))
                  (map_to_list (db r))))),
       with_client cm r')
    /\ reachable r' = true
    /\ (forall k, glob_match pattern k = true -> lookup_live k now r' = None)
    /\ (forall k, glob_match pattern k = false -> db r' !! k = db r !! k).
Proof.
  intros Hr Hup.
  set (hits := List.filter
                 (fun kv => live now (snd kv) && glob_match pattern (fst kv))
                 (map_to_list (db r))).
  assert (Hhit : forall k, In k (map fst hits) <->
            exists e, db r !! k = Some e /\ live now e = true
                      /\ glob_match pattern k = true).
  { intros k. rewrite in_map_iff. split.
    - intros [[k' e] [Hk Hin]]. simpl in Hk. subst k'.
      apply filter_In in Hin. destruct Hin as [Hin Hf].
      apply andb_true_iff in Hf. simpl in Hf.
      apply list_elem_of_In, elem_of_map_to_list in Hin.
      exists e. tauto.
    - intros [e [He [Hl Hg]]]. exists (k, e). split; [reflexivity|].
      apply filter_In. split.
      + apply list_elem_of_In, elem_of_map_to_list. exact He.
      + simpl. rewrite Hl, Hg. reflexivity. }
  assert (Hmiss : forall k, glob_match pattern k = true ->
            ~ In k (map fst hits) -> lookup_live k now r = None).
  { intros k Hg Hnot. unfold lookup_live.
    destruct (db r !! k) as [e|] eqn:He; [|reflexivity].
    destruct (live now e) eqn:Hl; [|reflexivity].
    exfalso. apply Hnot. apply Hhit. exists e. tauto. }
  assert (Hkeys : redis_keys pattern now r = Returned (map fst hits)).
  { unfold redis_keys. rewrite Hup. reflexivity. }
  rewrite <- (length_map fst hits).
  destruct (map fst hits) as [|k0 ks] eqn:Hks.
  - exists r. unfold clear_pattern. rewrite Hr, Hkeys. simpl.
    split; [reflexivity|]. split; [exact Hup|]. split; [|reflexivity].
    intros k Hg. apply Hmiss; [exact Hg|]. intros [].
  - destruct (delete_live_keys now (k0 :: ks)) with (n := 0) (m := db r)
      as [m' [Hfold [Hgone Hkeep]]].
    { rewrite <- Hks. apply NoDup_keys_filter.
      apply NoDup_ListNoDup. apply NoDup_fst_map_to_list. }
    { intros k Hin. apply Hhit in Hin. destruct Hin as [e [He [Hl _]]].
      exists e. tauto. }
    exists (mkRedis m' (reachable r)).
    unfold clear_pattern. rewrite Hr, Hkeys. unfold redis_delete.
    rewrite Hup, Hfold. simpl.
    split; [reflexivity|]. split; [reflexivity|]. split.
    + intros k Hg. unfold lookup_live. simpl.
      destruct (in_dec string_dec k (k0 :: ks)) as [Hin|Hnot].
      * rewrite Hgone by exact Hin. reflexivity.
      * rewrite Hkeep by exact Hnot. apply (Hmiss k Hg Hnot).
    + intros k Hg. apply Hkeep. intros Hin. apply Hhit in Hin.
      destruct Hin as [e [_ [_ Hg']]]. congruence.
Qed.

End ClearPattern.

Lemma clear_pattern_removes_matches_witness :
  let server :=
    Cache.mkRedis
      {[ "session:a" := Cache.mkEntry "1" 60;
         "session:b" := Cache.mkEntry "2" 60;
         "security_report" := Cache.mkEntry "3" 60 ]} true in
  let cm := Cache.mkCacheManager scenario_config (Some server) in
  fst (Cache.clear_pattern "session:*" 0 cm) = Returned 2
  /\ Cache.exists_ "security_report" 0
       (snd (Cache.clear_pattern "session:*" 0 cm)) = Returned true.
Proof.
  intros server cm.
  destruct (clear_pattern_removes_matches cm server "session:*" 0%Q
              eq_refl eq_refl) as [r' [Hclear [Hup [_ Hkeep]]]].
  rewrite Hclear. simpl. split; [vm_compute; reflexivity|].
  unfold Cache.exists_, Cache.redis_exists, Cache.lookup_live. simpl.
  rewrite Hup, (Hkeep "security_report") by (vm_compute; reflexivity).
  vm_compute. reflexivity.
Defined.

(** ** Admission filter: the way through, and the errors *)

Section DictFacts.

Context {V : Type}.

Lemma dict_get_set_eq (k : string) (v : V) (d : Py.dict V) :
  Py.dict_get k (Py.dict_set k v d) = Some v.
Proof.
  induction d as [|[k' v'] d IH]; simpl.
  - rewrite String.eqb_refl. reflexivity.
  - destruct (String.eqb k' k) eqn:E; simpl.
    + rewrite String.eqb_refl. reflexivity.
    + rewrite E. exact IH.
Qed.

Lemma dict_get_set_ne (k k0 : string) (v : V) (d : Py.dict V) :
  k0 <> k -> Py.dict_get k0 (Py.dict_set k v d) = Py.dict_get k0 d.
Proof.
  intros Hne. induction d as [|[k' v'] d IH]; simpl.
  - destruct (String.eqb k k0) eqn:E; [|reflexivity].
    apply String.eqb_eq in E. congruence.
  - destruct (String.eqb k' k) eqn:E; simpl.
    + apply String.eqb_eq in E. subst k'.
      destruct (String.eqb k k0) eqn:E0; [|reflexivity].
      apply String.eqb_eq in E0. congruence.
    + destruct (String.eqb k' k0); [reflexivity|exact IH].
Qed.

End DictFacts.

Section AdmissionExtras.

Import Admission.

Context {App : Type}.

Lemma update_headers_other d r name :
  ~ In name (lower_names d) ->
  Py.dict_get name (response_headers (update_headers d r))
  = Py.dict_get name (response_headers r).
Proof.
  unfold update_headers. simpl. generalize (response_headers r) as hs.
  induction d as [|[k v] d IH]; intros hs Hnot; simpl; [reflexivity|].
  simpl in Hnot. rewrite IH by tauto.
  apply dict_get_set_ne. intros ->. apply Hnot. left. reflexivity.
Qed.

Lemma update_headers_sets d r k v :
  List.NoDup (lower_names d) -> In (k, v) d ->
  Py.dict_get (Py.lower k) (response_headers (update_headers d r)) = Some v.
Proof.
  unfold update_headers. simpl. generalize (response_headers r) as hs.
  induction d as [|[k' v'] d IH]; intros hs Hnd Hin; [contradiction|].
  simpl in Hnd. inversion Hnd as [|? ? Hfresh Hrest]; subst.
  simpl. destruct Hin as [Heq|Hin].
  - injection Heq as -> ->.
    pose proof (update_headers_other d
                  (mkResponse 0 (Py.dict_set (Py.lower k) v hs) PNone)
                  (Py.lower k) Hfresh) as Hkeep.
    unfold update_headers in Hkeep. simpl in Hkeep. rewrite Hkeep.
    apply dict_get_set_eq.
  - apply IH; assumption.
Qed.

Lemma security_header_names_distinct debug config :
  List.NoDup (lower_names (Config.get_security_headers debug config)).
Proof.
  unfold lower_names, Config.get_security_headers. simpl.
  repeat (constructor; [simpl; intuition discriminate|]). constructor.
Qed.

(** X9. A request that passes both checks is handed to the application
    once, and its response leaves with the same status and body, with
    every configured security header set to its configured value,
    replacing whatever the application had put under that name, and with
    all its other headers as they were. *)
Theorem dispatch_adds_security_headers (config : Config.t) (debug : bool)
    (request : Request) (call_next : @handler App) (app app' : App)
    (n : Z) (response : Response) :
  In (checked_host request) (Config.ALLOWED_HOSTS (Config.security config)) ->
  declared_length request = Returned n ->
  n <= Config.max_request_size config ->
  call_next request app = (Returned response, app') ->
  exists response',
    dispatch config debug request call_next app = (Returned response', app')
    /\ status_code response' = status_code response
    /\ content response' = content response
    /\ (forall name value,
          In (name, value) (Config.get_security_headers debug config) ->
          Py.dict_get (Py.lower name) (response_headers response')
          = Some value)
    /\ (forall name,
          ~ In name
              (lower_names (Config.get_security_headers debug config)) ->
          Py.dict_get name (response_headers response')
          = Py.dict_get name (response_headers response)).
Proof.
  intros Hhost Hlen Hsmall Hnext.
  exists (update_headers (Config.get_security_headers debug config) response).
  split; [|split; [reflexivity|split; [reflexivity|split]]].
  - unfold dispatch, dispatch_body. fold (checked_host request).
    apply is_allowed_host_In in Hhost. rewrite Hhost, Hlen. simpl.
    assert ((n >? Config.max_request_size config) = false) as ->
      by (rewrite Z.gtb_ltb; apply Z.ltb_ge; exact Hsmall).
    rewrite Hnext. reflexivity.
  - intros name value Hin. apply update_headers_sets; [|exact Hin].
    apply security_header_names_distinct.
  - intros name Hnot. apply update_headers_other. exact Hnot.
Qed.

(** X10. A content-length that [int] cannot read is answered with
    [HTTPException(500)], not 400 or 413, and the application is not
    run. *)
Theorem dispatch_unreadable_length (config : Config.t) (debug : bool)
    (request : Request) (call_next : @handler App) (app : App) (e : exn) :
  In (checked_host request) (Config.ALLOWED_HOSTS (Config.security config)) ->
  declared_length request = Raised e ->
  dispatch config debug request call_next app
  = (Raised (HTTPException 500 "Internal server error"), app).
Proof.
  intros Hhost Hlen. unfold dispatch, dispatch_body.
  fold (checked_host request).
  apply is_allowed_host_In in Hhost. rewrite Hhost, Hlen. simpl.
  assert (is_HTTPException e = false) as ->; [|reflexivity].
  unfold declared_length in Hlen.
  destruct (header "content-length" request) as [s|]; [|discriminate].
  unfold Py.int_of_str in Hlen.
  destruct (match Py.strip (list_ascii_of_string s) with
            | [] => None
            | c :: rest => _
            end); [discriminate|].
  injection Hlen as <-. reflexivity.
Qed.

(** X11. Whatever the request and the application do, the only exception
    that leaves [dispatch] is an [HTTPException]: one raised by the
    application passes unchanged, any other exception of the application
    becomes [HTTPException(500)], and in both cases the state the
    application left is kept. *)
Theorem dispatch_raises_only_http (config : Config.t) (debug : bool)
    (request : Request) (call_next : @handler App) (app : App) :
  (forall e, fst (dispatch config debug request call_next app) = Raised e ->
     is_HTTPException e = true)
  /\ (forall n e app',
        In (checked_host request)
          (Config.ALLOWED_HOSTS (Config.security config)) ->
        declared_length request = Returned n ->
        n <= Config.max_request_size config ->
        call_next request app = (Raised e, app') ->
        dispatch config debug request call_next app
        = (Raised (if is_HTTPException e then e
                   else HTTPException 500 "Internal server error"),
           app')).
Proof.
  split.
  - intros e. unfold dispatch, try_except_st.
    destruct (dispatch_body config debug request call_next app)
      as [[response|e0] a0]; simpl; [discriminate|].
    destruct (is_HTTPException e0) eqn:E; simpl; intros [= <-];
      [exact E|reflexivity].
  - intros n e app' Hhost Hlen Hsmall Hnext.
    unfold dispatch, dispatch_body. fold (checked_host request).
    apply is_allowed_host_In in Hhost. rewrite Hhost, Hlen. simpl.
    assert ((n >? Config.max_request_size config) = false) as ->
      by (rewrite Z.gtb_ltb; apply Z.ltb_ge; exact Hsmall).
    rewrite Hnext. simpl. destruct (is_HTTPException e); reflexivity.
Qed.

End AdmissionExtras.

Lemma dispatch_adds_security_headers_witness :
  exists response',
    Admission.dispatch scenario_config false (local_request "10")
      framing_app 0%nat = (Returned response', 1%nat)
    /\ Py.dict_get "x-frame-options" (Admission.response_headers response')
       = Some "DENY"
    /\ Py.dict_get "content-type" (Admission.response_headers response')
       = Some "text/html".
Proof.
  destruct (dispatch_adds_security_headers scenario_config false
              (local_request "10") framing_app 0%nat 1%nat 10
              (Admission.mkResponse 200
                 [("content-type", "text/html");
                  ("x-frame-options", "SAMEORIGIN")] (PStr "index")))
    as [response' [Hrun [_ [_ [Hset Hkeep]]]]].
  - simpl. left. reflexivity.
  - reflexivity.
  - vm_compute. discriminate.
  - reflexivity.
  - exists response'. split; [exact Hrun|]. split.
    + apply (Hset "X-Frame-Options" "DENY"). simpl. tauto.
    + rewrite Hkeep; [reflexivity|]. simpl. intuition discriminate.
Defined.

Lemma dispatch_unreadable_length_witness :
  Admission.dispatch scenario_config false (local_request "12 bytes")
    counting_app 0%nat
  = (Raised (HTTPException 500 "Internal server error"), 0%nat).
Proof.
  eapply dispatch_unreadable_length.
  - simpl. left. reflexivity.
  - reflexivity.
Defined.

Lemma dispatch_raises_only_http_witness :
  Admission.dispatch scenario_config false (local_request "10")
    failing_app 0%nat
  = (Raised (HTTPException 500 "Internal server error"), 1%nat).
Proof.
  apply (proj2 (dispatch_raises_only_http scenario_config false
                  (local_request "10") failing_app 0%nat)
           10 (ValueError "boom") 1%nat).
  - simpl. left. reflexivity.
  - reflexivity.
  - vm_compute. discriminate.
  - reflexivity.
Defined.

(** ** Report coordinator: polling *)

Section PollingFacts.

Import Cache Web.

Context `{Externals}.

(** The handler reads the cache manager and the lock, nothing else. *)
Lemma report_cases now a :
  (exists v, Cache.get get_report_cache_key now (cache_manager a) = Returned v
             /\ truthy v = true
             /\ report now a
                = (Returned (mkJSONResponse 200 (ready_body v)), a))
  \/ (locked (report_lock a) = true
      /\ report now a = (Returned (mkJSONResponse 202 generating_body), a))
  \/ (locked (report_lock a) = false
      /\ report now a
         = (Returned (mkJSONResponse 202 started_body), create_task a)).
Proof.
  unfold report.
  destruct (get_returns get_report_cache_key now (cache_manager a))
    as [v Hv].
  rewrite Hv. simpl. destruct (truthy v) eqn:Ht.
  - left. exists v. auto.
  - right. destruct (locked (report_lock a)); [left|right]; auto.
Qed.

(** Polls that start nothing only add their responses to the log. *)
Lemma polls_quiet (resp : nat * Q -> JSONResponse) (ps : list (nat * Q)) :
  forall a,
    ready a = [] ->
    (forall p a0, In p ps ->
       cache_manager a0 = cache_manager a ->
       report_lock a0 = report_lock a ->
       report (snd p) a0 = (Returned (resp p), a0)) ->
    exists a',
      run (polls ps) a = Some a'
      /\ responses a'
         = (responses a ++ map (fun p => (fst p, Returned (resp p))) ps)%list
      /\ ready a' = []
      /\ cache_manager a' = cache_manager a
      /\ report_lock a' = report_lock a
      /\ executor a' = executor a
      /\ computations a' = computations a
      /\ next_task a' = next_task a
      /\ writes a' = writes a.
Proof.
  induction ps as [|[rid t] ps IH]; intros a Hq Hrep.
  - exists a. simpl. rewrite app_nil_r.
    repeat split; try reflexivity. exact Hq.
  - cbn -[report]. rewrite Hq. cbn -[report].
    rewrite (Hrep (rid, t)); [|left; reflexivity|reflexivity|reflexivity].
    destruct (IH (respond rid (Returned (resp (rid, t)))
                    (set_ready [] (call_soon (HandleReport rid) a))))
      as [a' [Hrun [Hresp Hrest]]].
    + reflexivity.
    + intros p a0 Hin Hc Hl. apply Hrep; [right; exact Hin|exact Hc|exact Hl].
    + exists a'. split; [exact Hrun|]. split; [|exact Hrest].
      rewrite Hresp. simpl. rewrite <- app_assoc. reflexivity.
Qed.

(** X13. While a computation holds the lock and the cache has nothing to
    serve, any number of polls are each answered [generating]; none of
    them creates a task or starts a computation. *)
Theorem polls_while_running (a : App) (ps : list (nat * Q)) :
  ready a = [] ->
  locked (report_lock a) = true ->
  (forall p, In p ps ->
     Cache.get get_report_cache_key (snd p) (cache_manager a)
     = Returned PNone) ->
  exists a',
    run (polls ps) a = Some a'
    /\ responses a'
       = (responses a
            ++ map (fun p =>
                      (fst p, Returned (mkJSONResponse 202 generating_body)))
                 ps)%list
    /\ next_task a' = next_task a
    /\ computations a' = computations a
    /\ ready a' = [].
Proof.
  intros Hq Hlocked Hmiss.
  destruct (polls_quiet (fun _ => mkJSONResponse 202 generating_body) ps a Hq)
    as [a' [Hrun [Hresp [Hq' [_ [_ [_ [Hc [Hn _]]]]]]]]].
  - intros p a0 Hin Hcm Hl. apply report_while_locked.
    + rewrite Hl. exact Hlocked.
    + rewrite Hcm. apply Hmiss. exact Hin.
  - exists a'. auto.
Qed.

(** X14. After a successful computation has stored its record on a
    reachable store, and with nothing else queued on the loop, polls
    handled one at a time before the standard ttl is over are each answered
    [ready] with that same record, and none of them creates a task or
    starts a computation.  When no computation is left in the pool either,
    the same holds along every run: in whatever order requests arrive and
    are handled before the ttl is over, each is answered in this way. *)
Theorem polls_after_success (a : App) (tid : nat) (payload : pyval)
    (done_at : Q) (r : Redis) (serialized : string) :
  redis_client (cache_manager a) = Some r -> reachable r = true ->
  0 < Config.cache_ttl (config a) ->
  json_dumps (success_record payload) = Some serialized ->
  serialized <> EmptyString ->
  json_loads serialized = Some (success_record payload) ->
  let a1 := task_done tid (inl payload) done_at a in
  let answer :=
    Returned (mkJSONResponse 200 (ready_body (success_record payload))) in
  ready a1 = [] ->
  (forall ps,
     (forall p, In p ps ->
        (snd p < done_at + inject_Z (Config.cache_ttl (config a)))%Q) ->
     exists a2,
       run (polls ps) a1 = Some a2
       /\ responses a2
          = (responses a1 ++ map (fun p => (fst p, answer)) ps)%list
       /\ next_task a2 = next_task a1
       /\ computations a2 = computations a1
       /\ ready a2 = [])
  /\ (forall es a2,
        executor a1 = [] ->
        turns_before (done_at + inject_Z (Config.cache_ttl (config a))) es ->
        run es a1 = Some a2 ->
        next_task a2 = next_task a1
        /\ computations a2 = computations a1
        /\ writes a2 = writes a1
        /\ exists rids,
             List.length rids = turns es
             /\ responses a2
                = (responses a1 ++ map (fun rid => (rid, answer)) rids)%list).
Proof.
  intros Hr Hup Hpos Hser Hne Hload a1 answer Hq.
  destruct (task_done_success tid payload done_at a) as [b [Hcm _]].
  fold a1 in Hcm. simpl in Hcm.
  destruct (stored_entry_visibility (cache_manager a) r get_report_cache_key
              (success_record payload) (Config.cache_ttl (config a)) done_at
              serialized Hr Hup Hpos Hser Hne Hload) as [_ [Hhit _]].
  rewrite <- Hcm in Hhit. clearbody a1. split.
  - intros ps Hearly.
    destruct (polls_quiet
                (fun _ =>
                   mkJSONResponse 200 (ready_body (success_record payload)))
                ps a1 Hq)
      as [a2 [Hrun [Hresp [Hq' [_ [_ [_ [Hc [Hn _]]]]]]]]].
    + intros p a0 Hin Hcm0 _. apply report_cached; [|reflexivity].
      rewrite Hcm0. apply Hhit. apply Hearly. exact Hin.
    + exists a2. auto.
  - intros es a2 Hpool Hes Hrun.
    destruct (cached_record_served (success_record payload)
                (done_at + inject_Z (Config.cache_ttl (config a))) es
                eq_refl a1 a2)
      as [_ [_ [_ [Hc [Hn [Hw Hresp]]]]]];
      [rewrite Hq; reflexivity|exact Hpool|exact Hhit|exact Hes|exact Hrun|].
    split; [exact Hn|]. split; [exact Hc|]. split; [exact Hw|exact Hresp].
Qed.

End PollingFacts.

Lemma polls_while_running_witness :
  exists a',
    Web.run (polls ten_polls) running_app = Some a'
    /\ Web.computations a' = 1%nat
    /\ Web.next_task a' = 1%nat
    /\ List.length (Web.responses a') = 11%nat.
Proof.
  destruct (polls_while_running running_app ten_polls)
    as [a' [Hrun [Hresp [Hn [Hc _]]]]].
  - reflexivity.
  - reflexivity.
  - intros p Hin. vm_compute in Hin.
    repeat (destruct Hin as [<-|Hin]; [vm_compute; reflexivity|]).
    contradiction.
  - exists a'. split; [exact Hrun|]. split; [rewrite Hc; reflexivity|].
    split; [rewrite Hn; reflexivity|]. rewrite Hresp. reflexivity.
Defined.

Lemma polls_after_success_witness :
  let a1 :=
    Web.task_done 0 (inl scenario_report) 5 (Web.initial scenario_cache) in
  let answer :=
    Returned
      (Web.mkJSONResponse 200
         (Web.ready_body (Web.success_record scenario_report))) in
  let es :=
    [Web.Arrive 1; Web.Arrive 2; Web.Turn 6; Web.Arrive 3; Web.Turn 7;
     Web.Turn 3604] in
  (exists a2,
     Web.run (polls ten_polls) a1 = Some a2
     /\ Web.computations a2 = 0%nat
     /\ Forall (fun rr => snd rr = answer) (Web.responses a2))
  /\ (exists a2, Web.run es a1 = Some a2)
  /\ (forall a2, Web.run es a1 = Some a2 ->
        Web.computations a2 = 0%nat
        /\ exists rids,
             List.length rids = 3%nat
             /\ Web.responses a2 = map (fun rid => (rid, answer)) rids).
Proof.
  intros a1 answer es.
  edestruct (polls_after_success (Web.initial scenario_cache) 0
               scenario_report 5%Q empty_server) as [Hpolls Hruns].
  - reflexivity.
  - reflexivity.
  - vm_compute. reflexivity.
  - vm_compute. reflexivity.
  - discriminate.
  - vm_compute. reflexivity.
  - reflexivity.
  - split; [|split].
    + destruct (Hpolls ten_polls) as [a2 [Hrun [Hresp [_ [Hc _]]]]].
      * intros p Hin. vm_compute in Hin.
        repeat (destruct Hin as [<-|Hin]; [vm_compute; reflexivity|]).
        contradiction.
      * exists a2. split; [exact Hrun|]. split; [rewrite Hc; reflexivity|].
        rewrite Hresp. simpl. repeat constructor.
    + eexists. vm_compute. reflexivity.
    + intros a2 Ha2. destruct (Hruns es a2) as [_ [Hc [_ Hresp]]].
      * reflexivity.
      * unfold es, turns_before. repeat constructor; vm_compute; reflexivity.
      * exact Ha2.
      * split; [rewrite Hc; reflexivity|exact Hresp].
Defined.

Lemma computations_never_overlap_witness :
  exists a,
    Web.run [Web.Arrive 1; Web.Arrive 2; Web.Turn 0; Web.Turn 0;
             Web.Turn 0; Web.Turn 0] (Web.initial scenario_cache) = Some a
    /\ Web.executor a = [0%nat]
    /\ Web.locked (Web.report_lock a) = true.
Proof.
  eexists. split; [vm_compute; reflexivity|].
  split; [reflexivity|].
  refine (proj2 (computations_never_overlap
                   [Web.Arrive 1; Web.Arrive 2; Web.Turn 0; Web.Turn 0;
                    Web.Turn 0; Web.Turn 0] scenario_cache _ _) _).
  - vm_compute. reflexivity.
  - discriminate.
Defined.

(** ** Report coordinator: what holds along every run *)

Section RunFacts.

Import Cache Web.

Context `{Externals}.

Lemma run_invariant (P : App -> Prop) :
  (forall e a a', P a -> step e a = Some a' -> P a') ->
  forall es a a', P a -> run es a = Some a' -> P a'.
Proof.
  intros Hstep es. induction es as [|e es IH]; intros a a' Ha Hrun.
  - injection Hrun as <-. exact Ha.
  - simpl in Hrun. destruct (step e a) as [a1|] eqn:E; [|discriminate].
    apply (IH a1 a'); [|exact Hrun]. apply (Hstep e a a1); assumption.
Qed.

(** The effect of each segment of the coroutine, field by field. *)
Lemma task_start_fields tid a :
  cache_manager (task_start tid a) = cache_manager a
  /\ responses (task_start tid a) = responses a
  /\ writes (task_start tid a) = writes a
  /\ next_task (task_start tid a) = next_task a
  /\ ready (task_start tid a) = ready a
  /\ ((locked (report_lock a) = false /\ waiters (report_lock a) = []
       /\ report_lock (task_start tid a) = mkLock true []
       /\ executor (task_start tid a) = (executor a ++ [tid])%list
       /\ computations (task_start tid a) = S (computations a))
      \/ ((locked (report_lock a) = true \/ waiters (report_lock a) <> [])
          /\ report_lock (task_start tid a)
             = mkLock (locked (report_lock a))
                 (waiters (report_lock a) ++ [(tid, false)])%list
          /\ executor (task_start tid a) = executor a
          /\ computations (task_start tid a) = computations a)).
Proof.
  unfold task_start.
  destruct (locked (report_lock a)) eqn:Hl; simpl.
  - repeat (split; [reflexivity|]). right.
    repeat split; auto.
  - destruct (waiters (report_lock a)) as [|w ws] eqn:Hw; simpl.
    + repeat (split; [reflexivity|]). left. repeat split; reflexivity.
    + repeat (split; [reflexivity|]). right.
      split; [right; discriminate|]. repeat split; reflexivity.
Qed.

Lemma task_locked_fields tid a :
  cache_manager (task_locked tid a) = cache_manager a
  /\ responses (task_locked tid a) = responses a
  /\ writes (task_locked tid a) = writes a
  /\ next_task (task_locked tid a) = next_task a
  /\ ready (task_locked tid a) = ready a
  /\ report_lock (task_locked tid a)
     = mkLock true (remove_waiter tid (waiters (report_lock a)))
  /\ executor (task_locked tid a) = (executor a ++ [tid])%list
  /\ computations (task_locked tid a) = S (computations a).
Proof. unfold task_locked. simpl. repeat split; reflexivity. Qed.

Lemma task_done_fields tid result now a :
  exists w,
    writes (task_done tid result now a) = (writes a ++ [w])%list
    /\ report_write (config a) w
    /\ write_result w
       = fst (Cache.set (write_key w) (write_value w) (write_ttl w) now
                (cache_manager a))
    /\ cache_manager (task_done tid result now a)
       = snd (Cache.set (write_key w) (write_value w) (write_ttl w) now
                (cache_manager a))
    /\ responses (task_done tid result now a) = responses a
    /\ next_task (task_done tid result now a) = next_task a
    /\ executor (task_done tid result now a) = executor a
    /\ computations (task_done tid result now a) = computations a
    /\ report_lock (task_done tid result now a)
       = mkLock false (fst (wake_up_first (waiters (report_lock a))))
    /\ ready (task_done tid result now a)
       = (ready a
            ++ match snd (wake_up_first (waiters (report_lock a))) with
               | Some t => [TaskLocked t]
               | None => []
               end)%list.
Proof.
  assert (Hgen : forall value ttl,
            report_write (config a)
              (mkWrite get_report_cache_key value (Some ttl)
                 (fst (Cache.set get_report_cache_key value (Some ttl) now
                         (cache_manager a)))) ->
            task_done tid result now a
            = release (snd (cache_set value ttl now a)) ->
            exists w,
              writes (task_done tid result now a) = (writes a ++ [w])%list
              /\ report_write (config a) w
              /\ write_result w
                 = fst (Cache.set (write_key w) (write_value w) (write_ttl w)
                          now (cache_manager a))
              /\ cache_manager (task_done tid result now a)
                 = snd (Cache.set (write_key w) (write_value w) (write_ttl w)
                          now (cache_manager a))
              /\ responses (task_done tid result now a) = responses a
              /\ next_task (task_done tid result now a) = next_task a
              /\ executor (task_done tid result now a) = executor a
              /\ computations (task_done tid result now a) = computations a
              /\ report_lock (task_done tid result now a)
                 = mkLock false (fst (wake_up_first (waiters (report_lock a))))
              /\ ready (task_done tid result now a)
                 = (ready a
                      ++ match snd (wake_up_first (waiters (report_lock a)))
                         with
                         | Some t => [TaskLocked t]
                         | None => []
                         end)%list).
  { intros value ttl Hshape ->.
    exists (mkWrite get_report_cache_key value (Some ttl)
              (fst (Cache.set get_report_cache_key value (Some ttl) now
                      (cache_manager a)))).
    unfold cache_set, release. cbn [write_key write_value write_ttl].
    destruct (Cache.set get_report_cache_key value (Some ttl) now
                (cache_manager a)) as [res cm] eqn:Hset.
    simpl.
    destruct (wake_up_first (waiters (report_lock a))) as [ws [t|]];
      simpl; rewrite ?app_nil_r;
      (split; [reflexivity|]); (split; [exact Hshape|]);
      repeat split; reflexivity. }
  destruct result as [payload|message].
  - apply (Hgen (success_record payload) (Config.cache_ttl (config a))).
    + split; [reflexivity|]. left. exists payload. split; reflexivity.
    + unfold task_done.
      destruct (cache_set_spec (success_record payload)
                  (Config.cache_ttl (config a)) now a) as [b Hb].
      rewrite Hb. reflexivity.
  - apply (Hgen (error_record message) 300).
    + split; [reflexivity|]. right. exists message. split; reflexivity.
    + reflexivity.
Qed.

(** X15. With the cache disabled or unreachable at start-up the report
    can never be fetched: along every run each request is answered
    [generating] or [started], never [ready], and every write of a
    finished computation is refused. *)
Theorem no_cache_never_ready (es : list event) (cm : CacheManager) (a : App) :
  redis_client cm = None ->
  run es (initial cm) = Some a ->
  Forall (fun rr => not_ready (snd rr)) (responses a)
  /\ Forall (fun w => write_result w = Returned false) (writes a)
  /\ cache_manager a = cm.
Proof.
  intros Hnone Hrun.
  apply (run_invariant
           (fun a => Forall (fun rr => not_ready (snd rr)) (responses a)
                     /\ Forall (fun w => write_result w = Returned false)
                          (writes a)
                     /\ cache_manager a = cm) ) with (es := es) (a := initial cm);
    [|simpl; auto|exact Hrun].
  clear es a Hrun. intros e a a' [Hresp [Hwr Hcm]] Hstep.
  destruct e as [rid|now|tid result]; simpl in Hstep.
  - injection Hstep as <-. simpl. auto.
  - destruct (ready a) as [|cb rest] eqn:Hq; [discriminate|].
    injection Hstep as <-.
    destruct cb as [rid|tid|tid|tid result];
      cbn [run_callback generate_report_background].
    + assert (Hmiss : Cache.get get_report_cache_key now
                        (cache_manager (set_ready rest a)) = Returned PNone).
      { simpl. rewrite Hcm. unfold Cache.get. rewrite Hnone. reflexivity. }
      destruct (report_cases now (set_ready rest a))
        as [[v [Hget [Ht _]]]|[[_ Hrep]|[_ Hrep]]].
      * rewrite Hmiss in Hget. injection Hget as <-. discriminate.
      * rewrite Hrep. simpl. split; [|auto].
        apply Forall_app. split; [exact Hresp|].
        constructor; [left; reflexivity|constructor].
      * rewrite Hrep. simpl. split; [|auto].
        apply Forall_app. split; [exact Hresp|].
        constructor; [right; reflexivity|constructor].
    + destruct (task_start_fields tid (set_ready rest a))
        as [Hc [Hr [Hw _]]].
      rewrite Hc, Hr, Hw. simpl. auto.
    + destruct (task_locked_fields tid (set_ready rest a))
        as [Hc [Hr [Hw _]]].
      rewrite Hc, Hr, Hw. simpl. auto.
    + destruct (task_done_fields tid result now (set_ready rest a))
        as [w [Hw [_ [Hres [Hc [Hr _]]]]]].
      rewrite Hw, Hc, Hr. simpl in *. rewrite Hcm in *.
      unfold Cache.set in Hres |- *. rewrite Hnone in *. simpl in *.
      split; [exact Hresp|]. split; [|reflexivity].
      apply Forall_app. split; [exact Hwr|]. constructor; [exact Hres|constructor].
  - destruct (existsb (Nat.eqb tid) (executor a)); [|discriminate].
    injection Hstep as <-. simpl. auto.
Qed.

Lemma count_cons p cb q :
  count p (cb :: q) = ((if p cb then 1 else 0) + count p q)%nat.
Proof.
  change (cb :: q) with ([cb] ++ q)%list. rewrite count_app, count_one.
  reflexivity.
Qed.

(** X16. The lock is never left held: along every run it is held exactly
    while one computation is in flight (in the pool, or finished with its
    task still to resume), so that once the computation is over, whatever
    its outcome and that of the cache write, the lock is free again. *)
Theorem lock_held_iff_computing (es : list event) (cm : CacheManager)
    (a : App) :
  run es (initial cm) = Some a ->
  (locked (report_lock a) = true <-> holders a = 1%nat)
  /\ (locked (report_lock a) = false <-> holders a = 0%nat).
Proof.
  intros Hrun.
  assert (Hinv : exclusive a
                 /\ (locked (report_lock a) = true -> (1 <= holders a)%nat)).
  { apply (run_invariant
             (fun a => exclusive a
                       /\ (locked (report_lock a) = true
                           -> (1 <= holders a)%nat)))
      with (es := es) (a := initial cm); [| |exact Hrun].
    - clear es a Hrun. intros e a a' [Hex Hheld] Hstep.
      split; [apply (step_exclusive e a a' Hex Hstep)|].
      unfold holders in *.
      destruct e as [rid|now|tid result]; simpl in Hstep.
      + injection Hstep as <-. simpl. rewrite count_app, count_one. simpl.
        intros Hl. specialize (Hheld Hl). lia.
      + destruct (ready a) as [|cb rest] eqn:Hq; [discriminate|].
        injection Hstep as <-. rewrite count_cons in Hheld.
        destruct cb as [rid|tid|tid|tid result];
          cbn [run_callback generate_report_background]; simpl in Hheld.
        * pose proof (report_keeps_lock now (set_ready rest a))
            as [Hl [He Hc]].
          destruct (report now (set_ready rest a)) as [r a1].
          simpl in *. rewrite Hl, He, Hc by reflexivity. exact Hheld.
        * destruct (task_start_fields tid (set_ready rest a))
            as [_ [_ [_ [_ [Hr [[_ [_ [_ [He _]]]]|[_ [Hl [He _]]]]]]]]];
            rewrite Hr, He; simpl.
          -- intros _. rewrite List.length_app. simpl. lia.
          -- rewrite Hl. simpl. exact Hheld.
        * destruct (task_locked_fields tid (set_ready rest a))
            as [_ [_ [_ [_ [_ [_ [He _]]]]]]].
          rewrite He. simpl. intros _. rewrite List.length_app. simpl. lia.
        * destruct (task_done_fields tid result now (set_ready rest a))
            as [w [_ [_ [_ [_ [_ [_ [_ [_ [Hl _]]]]]]]]]].
          rewrite Hl. simpl. discriminate.
      + destruct (existsb (Nat.eqb tid) (executor a)); [|discriminate].
        injection Hstep as <-. simpl. rewrite count_app, count_one. simpl.
        intros _. lia.
    - split; [|simpl; discriminate].
      unfold exclusive, holders. simpl. unfold count. simpl.
      split; [lia|]. split; intros; lia. }
  destruct Hinv as [[Hone [Hheld _]] Hfree].
  destruct (locked (report_lock a)) eqn:Hl.
  - specialize (Hfree eq_refl).
    split; split; intros; try lia; try reflexivity; discriminate.
  - split; split; intros; try discriminate; try reflexivity.
    + assert (false = true) by (apply Hheld; lia). discriminate.
    + destruct (holders a) eqn:E; [reflexivity|].
      assert (false = true) by (apply Hheld; lia). discriminate.
Qed.

Lemma started_count_respond rid r a :
  started_count (respond rid r a)
  = (started_count a + (if is_started r then 1 else 0))%nat.
Proof.
  unfold started_count. simpl. rewrite List.filter_app, List.length_app.
  simpl. destruct (is_started r); reflexivity.
Qed.

Lemma unwoken_remove tid ws :
  (List.length (List.filter (fun w : nat * bool => negb (snd w))
                  (remove_waiter tid ws))
   <= List.length (List.filter (fun w : nat * bool => negb (snd w)) ws))%nat.
Proof.
  unfold remove_waiter. induction ws as [|w ws IH]; simpl; [lia|].
  destruct (negb (Nat.eqb (fst w) tid)); simpl;
    destruct (negb (snd w)); simpl; lia.
Qed.

Lemma unwoken_wake ws :
  (List.length (List.filter (fun w : nat * bool => negb (snd w))
                  (fst (wake_up_first ws)))
   + match snd (wake_up_first ws) with Some _ => 1 | None => 0 end)%nat
  = List.length (List.filter (fun w : nat * bool => negb (snd w)) ws).
Proof.
  destruct ws as [|[t [|]] ws]; simpl; lia.
Qed.

(** X17. No computation without a request that was told so: along every
    run the number of computations started never exceeds the number of
    requests answered [started], and each such answer created exactly one
    task. *)
Theorem computations_bounded_by_started (es : list event)
    (cm : CacheManager) (a : App) :
  run es (initial cm) = Some a ->
  (computations a <= started_count a)%nat
  /\ next_task a = started_count a.
Proof.
  intros Hrun.
  assert (Hinv : (computations a + count is_start (ready a)
                  + count is_woken (ready a) + unwoken (report_lock a)
                  <= next_task a)%nat
                 /\ next_task a = started_count a).
  { apply (run_invariant
             (fun a => (computations a + count is_start (ready a)
                        + count is_woken (ready a) + unwoken (report_lock a)
                        <= next_task a)%nat
                       /\ next_task a = started_count a))
      with (es := es) (a := initial cm); [| |exact Hrun].
    - clear es a Hrun. intros e a a' [Hle Hn] Hstep. unfold unwoken in *.
      destruct e as [rid|now|tid result]; simpl in Hstep.
      + injection Hstep as <-. simpl. rewrite !count_app, !count_one. simpl.
        split; [lia|exact Hn].
      + destruct (ready a) as [|cb rest] eqn:Hq; [discriminate|].
        injection Hstep as <-. rewrite !count_cons in Hle.
        destruct cb as [rid|tid|tid|tid result];
          cbn [run_callback generate_report_background]; simpl in Hle.
        * destruct (report_cases now (set_ready rest a))
            as [[v [_ [_ Hrep]]]|[[_ Hrep]|[_ Hrep]]];
            rewrite Hrep, started_count_respond; simpl;
            rewrite ?count_app, ?count_one; simpl;
            (split; [lia|]); unfold started_count in *; simpl; lia.
        * destruct (task_start_fields tid (set_ready rest a))
            as [_ [Hresp [_ [Hnt [Hr [[_ [Hw [Hl [_ Hc]]]]|[_ [Hl [_ Hc]]]]]]]]];
            unfold started_count; rewrite Hresp, Hnt, Hr, Hl, Hc; simpl.
          -- simpl in Hw. rewrite Hw in Hle. simpl in Hle.
             split; [lia|exact Hn].
          -- rewrite List.filter_app, List.length_app. simpl.
             split; [lia|exact Hn].
        * destruct (task_locked_fields tid (set_ready rest a))
            as [_ [Hresp [_ [Hnt [Hr [Hl [_ Hc]]]]]]].
          unfold started_count; rewrite Hresp, Hnt, Hr, Hl, Hc; simpl.
          pose proof (unwoken_remove tid (waiters (report_lock a))).
          split; [lia|exact Hn].
        * destruct (task_done_fields tid result now (set_ready rest a))
            as [w [_ [_ [_ [_ [Hresp [Hnt [_ [Hc [Hl Hr]]]]]]]]]].
          unfold started_count; rewrite Hresp, Hnt, Hr, Hl, Hc; simpl.
          pose proof (unwoken_wake (waiters (report_lock a))) as Hwake.
          rewrite !count_app.
          destruct (snd (wake_up_first (waiters (report_lock a))));
            rewrite ?count_one; unfold count in *; simpl;
            (split; [lia|exact Hn]).
      + destruct (existsb (Nat.eqb tid) (executor a)); [|discriminate].
        injection Hstep as <-. simpl. rewrite !count_app, !count_one. simpl.
        split; [lia|exact Hn].
    - simpl. unfold count, unwoken, started_count. simpl. split; [lia|reflexivity]. }
  destruct Hinv as [Hle Hn]. split; [lia|exact Hn].
Qed.

Lemma set_keeps_config key value ttl now cm :
  Cache.config (snd (Cache.set key value ttl now cm)) = Cache.config cm.
Proof.
  unfold Cache.set. destruct (redis_client cm); [|reflexivity].
  destruct (try_except_st _ _). reflexivity.
Qed.

(** X18. One record for each finished computation: along every run the
    computations started are those in flight plus one for each write in
    the log, and every write is made under the report key, as a success
    record with the standard ttl or as an error record with a ttl of 300
    seconds. *)
Theorem one_write_per_computation (es : list event) (cm : CacheManager)
    (a : App) :
  run es (initial cm) = Some a ->
  computations a = (List.length (writes a) + holders a)%nat
  /\ Forall (report_write (Cache.config cm)) (writes a).
Proof.
  intros Hrun.
  assert (Hinv : exclusive a
                 /\ computations a = (List.length (writes a) + holders a)%nat
                 /\ Forall (report_write (Cache.config cm)) (writes a)
                 /\ config a = Cache.config cm).
  { apply (run_invariant
             (fun a => exclusive a
                       /\ computations a
                          = (List.length (writes a) + holders a)%nat
                       /\ Forall (report_write (Cache.config cm)) (writes a)
                       /\ config a = Cache.config cm))
      with (es := es) (a := initial cm); [| |exact Hrun].
    - clear es a Hrun. intros e a a' [Hex [Hc [Hw Hcfg]]] Hstep.
      split; [apply (step_exclusive e a a' Hex Hstep)|].
      unfold holders, config in *.
      destruct e as [rid|now|tid result]; simpl in Hstep.
      + injection Hstep as <-. simpl. rewrite count_app, count_one. simpl.
        split; [lia|]. split; assumption.
      + destruct (ready a) as [|cb rest] eqn:Hq; [discriminate|].
        injection Hstep as <-. rewrite count_cons in Hc.
        destruct cb as [rid|tid|tid|tid result];
          cbn [run_callback generate_report_background]; simpl in Hc.
        * destruct (report_cases now (set_ready rest a))
            as [[v [_ [_ Hrep]]]|[[_ Hrep]|[_ Hrep]]];
            rewrite Hrep; simpl; rewrite ?count_app, ?count_one; simpl;
            (split; [lia|]); split; assumption.
        * destruct (task_start_fields tid (set_ready rest a))
            as [Hcm [_ [Hwr [_ [Hr [[_ [_ [_ [He Hco]]]]|[_ [_ [He Hco]]]]]]]]];
            rewrite Hcm, Hwr, Hr, He, Hco; simpl;
            rewrite ?List.length_app; simpl;
            (split; [lia|]); split; assumption.
        * destruct (task_locked_fields tid (set_ready rest a))
            as [Hcm [_ [Hwr [_ [Hr [_ [He Hco]]]]]]].
          rewrite Hcm, Hwr, Hr, He, Hco. simpl. rewrite List.length_app.
          simpl. split; [lia|]. split; assumption.
        * destruct (task_done_fields tid result now (set_ready rest a))
            as [w [Hwr [Hshape [_ [Hcm [_ [_ [He [Hco [_ Hr]]]]]]]]]].
          rewrite Hwr, Hcm, Hr, He, Hco, set_keeps_config. simpl.
          rewrite List.length_app, count_app. simpl.
          assert (count is_done
                    match snd (wake_up_first (waiters (report_lock a))) with
                    | Some t => [TaskLocked t]
                    | None => []
                    end = 0%nat) as ->
            by (destruct (snd (wake_up_first (waiters (report_lock a))));
                reflexivity).
          split; [lia|]. split; [|exact Hcfg].
          apply Forall_app. split; [exact Hw|].
          constructor; [|constructor].
          unfold config in Hshape. simpl in Hshape. rewrite Hcfg in Hshape.
          exact Hshape.
      + destruct (existsb (Nat.eqb tid) (executor a)) eqn:Hin; [|discriminate].
        injection Hstep as <-. simpl. rewrite count_app, count_one. simpl.
        destruct Hex as [Hone _]. unfold holders in Hone.
        destruct (executor a) as [|t [|t' ts]] eqn:Hexec;
          simpl in Hin, Hone, Hc |- *.
        * discriminate.
        * rewrite orb_false_r in Hin. rewrite Nat.eqb_sym, Hin. simpl.
          split; [lia|]. split; assumption.
        * lia.
    - split.
      + unfold exclusive, holders. simpl. unfold count. simpl.
        split; [lia|]. split; intros; lia.
      + simpl. unfold holders, count. simpl.
        split; [reflexivity|]. split; [constructor|reflexivity]. }
  destruct Hinv as [_ [Hc [Hw _]]]. split; assumption.
Qed.

End RunFacts.

Lemma no_cache_never_ready_witness :
  exists a,
    Web.run uncached_run
      (Web.initial (Cache.init scenario_config dead_server)) = Some a
    /\ statuses a
       = [(1%nat, Some (PStr "started")); (2%nat, Some (PStr "started"))]
    /\ Forall (fun rr => not_ready (snd rr)) (Web.responses a).
Proof.
  eexists. split; [vm_compute; reflexivity|].
  split; [vm_compute; reflexivity|].
  refine (proj1 (no_cache_never_ready uncached_run
                   (Cache.init scenario_config dead_server) _ _ _)).
  - reflexivity.
  - vm_compute. reflexivity.
Defined.

Lemma lock_held_iff_computing_witness :
  exists a,
    Web.run failed_run (Web.initial scenario_cache) = Some a
    /\ holders a = 0%nat
    /\ Web.locked (Web.report_lock a) = false.
Proof.
  eexists. split; [vm_compute; reflexivity|].
  split; [vm_compute; reflexivity|].
  refine (proj2 (proj2 (lock_held_iff_computing failed_run scenario_cache
                          _ _)) _).
  - vm_compute. reflexivity.
  - vm_compute. reflexivity.
Defined.

Lemma computations_bounded_by_started_witness :
  exists a,
    Web.run burst (Web.initial scenario_cache) = Some a
    /\ started_count a = 2%nat
    /\ (Web.computations a <= 2)%nat.
Proof.
  eexists. split; [vm_compute; reflexivity|].
  split; [vm_compute; reflexivity|].
  refine (proj1 (computations_bounded_by_started burst scenario_cache _ _)).
  vm_compute. reflexivity.
Defined.

Lemma one_write_per_computation_witness :
  exists a,
    Web.run burst (Web.initial scenario_cache) = Some a
    /\ Web.computations a = 2%nat
    /\ Forall (report_write scenario_config) (Web.writes a).
Proof.
  eexists. split; [vm_compute; reflexivity|].
  split; [vm_compute; reflexivity|].
  refine (proj2 (one_write_per_computation burst scenario_cache _ _)).
  vm_compute. reflexivity.
Defined.

(** ** Cache keys *)

Section KeyFacts.

Import Cache CacheKeys.

Context `{Digest}.

(** X19. The three key namespaces never collide, and distinct sessions get
    distinct keys: a query key, a session key and the report key are
    pairwise different whatever the question, the user and the session
    id. *)
Theorem cache_key_namespaces (question : string) (user_id : Z)
    (sid sid' : string) :
  get_query_cache_key question user_id <> get_session_cache_key sid
  /\ get_query_cache_key question user_id <> get_report_cache_key
  /\ get_session_cache_key sid <> get_report_cache_key
  /\ (get_session_cache_key sid = get_session_cache_key sid' -> sid = sid').
Proof.
  unfold get_query_cache_key, get_session_cache_key, get_report_cache_key.
  simpl. repeat split; try discriminate.
  intros Heq. injection Heq as Heq. exact Heq.
Qed.

Lemma substring_prefix (q extra : string) :
  substring 0 (String.length q) (q ++ extra) = q.
Proof.
  induction q as [|c q IH]; simpl.
  - destruct extra; reflexivity.
  - rewrite IH. reflexivity.
Qed.

Lemma substring_whole (q : string) : substring 0 (String.length q) q = q.
Proof.
  induction q as [|c q IH]; simpl; [reflexivity|].
  rewrite IH. reflexivity.
Qed.

(** X20. Only the first 100 characters of the question enter a query
    key: for one user, a question of 100 characters and every question
    that extends it share the same key. *)
Theorem query_key_truncates (question extra : string) (user_id : Z) :
  String.length question = 100%nat ->
  get_query_cache_key (question ++ extra) user_id
  = get_query_cache_key question user_id.
Proof.
  intros Hlen. unfold get_query_cache_key, first_100.
  rewrite <- Hlen, substring_prefix, substring_whole. reflexivity.
Qed.

End KeyFacts.

Lemma cache_key_namespaces_witness :
  Cache.get_session_cache_key "a" = Cache.get_session_cache_key "a"
  /\ "a" = "a".
Proof.
  split; [reflexivity|].
  apply (proj2 (proj2 (proj2
           (cache_key_namespaces (H := fun s => s) "what?" 7 "a" "a")))).
  reflexivity.
Defined.

Lemma query_key_truncates_witness :
  let q := string_of_list_ascii (repeat "a"%char 100) in
  CacheKeys.get_query_cache_key (H := fun s => s) (q ++ " and more") 7
  = CacheKeys.get_query_cache_key (H := fun s => s) q 7.
Proof.
  intros q. apply query_key_truncates. reflexivity.
Defined.

(** ** Input validation *)

Section ValidatorFacts.

Import InputValidator.

Lemma matches_lt c : matches_ci "<" c = true <-> c = "<"%char.
Proof.
  unfold matches_ci. split; [|intros ->; reflexivity].
  destruct c as [[] [] [] [] [] [] [] []]; vm_compute; intros Heq;
    first [reflexivity|discriminate Heq].
Qed.

Lemma prefix_ci_spec p : forall l,
  prefix_ci p l = true
  <-> exists tag post, l = (tag ++ post)%list /\ map Py.lower_ascii tag = p.
Proof.
  induction p as [|a p IH]; intros l.
  - split; [intros _; exists [], l; split; reflexivity|].
    destruct l; reflexivity.
  - destruct l as [|c l]; simpl.
    + split; [discriminate|].
      intros [[|t tag] [post [Hl Hm]]]; discriminate.
    + rewrite andb_true_iff, IH. unfold matches_ci. split.
      * intros [Hc [tag [post [-> Hm]]]]. apply Ascii.eqb_eq in Hc.
        exists (c :: tag), post. simpl. split; congruence.
      * intros [[|t tag] [post [Hl Hm]]]; [discriminate|].
        simpl in Hl, Hm. injection Hl as -> ->. injection Hm as Ht Hm.
        split; [apply Ascii.eqb_eq; exact Ht|]. exists tag, post. auto.
Qed.

Lemma after_spaces_eq l :
  after_spaces l
  = prefix_ci script l
    || match l with
       | c :: l' => Py.is_space c && after_spaces l'
       | [] => false
       end.
Proof. destruct l; reflexivity. Qed.

Lemma after_spaces_spec l :
  after_spaces l = true
  <-> exists spaces tag post,
        l = (spaces ++ tag ++ post)%list
        /\ Forall (fun c => Py.is_space c = true) spaces
        /\ map Py.lower_ascii tag = script.
Proof.
  split.
  - induction l as [|c l IH]; rewrite after_spaces_eq, orb_true_iff;
      intros [Hp|Hs].
    + apply prefix_ci_spec in Hp. destruct Hp as [tag [post [Hl Hm]]].
      exists [], tag, post. auto.
    + discriminate.
    + apply prefix_ci_spec in Hp. destruct Hp as [tag [post [Hl Hm]]].
      exists [], tag, post. auto.
    + apply andb_true_iff in Hs. destruct Hs as [Hc Hrest].
      destruct (IH Hrest) as [spaces [tag [post [-> [Hsp Hm]]]]].
      exists (c :: spaces), tag, post. simpl. auto.
  - intros [spaces [tag [post [-> [Hsp Hm]]]]].
    induction Hsp as [|c spaces Hc Hsp IH]; rewrite after_spaces_eq.
    + apply orb_true_iff. left. apply prefix_ci_spec. exists tag, post. auto.
    + apply orb_true_iff. right. simpl. rewrite Hc, IH. reflexivity.
Qed.

Lemma search_script_spec l : search_script l = true <-> has_script_tag l.
Proof.
  unfold has_script_tag. split.
  - induction l as [|c l IH]; simpl; [discriminate|].
    rewrite orb_true_iff, andb_true_iff. intros [[Hc Ha]|Hs].
    + apply matches_lt in Hc. subst c. apply after_spaces_spec in Ha.
      destruct Ha as [spaces [tag [post [-> [Hsp Hm]]]]].
      exists [], spaces, tag, post. auto.
    + destruct (IH Hs) as [pre [spaces [tag [post [-> [Hsp Hm]]]]]].
      exists (c :: pre), spaces, tag, post. auto.
  - intros [pre [spaces [tag [post [-> [Hsp Hm]]]]]].
    induction pre as [|c pre IH]; cbn [app search_script].
    + apply orb_true_iff. left. apply andb_true_iff.
      split; [apply matches_lt; reflexivity|].
      apply after_spaces_spec. exists spaces, tag, post. auto.
    + rewrite IH. apply orb_true_r.
Qed.

(** What [strip] removes, and what it leaves. *)
Lemma lstrip_spec l :
  exists ws,
    l = (ws ++ Py.lstrip l)%list
    /\ Forall (fun c => Py.is_space c = true) ws
    /\ (Py.lstrip l = []
        \/ exists c r, Py.lstrip l = c :: r /\ Py.is_space c = false).
Proof.
  induction l as [|c l IH]; simpl.
  - exists []. auto.
  - destruct (Py.is_space c) eqn:Hc.
    + destruct IH as [ws [Hl [Hws Hhead]]].
      exists (c :: ws). simpl. split; [congruence|]. auto.
    + exists []. split; [reflexivity|]. split; [constructor|].
      right. exists c, l. auto.
Qed.

Lemma lstrip_fixed c r : Py.is_space c = false -> Py.lstrip (c :: r) = c :: r.
Proof. intros Hc. simpl. rewrite Hc. reflexivity. Qed.

Lemma strip_spec l :
  exists ws1 ws2,
    l = (ws1 ++ Py.strip l ++ ws2)%list
    /\ Forall (fun c => Py.is_space c = true) ws1
    /\ Forall (fun c => Py.is_space c = true) ws2
    /\ (Py.strip l = [] \/ Py.strip (Py.strip l) = Py.strip l).
Proof.
  unfold Py.strip.
  destruct (lstrip_spec l) as [ws1 [Hl [Hws1 Hhead]]].
  destruct (lstrip_spec (rev (Py.lstrip l))) as [ws2 [Hr [Hws2 Hlast]]].
  assert (Hm : Py.lstrip l
               = (rev (Py.lstrip (rev (Py.lstrip l))) ++ rev ws2)%list).
  { rewrite <- rev_app_distr, <- Hr, rev_involutive. reflexivity. }
  exists ws1, (rev ws2).
  split; [rewrite <- Hm; exact Hl|]. split; [exact Hws1|].
  split; [apply Forall_rev; exact Hws2|].
  destruct Hlast as [Hnil|[c [r [Hcr Hc]]]].
  - left. rewrite Hnil. reflexivity.
  - right. rewrite Hcr.
    assert (Hfix : Py.lstrip (rev (c :: r)) = rev (c :: r)).
    { destruct (rev (c :: r)) as [|c0 r0] eqn:Hrev; [reflexivity|].
      apply lstrip_fixed.
      destruct Hhead as [Hnil|[c1 [r1 [Hc1 Hsp1]]]].
      - rewrite Hnil in Hcr. discriminate.
      - rewrite Hcr, Hrev, Hc1 in Hm. simpl in Hm. injection Hm as -> _.
        exact Hsp1. }
    rewrite Hfix, rev_involutive, (lstrip_fixed c r Hc). reflexivity.
Qed.

Lemma lstrip_all_space l :
  Forall (fun c => Py.is_space c = true) l -> Py.lstrip l = [].
Proof.
  induction 1 as [|c l Hc Hl IH]; simpl; [reflexivity|].
  rewrite Hc. exact IH.
Qed.

Lemma strip_nil_iff l :
  Py.strip l = [] <-> Forall (fun c => Py.is_space c = true) l.
Proof.
  split.
  - intros Hnil. destruct (strip_spec l) as [ws1 [ws2 [Hl [H1 [H2 _]]]]].
    rewrite Hl, Hnil. simpl. apply Forall_app. auto.
  - intros Hall. unfold Py.strip. rewrite (lstrip_all_space l Hall).
    reflexivity.
Qed.

Lemma length_chars q :
  List.length (list_ascii_of_string q) = String.length q.
Proof. induction q as [|c q IH]; simpl; congruence. Qed.

Lemma not_all_space l :
  ~ Forall (fun c => Py.is_space c = true) l
  <-> exists c, In c l /\ Py.is_space c = false.
Proof.
  split.
  - induction l as [|c l IH]; intros Hnot; [exfalso; apply Hnot; constructor|].
    destruct (Py.is_space c) eqn:Hc.
    + destruct IH as [c' [Hin Hc']].
      * intros Hall. apply Hnot. constructor; assumption.
      * exists c'. split; [right; exact Hin|exact Hc'].
    + exists c. split; [left; reflexivity|exact Hc].
  - intros [c [Hin Hc]] Hall. rewrite Forall_forall in Hall.
    rewrite (Hall c) in Hc; [discriminate|].
    apply list_elem_of_In. exact Hin.
Qed.

(** The three tests of [validate_query], one by one. *)
Lemma validate_query_iff (query : string) :
  validate_query query = true
  <-> (exists c, In c (list_ascii_of_string query) /\ Py.is_space c = false)
      /\ (String.length query <= 2000)%nat
      /\ ~ has_script_tag (list_ascii_of_string query).
Proof.
  unfold validate_query.
  rewrite <- not_all_space, <- strip_nil_iff, <- search_script_spec.
  destruct (String.eqb query EmptyString) eqn:Hempty; simpl.
  - apply String.eqb_eq in Hempty. subst query. simpl.
    split; [discriminate|]. intros [Hnot _]. exfalso. apply Hnot. reflexivity.
  - destruct (Py.strip (list_ascii_of_string query)) as [|c r] eqn:Hstrip;
      simpl.
    + split; [discriminate|]. intros [Hnot _]. exfalso. apply Hnot.
      reflexivity.
    + destruct (2000 <? String.length query)%nat eqn:Hlong.
      * apply Nat.ltb_lt in Hlong. split; [discriminate|]. intros [_ [Hle _]].
        lia.
      * apply Nat.ltb_ge in Hlong.
        destruct (search_script (list_ascii_of_string query)).
        -- split; [discriminate|]. intros [_ [_ Hnot]]. exfalso. apply Hnot.
           reflexivity.
        -- split; [|reflexivity]. intros _.
           split; [discriminate|]. split; [exact Hlong|discriminate].
Qed.

(** X21. What [validate_query] accepts: exactly the texts that have a
    character other than white space, are at most 2000 characters long
    and nowhere contain [<], optional white space and the letters of
    [script] in any case.  Empty and blank texts, longer texts and texts
    with such a tag are all refused. *)
Theorem validate_query_accepts (query : string) :
  validate_query query = true
  <-> (exists c, In c (list_ascii_of_string query) /\ Py.is_space c = false)
      /\ (String.length query <= 2000)%nat
      /\ ~ has_script_tag (list_ascii_of_string query).
Proof. exact (validate_query_iff query). Qed.

(** X22. A text that [validate_query] accepts is still accepted once
    [sanitize_text] has stripped it, is not empty then, and is not changed
    by being sanitized again. *)
Theorem sanitized_query_stays_valid (query : string) :
  validate_query query = true ->
  validate_query (sanitize_text query) = true
  /\ sanitize_text query <> EmptyString
  /\ sanitize_text (sanitize_text query) = sanitize_text query.
Proof.
  intros Hvalid. apply validate_query_iff in Hvalid.
  destruct Hvalid as [[c [Hin Hc]] [Hlen Hnotag]].
  destruct (strip_spec (list_ascii_of_string query))
    as [ws1 [ws2 [Hl [H1 [H2 Hidem]]]]].
  assert (Hinside : In c (Py.strip (list_ascii_of_string query))).
  { rewrite Hl in Hin. apply in_app_or in Hin. destruct Hin as [Hin|Hin].
    - rewrite Forall_forall in H1.
      rewrite (H1 c) in Hc; [discriminate|apply list_elem_of_In; exact Hin].
    - apply in_app_or in Hin. destruct Hin as [Hin|Hin]; [exact Hin|].
      rewrite Forall_forall in H2.
      rewrite (H2 c) in Hc; [discriminate|apply list_elem_of_In; exact Hin]. }
  assert (Hidem' : Py.strip (Py.strip (list_ascii_of_string query))
                   = Py.strip (list_ascii_of_string query)).
  { destruct Hidem as [Hnil|Hidem]; [|exact Hidem].
    rewrite Hnil in Hinside. contradiction. }
  split; [|split].
  - apply validate_query_iff. unfold sanitize_text.
    rewrite list_ascii_of_string_of_list_ascii. split; [|split].
    + exists c. split; assumption.
    + rewrite <- length_chars, list_ascii_of_string_of_list_ascii.
      rewrite <- length_chars in Hlen. rewrite Hl in Hlen.
      rewrite !List.length_app in Hlen. lia.
    + intros [pre [spaces [tag [post [Heq [Hsp Hm]]]]]]. apply Hnotag.
      exists (ws1 ++ pre)%list, spaces, tag, (post ++ ws2)%list.
      split; [|split; assumption].
      rewrite Hl, Heq. rewrite <- !app_assoc. simpl.
      rewrite <- !app_assoc. reflexivity.
  - unfold sanitize_text. intros Hempty.
    apply (f_equal list_ascii_of_string) in Hempty.
    rewrite list_ascii_of_string_of_list_ascii in Hempty. simpl in Hempty.
    rewrite Hempty in Hinside. contradiction.
  - unfold sanitize_text. rewrite list_ascii_of_string_of_list_ascii, Hidem'.
    reflexivity.
Qed.

End ValidatorFacts.

Lemma validate_query_accepts_witness :
  (String.length "What is artificial intelligence?" <= 2000)%nat
  /\ ~ InputValidator.has_script_tag
         (list_ascii_of_string "What is artificial intelligence?").
Proof.
  apply (proj1 (validate_query_accepts "What is artificial intelligence?")).
  reflexivity.
Defined.

Lemma sanitized_query_stays_valid_witness :
  InputValidator.validate_query (InputValidator.sanitize_text "  hello  ")
  = true.
Proof.
  apply (sanitized_query_stays_valid "  hello  "). reflexivity.
Defined.

(** The cases of the repository's own test of the validator. *)
Example validator_test_cases :
  InputValidator.validate_query "What is artificial intelligence?" = true
  /\ InputValidator.validate_query "<script>alert('xss')</script>" = false
  /\ InputValidator.validate_query EmptyString = false
  /\ InputValidator.validate_query
       (string_of_list_ascii (repeat "a"%char 2001)) = false.
Proof. vm_compute. repeat split; reflexivity. Qed.

(** ** The query route and its sessions *)

Section QueryFacts.

Import Security QueryRoute.

Context {D : Type}.

Lemma validate_false_gone sid now sm :
  fst (validate_session sid now sm) = false ->
  sessions (snd (validate_session sid now sm)) !! sid = None.
Proof.
  unfold validate_session. destruct (sessions sm !! sid) as [s|] eqn:E.
  - destruct (Qgtb _ _); simpl; [|discriminate].
    intros _. apply lookup_delete_eq.
  - simpl. intros _. exact E.
Qed.

Lemma validate_keeps_known sid now sm other :
  is_Some (sessions (snd (validate_session sid now sm)) !! other) ->
  is_Some (sessions sm !! other).
Proof.
  unfold validate_session. destruct (sessions sm !! sid) as [s|] eqn:E;
    [|exact (fun x => x)].
  destruct (Qgtb _ _); simpl.
  - destruct (decide (sid = other)) as [->|Hne].
    + rewrite lookup_delete_eq. intros [x Hx]. discriminate.
    + rewrite lookup_delete_ne by exact Hne. exact (fun x => x).
  - destruct (decide (sid = other)) as [->|Hne].
    + intros _. rewrite E. eauto.
    + rewrite lookup_insert_ne by exact Hne. exact (fun x => x).
Qed.

(** X23. A request that presents a session cookie which is unknown or
    expired is answered 401 before anything else happens: the body is not
    read, the backend is not run, no session is created, and the presented
    id is not in the registry afterwards. *)
Theorem stale_cookie_refused (cookies : Py.dict string)
    (client_host : option string) (body : outcome pyval) (now : Q)
    (token : string) (t_created t_accessed : Q) (backend : @backend_t D)
    (sm : SessionManager) (d : D) (sid : string) :
  Py.dict_get "session_id" cookies = Some sid ->
  sid <> EmptyString ->
  fst (validate_session sid now sm) = false ->
  query cookies client_host body now token t_created t_accessed backend sm d
  = (Raised (HTTPException 401 "Invalid or expired session"),
     (snd (validate_session sid now sm), d))
  /\ sessions (snd (validate_session sid now sm)) !! sid = None
  /\ (forall other,
        is_Some (sessions (snd (validate_session sid now sm)) !! other) ->
        is_Some (sessions sm !! other)).
Proof.
  intros Hcookie Hne Hfalse.
  split; [|split; [apply validate_false_gone; exact Hfalse|
                   intros other; apply validate_keeps_known]].
  unfold query, query_begin, query_resume. rewrite Hcookie. simpl.
  apply String.eqb_neq in Hne. rewrite Hne. simpl.
  destruct (validate_session sid now sm) as [valid sm1]. simpl in Hfalse.
  subst valid. reflexivity.
Qed.

(** The registry after the session check of the handler. *)
Lemma query_cases cookies client_host body now token t_created t_accessed
    (backend : @backend_t D) sm d r sm' d' :
  query cookies client_host body now token t_created t_accessed backend sm d
  = (r, (sm', d')) ->
  let session_id := Py.dict_get "session_id" cookies in
  let sm1 :=
    if has_session session_id
    then snd (validate_session (default EmptyString session_id) now sm)
    else sm in
  match r with
  | Raised e => is_HTTPException e = true /\ sm' = sm1
  | Returned resp =>
      cookie_max_age resp = lifetime sm'
      /\ (has_session session_id = true ->
          fst (validate_session (default EmptyString session_id) now sm) = true
          /\ session_cookie resp = default EmptyString session_id
          /\ sm' = sm1)
      /\ (has_session session_id = false ->
          session_cookie resp = token
          /\ sm' = snd (create_session token t_created t_accessed
                          (default "unknown" client_host) sm))
  end.
Proof.
  unfold query, query_begin, query_resume.
  destruct (has_session (Py.dict_get "session_id" cookies)) eqn:Hhas.
  - destruct (validate_session _ now sm) as [valid sm1] eqn:Hv. simpl.
    destruct valid; simpl.
    + destruct body as [[| | | | |data]|e]; simpl;
        try (intros [= <- <- <-]; split; reflexivity).
      * destruct (check_question _); simpl;
          try (intros [= <- <- <-]; split; reflexivity).
        destruct (backend _ _ _ d) as [[reply|e] d1]; simpl.
        -- intros [= <- <- <-]. simpl. split; [reflexivity|].
           split; [intros _; auto|discriminate].
        -- intros [= <- <- <-]. split; [|reflexivity].
           unfold to_http. destruct (is_HTTPException e) eqn:E;
             [exact E|reflexivity].
      * intros [= <- <- <-]. split; [|reflexivity].
        unfold to_http. destruct (is_HTTPException e) eqn:E;
          [exact E|reflexivity].
    + intros [= <- <- <-]. split; reflexivity.
  - simpl.
    destruct body as [[| | | | |data]|e]; simpl;
      try (intros [= <- <- <-]; split; reflexivity).
    + destruct (check_question _); simpl;
        try (intros [= <- <- <-]; split; reflexivity).
      destruct (backend _ _ _ d) as [[reply|e] d1]; simpl.
      * intros [= <- <- <-]. simpl. split; [reflexivity|].
        split; [discriminate|intros _; auto].
      * intros [= <- <- <-]. split; [|reflexivity].
        unfold to_http. destruct (is_HTTPException e) eqn:E;
          [exact E|reflexivity].
    + intros [= <- <- <-]. split; [|reflexivity].
      unfold to_http. destruct (is_HTTPException e) eqn:E;
        [exact E|reflexivity].
Qed.

(** X24. Every successful response carries a session cookie that the
    registry vouched for during this request.  Either it is the cookie
    presented: that one passed [validate_session] before the handler
    awaited its body (it was registered and within its lifetime, and its
    [last_accessed] was set to the time of the request), and it is echoed
    without a second look at the registry, which the response leaves as
    the handler found it on resuming, whatever other requests did to it in
    between.  Or no cookie was presented, and the cookie names a session
    created for the client host just before the response, which is in the
    registry then, the other sessions being untouched.  The cookie's
    max-age is the registry's lifetime. *)
Theorem answered_query_has_session (cookies : Py.dict string)
    (client_host : option string) (body : outcome pyval) (now : Q)
    (token : string) (t_created t_accessed : Q) (backend : @backend_t D)
    (sm checked resumed sm' : SessionManager) (d d' : D)
    (resp : QueryResponse) :
  query_begin cookies now sm = (Returned tt, checked) ->
  query_resume cookies client_host body token t_created t_accessed backend
    resumed d
  = (Returned resp, (sm', d')) ->
  QueryRoute.status_code resp = 200
  /\ cookie_max_age resp = lifetime resumed
  /\ ((exists old,
         Py.dict_get "session_id" cookies = Some (session_cookie resp)
         /\ session_cookie resp <> EmptyString
         /\ sessions sm !! session_cookie resp = Some old
         /\ Qgtb (now - created_at old) (inject_Z (lifetime sm)) = false
         /\ sessions checked !! session_cookie resp
            = Some (mkSession (client_id old) (created_at old) now)
         /\ sm' = resumed)
      \/ (has_session (Py.dict_get "session_id" cookies) = false
          /\ checked = sm
          /\ session_cookie resp = token
          /\ sessions sm' !! token
             = Some (mkSession (default "unknown" client_host)
                       t_created t_accessed)
          /\ (forall other, other <> token ->
                sessions sm' !! other = sessions resumed !! other))).
Proof.
  unfold query_begin, query_resume. intros Hbegin Hresume.
  assert (Hresp :
    exists reply,
      resp = mkQueryResponse 200
               (PDict
                  [("answer",
                    PStr (InputValidator.sanitize_text (answer reply)));
                   ("sources",
                    PList (map PStr
                             (map source_preview (source_documents reply))));
                   ("conversation_id", conversation_id reply)])
               (fst (if has_session (Py.dict_get "session_id" cookies)
                     then (default EmptyString
                             (Py.dict_get "session_id" cookies), resumed)
                     else create_session token t_created t_accessed
                            (default "unknown" client_host) resumed))
               (lifetime
                  (snd (if has_session (Py.dict_get "session_id" cookies)
                        then (default EmptyString
                                (Py.dict_get "session_id" cookies), resumed)
                        else create_session token t_created t_accessed
                               (default "unknown" client_host) resumed)))
      /\ sm' = snd (if has_session (Py.dict_get "session_id" cookies)
                    then (default EmptyString
                            (Py.dict_get "session_id" cookies), resumed)
                    else create_session token t_created t_accessed
                           (default "unknown" client_host) resumed)).
  { destruct body as [[| | | | |data]|e]; try discriminate Hresume.
    destruct (check_question _); try discriminate Hresume.
    destruct (backend _ _ _ d) as [[reply|e] d1]; [|discriminate Hresume].
    exists reply.
    destruct (has_session (Py.dict_get "session_id" cookies));
      simpl in Hresume; injection Hresume as <- <- <-; split; reflexivity. }
  destruct Hresp as [reply [-> ->]]. clear Hresume.
  destruct (has_session (Py.dict_get "session_id" cookies)) eqn:Hhas.
  - simpl. split; [reflexivity|]. split; [reflexivity|]. left.
    destruct (Py.dict_get "session_id" cookies) as [sid|]; [|discriminate].
    simpl in *.
    assert (Hne : sid <> EmptyString).
    { intros ->. discriminate Hhas. }
    unfold validate_session in Hbegin.
    destruct (sessions sm !! sid) as [old|] eqn:E; [|discriminate].
    destruct (Qgtb _ _) eqn:Hq; [discriminate|]. simpl in Hbegin.
    injection Hbegin as <-. exists old.
    split; [reflexivity|]. split; [exact Hne|]. split; [reflexivity|].
    split; [exact Hq|]. split; [apply lookup_insert_eq|reflexivity].
  - simpl. split; [reflexivity|]. split; [reflexivity|]. right.
    simpl in Hbegin. injection Hbegin as <-.
    split; [reflexivity|]. split; [reflexivity|]. split; [reflexivity|].
    split; [apply lookup_insert_eq|].
    intros other Hother. apply lookup_insert_ne. congruence.
Qed.

(** X25. A request that is refused never leaves a new session behind,
    and is always refused with an [HTTPException]: whatever goes wrong in
    the body, the validation or the backend, every session of the registry
    afterwards was there before. *)
Theorem refused_query_creates_no_session (cookies : Py.dict string)
    (client_host : option string) (body : outcome pyval) (now : Q)
    (token : string) (t_created t_accessed : Q) (backend : @backend_t D)
    (sm sm' : SessionManager) (d d' : D) (e : exn) :
  query cookies client_host body now token t_created t_accessed backend sm d
  = (Raised e, (sm', d')) ->
  is_HTTPException e = true
  /\ (forall sid, is_Some (sessions sm' !! sid) -> is_Some (sessions sm !! sid)).
Proof.
  intros Hq. apply query_cases in Hq. simpl in Hq.
  destruct Hq as [He ->]. split; [exact He|].
  intros sid. destruct (has_session _); [|exact (fun x => x)].
  apply validate_keeps_known.
Qed.

(** X26. What the body may hold, for a request without session cookie: a
    body that is not a JSON object is answered 500; a missing, empty or
    blank [question] is answered 400; a [question] that is [null], a
    number, a boolean or an object is answered 500, not 400.  In none of
    these cases is the backend run or a session created. *)
Theorem query_body_edge_cases (cookies : Py.dict string)
    (client_host : option string) (body : pyval) (now : Q)
    (token : string) (t_created t_accessed : Q) (backend : @backend_t D)
    (sm : SessionManager) (d : D) :
  has_session (Py.dict_get "session_id" cookies) = false ->
  let run :=
    query cookies client_host (Returned body) now token t_created t_accessed
      backend sm d in
  let refused code detail := run = (Raised (HTTPException code detail), (sm, d)) in
  ((forall data, body <> PDict data) ->
   refused 500 "Internal server error")
  /\ (forall data,
        body = PDict data ->
        match Py.dict_get "question" data with
        | None => refused 400 "Invalid query"
        | Some (PStr s) =>
            Py.strip (list_ascii_of_string s) = [] ->
            refused 400 "Invalid query"
        | Some (PList []) => refused 400 "Invalid query"
        | Some _ => refused 500 "Internal server error"
        end).
Proof.
  intros Hnone. simpl. unfold query, query_begin, query_resume. rewrite Hnone. simpl. split.
  - intros Hnot. destruct body; try reflexivity.
    exfalso. apply (Hnot d0). reflexivity.
  - intros data ->.
    destruct (Py.dict_get "question" data) as [[| | |s|[|x l]|fields]|];
      simpl; try reflexivity.
    intros Hblank. unfold InputValidator.validate_query.
    rewrite Hblank. simpl. rewrite orb_true_r. reflexivity.
Qed.

End QueryFacts.

Lemma stale_cookie_refused_witness :
  fst (QueryRoute.query [("session_id", "tok")] (Some "10.0.0.7")
         (Returned hello_body) 4000 "new" 4000 4000 echo_backend
         one_session 0%nat)
  = Raised (HTTPException 401 "Invalid or expired session").
Proof.
  edestruct (stale_cookie_refused [("session_id", "tok")] (Some "10.0.0.7")
               (Returned hello_body) 4000%Q "new" 4000%Q 4000%Q echo_backend
               one_session 0%nat "tok") as [Hq _].
  - reflexivity.
  - discriminate.
  - vm_compute. reflexivity.
  - rewrite Hq. reflexivity.
Defined.

Lemma answered_query_has_session_witness :
  let elsewhere := Security.end_session "tok" in
  exists checked resp sm' d',
    QueryRoute.query_begin [("session_id", "tok")] 10 one_session
    = (Returned tt, checked)
    /\ QueryRoute.query_resume [("session_id", "tok")] (Some "10.0.0.7")
         (Returned hello_body) "new" 10 10 echo_backend
         (elsewhere checked) 0%nat
       = (Returned resp, (sm', d'))
    /\ QueryRoute.status_code resp = 200
    /\ QueryRoute.session_cookie resp = "tok"
    /\ Security.sessions checked !! "tok"
       = Some (Security.mkSession "10.0.0.7" 0 10)
    /\ Security.sessions sm' !! "tok" = None.
Proof.
  intros elsewhere. do 4 eexists.
  split; [vm_compute; reflexivity|]. split; [vm_compute; reflexivity|].
  match goal with
  | |- _ /\ QueryRoute.session_cookie ?r = _
       /\ Security.sessions ?c !! _ = _ /\ Security.sessions ?s !! _ = _ =>
      destruct (answered_query_has_session [("session_id", "tok")]
                  (Some "10.0.0.7") (Returned hello_body) 10%Q "new" 10%Q
                  10%Q echo_backend one_session c (elsewhere c) s 0%nat
                  1%nat r)
        as [Hstatus [_ [[old [Hc [_ [Hold [_ [Hchecked Hsame]]]]]]|[Hnone _]]]]
  end.
  - vm_compute. reflexivity.
  - vm_compute. reflexivity.
  - split; [exact Hstatus|]. split; [reflexivity|].
    split; [|rewrite Hsame; vm_compute; reflexivity].
    vm_compute in Hold. injection Hold as <-. exact Hchecked.
  - discriminate Hnone.
Defined.

Lemma refused_query_creates_no_session_witness :
  exists e sm' d',
    QueryRoute.query [] (Some "10.0.0.8")
      (Returned (PDict [("question", PStr "<script>alert(1)</script>")]))
      10 "new" 10 10 echo_backend one_session 0%nat
    = (Raised e, (sm', d'))
    /\ is_HTTPException e = true
    /\ ~ is_Some (Security.sessions sm' !! "new").
Proof.
  do 3 eexists. split; [vm_compute; reflexivity|].
  match goal with
  | |- is_HTTPException ?e = _ /\ ~ is_Some (Security.sessions ?s !! _) =>
      destruct (refused_query_creates_no_session [] (Some "10.0.0.8")
                  (Returned (PDict [("question",
                                     PStr "<script>alert(1)</script>")]))
                  10%Q "new" 10%Q 10%Q echo_backend one_session s
                  0%nat 0%nat e)
        as [He Hkeep]
  end.
  - vm_compute. reflexivity.
  - split; [exact He|]. intros Hsome. apply Hkeep in Hsome.
    vm_compute in Hsome. destruct Hsome as [x Hx]. discriminate Hx.
Defined.

Lemma query_body_edge_cases_witness :
  QueryRoute.query [] (Some "10.0.0.8")
    (Returned (PDict [("question", PNone)])) 10 "new" 10 10 echo_backend
    one_session 0%nat
  = (Raised (HTTPException 500 "Internal server error"), (one_session, 0%nat)).
Proof.
  apply (proj2 (query_body_edge_cases [] (Some "10.0.0.8")
                  (PDict [("question", PNone)]) 10%Q "new" 10%Q 10%Q
                  echo_backend one_session 0%nat eq_refl)
           [("question", PNone)] eq_refl).
Defined.

(** ** Allowed origins *)

Section CorsFacts.

Import Cors.

Lemma split_on_no_sep sep l :
  List.Forall (fun piece => ~ In sep piece) (split_on sep l).
Proof.
  induction l as [|c l IH]; simpl.
  - constructor; [intros []|constructor].
  - destruct (Ascii.eqb c sep) eqn:E.
    + constructor; [intros []|exact IH].
    + apply Ascii.eqb_neq in E.
      destruct (split_on sep l) as [|piece pieces].
      * constructor; [|constructor]. intros [Heq|[]]. congruence.
      * inversion IH as [|? ? Hpiece Hrest]; subst.
        constructor; [|exact Hrest]. intros [Heq|Hin]; [congruence|].
        apply Hpiece. exact Hin.
Qed.

(** X27. The origins read from [CORS_ORIGINS] are clean: none is empty,
    none has white space around it, none contains a comma; entries that
    are empty or blank are dropped.  When the variable is unset or is the
    wildcard alone, the origins are [["*"]] and credentials are off. *)
Theorem parsed_origins_are_clean (env : option string) :
  List.Forall
    (fun origin =>
       origin <> EmptyString
       /\ InputValidator.sanitize_text origin = origin
       /\ ~ In ","%char (list_ascii_of_string origin))
    (_parse_cors_origins env)
  /\ (env = None \/ env = Some "*" ->
      _parse_cors_origins env = ["*"]
      /\ allow_credentials (_parse_cors_origins env) = false).
Proof.
  split.
  - unfold _parse_cors_origins.
    destruct (String.eqb (default "*" env) "*").
    + constructor; [|constructor].
      split; [discriminate|]. split; [reflexivity|].
      simpl. intros [Heq|[]]. discriminate Heq.
    + pose proof (split_on_no_sep ","
                    (list_ascii_of_string (default "*" env))) as Hpieces.
      induction Hpieces as [|piece pieces Hpiece _ IH]; simpl;
        [constructor|].
      destruct (Py.strip piece) as [|c r] eqn:Hstrip; [exact IH|].
      simpl. constructor; [|exact IH]. rewrite Hstrip.
      destruct (strip_spec piece) as [ws1 [ws2 [Hp [_ [_ Hidem]]]]].
      rewrite Hstrip in Hp, Hidem.
      split; [discriminate|]. split.
      * unfold InputValidator.sanitize_text.
        rewrite list_ascii_of_string_of_list_ascii.
        destruct Hidem as [Hnil|Hidem]; [discriminate|].
        rewrite Hidem. reflexivity.
      * rewrite list_ascii_of_string_of_list_ascii. intros Hin.
        apply Hpiece. rewrite Hp. apply in_or_app. right.
        apply in_or_app. left. exact Hin.
  - intros [->| ->]; split; reflexivity.
Qed.

End CorsFacts.

Lemma parsed_origins_are_clean_witness :
  Cors._parse_cors_origins None = ["*"]
  /\ Cors.allow_credentials (Cors._parse_cors_origins None) = false.
Proof.
  apply (proj2 (parsed_origins_are_clean None)). left. reflexivity.
Defined.

(** ** The upload route *)

Section UploadFacts.

Import Upload.

Context {A : Type}.

(** X28. Every refusal of an upload is a 500: whether the content type is
    not allowed, the file is larger than 1 MiB, the bytes are not UTF-8 or
    the ingestion fails, the route raises
    [HTTPException(500, "Failed to upload file")], the 400 and 413 raised
    in its body being caught by its own handler.  In the first three cases
    nothing is ingested. *)
Theorem upload_refusals_are_500 (content_type : option string)
    (filename content : string) (decode : string -> option string)
    (ingest : list string -> A -> outcome unit * A) (a : A) :
  (forall e,
     fst (upload_file content_type filename content decode ingest a)
     = Raised e ->
     e = HTTPException 500 "Failed to upload file")
  /\ ((forall t, content_type = Some t -> ~ In t allowed_types)
      \/ max_size < Z.of_nat (String.length content)
      \/ decode content = None ->
      upload_file content_type filename content decode ingest a
      = (Raised (HTTPException 500 "Failed to upload file"), a)).
Proof.
  unfold upload_file. split.
  - intros e.
    destruct (negb _); simpl; [intros [= <-]; reflexivity|].
    destruct (_ >? _); simpl; [intros [= <-]; reflexivity|].
    destruct (decode content); simpl; [|intros [= <-]; reflexivity].
    destruct (ingest _ a) as [[u|e0] a']; simpl;
      [discriminate|intros [= <-]; reflexivity].
  - intros Hbad.
    destruct (negb _) eqn:Htype; simpl; [reflexivity|].
    destruct (_ >? _) eqn:Hsize; simpl; [reflexivity|].
    destruct (decode content) eqn:Hdec; simpl; [|reflexivity].
    exfalso. destruct Hbad as [Hbad|[Hbad|Hbad]].
    + apply negb_false_iff in Htype.
      destruct content_type as [t|]; [|discriminate].
      apply existsb_exists in Htype. destruct Htype as [x [Hin Heq]].
      apply String.eqb_eq in Heq. subst x. exact (Hbad t eq_refl Hin).
    + apply Z.gtb_lt in Hbad. rewrite Hbad in Hsize. discriminate.
    + discriminate.
Qed.

End UploadFacts.

Lemma upload_refusals_are_500_witness :
  Upload.upload_file (Some "application/pdf") "report.pdf" "%PDF"
    (fun s => Some s) counting_ingest 0%nat
  = (Raised (HTTPException 500 "Failed to upload file"), 0%nat).
Proof.
  apply (proj2 (upload_refusals_are_500 (Some "application/pdf") "report.pdf"
                  "%PDF" (fun s => Some s) counting_ingest 0%nat)).
  left. intros t [= <-]. simpl. intuition discriminate.
Defined.
